(** * K*(892) -> K0s gamma analysis task: candidate selection and pairing

    A shallow embedding of the selection and pairing code of
    [PWGLF/Tasks/Resonances/kstarToK0Gamma.cxx]:
    [isV0Selected], [analyseV0Candidate], [fillQAplot],
    [analyseV0PairCandidate], [checkTrackIndices] and [buildV0V0Pairs];
    of its event loop: [initCCDB], [loadMachines], [isEventAccepted],
    [fillEventHistograms], [processRealData] and [processMonteCarlo];
    and of the two process functions of
    [PWGLF/Tasks/Strangeness/readv0s.cxx].

    - C++ [float] and [double] values are IEEE 754 binary32 / binary64
      numbers, modelled with the Standard Library's [spec_float] (signed
      zeros, infinities, NaN, round-to-nearest-even arithmetic).
    - [int], [uint8_t], [int64_t], [uint64_t] values are [Z]; the
      selection and pairing code only compares them, and the two
      conversions of the event loop, [int] to [uint8_t] for the gap side
      and [uint64_t] to [int64_t] for the time stamp, are written out
      ([to_uint8], [to_int64]).
    - [std::vector<bool>] masks are [list bool], read and written by index
      with stdpp's [!!] and [<[ _ := _ ]>]; an index outside the vector is
      undefined behaviour in the source and [None] here.
    - The histogram registry is the log of the [fill] calls performed. *)

From Stdlib Require Import ZArith List Bool String Lia.
From Stdlib Require Import SpecFloat.
From stdpp Require Import base option list.

Open Scope Z_scope.

(** ** IEEE 754 numbers as the C++ code uses them *)
Module IEEE.

(** binary32 ([float]) and binary64 ([double]) values. *)
Definition float := spec_float.
Definition double := spec_float.

Definition nan : spec_float := S754_nan.
Definition pinf : spec_float := S754_infinity false.
Definition ninf : spec_float := S754_infinity true.
Definition zero : spec_float := S754_zero false.

(** [m * 2^e] rounded to the nearest [float] / [double]. *)
Definition f32 (m e : Z) : float := binary_normalize 24 128 m e false.
Definition d64 (m e : Z) : double := binary_normalize 53 1024 m e false.

(** Decimal literals: the [float] / [double] nearest to [n / d], for
    integers [n], [d] that are themselves representable. *)
Definition f32q (n d : Z) : float := SFdiv 24 128 (f32 n 0) (f32 d 0).
Definition d64q (n d : Z) : double := SFdiv 53 1024 (d64 n 0) (d64 d 0).

(** Implicit promotion [float] -> [double] (exact). *)
Definition to_double (x : float) : double :=
  match x with
  | S754_finite s m e => binary_normalize 53 1024 (cond_Zopp s (Zpos m)) e s
  | _ => x
  end.

(** Conversion [double] -> [float] (rounds to nearest even). *)
Definition to_float (x : double) : float :=
  match x with
  | S754_finite s m e => binary_normalize 24 128 (cond_Zopp s (Zpos m)) e s
  | _ => x
  end.

(** Integer to [double], as done when an integer is handed to [fill]. *)
Definition int_to_double (z : Z) : double := d64 z 0.

(** [a < b] and [a > b]; both are false as soon as one side is NaN. *)
Definition lt (a b : spec_float) : bool := SFltb a b.
Definition gt (a b : spec_float) : bool := SFltb b a.
Definition feq (a b : spec_float) : bool := SFeqb a b.
Definition le (a b : spec_float) : bool := SFleb a b.

(** [std::abs] / [std::fabs]. *)
Definition fabs (a : spec_float) : spec_float := SFabs a.

Definition fadd (a b : float) : float := SFadd 24 128 a b.
Definition fsub (a b : float) : float := SFsub 24 128 a b.
Definition fmul (a b : float) : float := SFmul 24 128 a b.
Definition dadd (a b : double) : double := SFadd 53 1024 a b.
Definition dsub (a b : double) : double := SFsub 53 1024 a b.
Definition dmul (a b : double) : double := SFmul 53 1024 a b.
Definition ddiv (a b : double) : double := SFdiv 53 1024 a b.
Definition dsqrt (a : double) : double := SFsqrt 53 1024 a.

Definition is_nan (a : spec_float) : bool :=
  match a with S754_nan => true | _ => false end.

End IEEE.
Import IEEE.

(** ** Data model *)

(** A row of [DauTracks = soa::Join<aod::DauTrackExtras, aod::DauTrackTPCPIDs>]. *)
Module DauTrack.
Record t := mk {
  itsChi2PerNcl : float;
  itsNCls : Z;
  tpcCrossedRows : Z;
  detectorMap : Z;
  tpcNSigmaEl : float;
  tpcNSigmaPi : float
}.
End DauTrack.

(** A row of [soa::Join<aod::V0MCCores, aod::V0MCCollRefs>]. *)
Module V0MCCore.
Record t := mk {
  pdgCode : Z;
  pdgCodePositive : Z;
  pdgCodeNegative : Z;
  pdgCodeMother : Z;
  pxMC : float;
  pyMC : float;
  pzMC : float
}.
End V0MCCore.

(** The columns of a V0 candidate row that the task reads. *)
Module V0.
Record t := mk {
  globalIndex : Z;
  posTrackExtraId : Z;
  negTrackExtraId : Z;
  v0MCCoreId : Z;
  x : float;
  y : float;
  z : float;
  px : float;
  py : float;
  pz : float;
  negativeeta : float;
  positiveeta : float;
  v0Type : Z;
  v0radius : float;
  dcapostopv : float;
  dcanegtopv : float;
  v0cosPA : float;
  dcaV0daughters : float;
  dcav0topv : float;
  mGamma : float;
  mK0Short : float;
  mLambda : float;
  qtarm : float;
  alpha : float;
  posTOFDeltaTK0Pi : float;
  negTOFDeltaTK0Pi : float;
  tofNSigmaK0PiPlus : float;
  tofNSigmaK0PiMinus : float;
  k0ShortBDTScore : float;
  antiLambdaBDTScore : float
}.

(** Rows that differ from [r] in the named columns only. *)
Definition with_z (z' : float) (r : t) : t :=
  mk (globalIndex r) (posTrackExtraId r) (negTrackExtraId r) (v0MCCoreId
     r) (x r) (y r) z' (px r) (py r) (pz r) (negativeeta r) (positiveeta
     r) (v0Type r) (v0radius r) (dcapostopv r) (dcanegtopv r) (v0cosPA
     r) (dcaV0daughters r) (dcav0topv r) (mGamma r) (mK0Short r)
     (mLambda r) (qtarm r) (alpha r) (posTOFDeltaTK0Pi r)
     (negTOFDeltaTK0Pi r) (tofNSigmaK0PiPlus r) (tofNSigmaK0PiMinus r)
     (k0ShortBDTScore r) (antiLambdaBDTScore r).

Definition with_armenteros (qtarm' : float) (alpha' : float) (r : t) : t :=
  mk (globalIndex r) (posTrackExtraId r) (negTrackExtraId r) (v0MCCoreId
     r) (x r) (y r) (z r) (px r) (py r) (pz r) (negativeeta r)
     (positiveeta r) (v0Type r) (v0radius r) (dcapostopv r) (dcanegtopv
     r) (v0cosPA r) (dcaV0daughters r) (dcav0topv r) (mGamma r)
     (mK0Short r) (mLambda r) qtarm' alpha' (posTOFDeltaTK0Pi r)
     (negTOFDeltaTK0Pi r) (tofNSigmaK0PiPlus r) (tofNSigmaK0PiMinus r)
     (k0ShortBDTScore r) (antiLambdaBDTScore r).

Definition with_dcatopv (dcapostopv' : float) (dcanegtopv' : float) (r : t) : t :=
  mk (globalIndex r) (posTrackExtraId r) (negTrackExtraId r) (v0MCCoreId
     r) (x r) (y r) (z r) (px r) (py r) (pz r) (negativeeta r)
     (positiveeta r) (v0Type r) (v0radius r) dcapostopv' dcanegtopv'
     (v0cosPA r) (dcaV0daughters r) (dcav0topv r) (mGamma r) (mK0Short
     r) (mLambda r) (qtarm r) (alpha r) (posTOFDeltaTK0Pi r)
     (negTOFDeltaTK0Pi r) (tofNSigmaK0PiPlus r) (tofNSigmaK0PiMinus r)
     (k0ShortBDTScore r) (antiLambdaBDTScore r).

Definition with_v0cosPA (v0cosPA' : float) (r : t) : t :=
  mk (globalIndex r) (posTrackExtraId r) (negTrackExtraId r) (v0MCCoreId
     r) (x r) (y r) (z r) (px r) (py r) (pz r) (negativeeta r)
     (positiveeta r) (v0Type r) (v0radius r) (dcapostopv r) (dcanegtopv
     r) v0cosPA' (dcaV0daughters r) (dcav0topv r) (mGamma r) (mK0Short
     r) (mLambda r) (qtarm r) (alpha r) (posTOFDeltaTK0Pi r)
     (negTOFDeltaTK0Pi r) (tofNSigmaK0PiPlus r) (tofNSigmaK0PiMinus r)
     (k0ShortBDTScore r) (antiLambdaBDTScore r).

Definition with_dcaV0daughters (dcaV0daughters' : float) (r : t) : t :=
  mk (globalIndex r) (posTrackExtraId r) (negTrackExtraId r) (v0MCCoreId
     r) (x r) (y r) (z r) (px r) (py r) (pz r) (negativeeta r)
     (positiveeta r) (v0Type r) (v0radius r) (dcapostopv r) (dcanegtopv
     r) (v0cosPA r) dcaV0daughters' (dcav0topv r) (mGamma r) (mK0Short
     r) (mLambda r) (qtarm r) (alpha r) (posTOFDeltaTK0Pi r)
     (negTOFDeltaTK0Pi r) (tofNSigmaK0PiPlus r) (tofNSigmaK0PiMinus r)
     (k0ShortBDTScore r) (antiLambdaBDTScore r).

Definition with_dcav0topv (dcav0topv' : float) (r : t) : t :=
  mk (globalIndex r) (posTrackExtraId r) (negTrackExtraId r) (v0MCCoreId
     r) (x r) (y r) (z r) (px r) (py r) (pz r) (negativeeta r)
     (positiveeta r) (v0Type r) (v0radius r) (dcapostopv r) (dcanegtopv
     r) (v0cosPA r) (dcaV0daughters r) dcav0topv' (mGamma r) (mK0Short
     r) (mLambda r) (qtarm r) (alpha r) (posTOFDeltaTK0Pi r)
     (negTOFDeltaTK0Pi r) (tofNSigmaK0PiPlus r) (tofNSigmaK0PiMinus r)
     (k0ShortBDTScore r) (antiLambdaBDTScore r).

Definition with_mK0Short (mK0Short' : float) (r : t) : t :=
  mk (globalIndex r) (posTrackExtraId r) (negTrackExtraId r) (v0MCCoreId
     r) (x r) (y r) (z r) (px r) (py r) (pz r) (negativeeta r)
     (positiveeta r) (v0Type r) (v0radius r) (dcapostopv r) (dcanegtopv
     r) (v0cosPA r) (dcaV0daughters r) (dcav0topv r) (mGamma r)
     mK0Short' (mLambda r) (qtarm r) (alpha r) (posTOFDeltaTK0Pi r)
     (negTOFDeltaTK0Pi r) (tofNSigmaK0PiPlus r) (tofNSigmaK0PiMinus r)
     (k0ShortBDTScore r) (antiLambdaBDTScore r).
End V0.

Module Collision.
Record t := mk {
  posX : float;
  posY : float;
  posZ : float
}.
End Collision.

(** The V0 rows grouped to one collision: [offset()] and the rows in
    iteration order. *)
Module V0Table.
Record t := mk {
  offset : Z;
  rows : list V0.t
}.
Definition size (tb : t) : nat := length (rows tb).
End V0Table.

(** ** Configurables *)

Module v0Selections.
Record t := mk {
  v0TypeSelection : Z;
  daughterEtaCut : float;
  v0cospa : float;
  dcav0dau : float;
  dcav0topv : float;
  dcapostopv : float;
  dcanegtopv : float;
  v0radius : float;
  v0radiusMax : float;
  lifetimeCut : float;
  v0MassWindow : float;
  compMassRejection : float;
  armPodCut : float;
  minTPCrows : Z;
  minITSclusters : Z;
  skipTPConly : bool;
  requirePosITSonly : bool;
  requireNegITSonly : bool;
  rejectPosITSafterburner : bool;
  rejectNegITSafterburner : bool;
  tpcPidNsigmaCut : float;
  tofPidNsigmaCutLaPr : float;
  tofPidNsigmaCutLaPi : float;
  tofPidNsigmaCutK0Pi : float;
  maxDeltaTimeProton : float;
  maxDeltaTimePion : float
}.

(** The group with one configurable changed. *)
Definition with_daughterEtaCut (daughterEtaCut' : float) (r : t) : t :=
  mk (v0TypeSelection r) daughterEtaCut' (v0cospa r) (dcav0dau r)
     (dcav0topv r) (dcapostopv r) (dcanegtopv r) (v0radius r)
     (v0radiusMax r) (lifetimeCut r) (v0MassWindow r) (compMassRejection
     r) (armPodCut r) (minTPCrows r) (minITSclusters r) (skipTPConly r)
     (requirePosITSonly r) (requireNegITSonly r)
     (rejectPosITSafterburner r) (rejectNegITSafterburner r)
     (tpcPidNsigmaCut r) (tofPidNsigmaCutLaPr r) (tofPidNsigmaCutLaPi r)
     (tofPidNsigmaCutK0Pi r) (maxDeltaTimeProton r) (maxDeltaTimePion r).

Definition with_v0TypeSelection (v0TypeSelection' : Z) (r : t) : t :=
  mk v0TypeSelection' (daughterEtaCut r) (v0cospa r) (dcav0dau r)
     (dcav0topv r) (dcapostopv r) (dcanegtopv r) (v0radius r)
     (v0radiusMax r) (lifetimeCut r) (v0MassWindow r) (compMassRejection
     r) (armPodCut r) (minTPCrows r) (minITSclusters r) (skipTPConly r)
     (requirePosITSonly r) (requireNegITSonly r)
     (rejectPosITSafterburner r) (rejectNegITSafterburner r)
     (tpcPidNsigmaCut r) (tofPidNsigmaCutLaPr r) (tofPidNsigmaCutLaPi r)
     (tofPidNsigmaCutK0Pi r) (maxDeltaTimeProton r) (maxDeltaTimePion r).

Definition with_v0cospa (v0cospa' : float) (r : t) : t :=
  mk (v0TypeSelection r) (daughterEtaCut r) v0cospa' (dcav0dau r)
     (dcav0topv r) (dcapostopv r) (dcanegtopv r) (v0radius r)
     (v0radiusMax r) (lifetimeCut r) (v0MassWindow r) (compMassRejection
     r) (armPodCut r) (minTPCrows r) (minITSclusters r) (skipTPConly r)
     (requirePosITSonly r) (requireNegITSonly r)
     (rejectPosITSafterburner r) (rejectNegITSafterburner r)
     (tpcPidNsigmaCut r) (tofPidNsigmaCutLaPr r) (tofPidNsigmaCutLaPi r)
     (tofPidNsigmaCutK0Pi r) (maxDeltaTimeProton r) (maxDeltaTimePion r).

Definition with_dcav0dau (dcav0dau' : float) (r : t) : t :=
  mk (v0TypeSelection r) (daughterEtaCut r) (v0cospa r) dcav0dau'
     (dcav0topv r) (dcapostopv r) (dcanegtopv r) (v0radius r)
     (v0radiusMax r) (lifetimeCut r) (v0MassWindow r) (compMassRejection
     r) (armPodCut r) (minTPCrows r) (minITSclusters r) (skipTPConly r)
     (requirePosITSonly r) (requireNegITSonly r)
     (rejectPosITSafterburner r) (rejectNegITSafterburner r)
     (tpcPidNsigmaCut r) (tofPidNsigmaCutLaPr r) (tofPidNsigmaCutLaPi r)
     (tofPidNsigmaCutK0Pi r) (maxDeltaTimeProton r) (maxDeltaTimePion r).

Definition with_dcav0topv (dcav0topv' : float) (r : t) : t :=
  mk (v0TypeSelection r) (daughterEtaCut r) (v0cospa r) (dcav0dau r)
     dcav0topv' (dcapostopv r) (dcanegtopv r) (v0radius r) (v0radiusMax
     r) (lifetimeCut r) (v0MassWindow r) (compMassRejection r)
     (armPodCut r) (minTPCrows r) (minITSclusters r) (skipTPConly r)
     (requirePosITSonly r) (requireNegITSonly r)
     (rejectPosITSafterburner r) (rejectNegITSafterburner r)
     (tpcPidNsigmaCut r) (tofPidNsigmaCutLaPr r) (tofPidNsigmaCutLaPi r)
     (tofPidNsigmaCutK0Pi r) (maxDeltaTimeProton r) (maxDeltaTimePion r).

Definition with_v0MassWindow (v0MassWindow' : float) (r : t) : t :=
  mk (v0TypeSelection r) (daughterEtaCut r) (v0cospa r) (dcav0dau r)
     (dcav0topv r) (dcapostopv r) (dcanegtopv r) (v0radius r)
     (v0radiusMax r) (lifetimeCut r) v0MassWindow' (compMassRejection r)
     (armPodCut r) (minTPCrows r) (minITSclusters r) (skipTPConly r)
     (requirePosITSonly r) (requireNegITSonly r)
     (rejectPosITSafterburner r) (rejectNegITSafterburner r)
     (tpcPidNsigmaCut r) (tofPidNsigmaCutLaPr r) (tofPidNsigmaCutLaPi r)
     (tofPidNsigmaCutK0Pi r) (maxDeltaTimeProton r) (maxDeltaTimePion r).

Definition with_armPodCut (armPodCut' : float) (r : t) : t :=
  mk (v0TypeSelection r) (daughterEtaCut r) (v0cospa r) (dcav0dau r)
     (dcav0topv r) (dcapostopv r) (dcanegtopv r) (v0radius r)
     (v0radiusMax r) (lifetimeCut r) (v0MassWindow r) (compMassRejection
     r) armPodCut' (minTPCrows r) (minITSclusters r) (skipTPConly r)
     (requirePosITSonly r) (requireNegITSonly r)
     (rejectPosITSafterburner r) (rejectNegITSafterburner r)
     (tpcPidNsigmaCut r) (tofPidNsigmaCutLaPr r) (tofPidNsigmaCutLaPi r)
     (tofPidNsigmaCutK0Pi r) (maxDeltaTimeProton r) (maxDeltaTimePion r).
End v0Selections.

Module photonSelections.
Record t := mk {
  v0TypeSelection : Z;
  daughterEtaCut : float;
  photonZMax : float;
  v0cospa : float;
  dcav0dau : float;
  dcav0topv : float;
  dcanegtopv : float;
  dcapostopv : float;
  v0radius : float;
  v0radiusMax : float;
  photonMassMax : float;
  armPodCut : float;
  minTPCrows : Z;
  minITSclusters : Z;
  skipTPConly : bool;
  requirePosITSonly : bool;
  requireNegITSonly : bool;
  rejectPosITSafterburner : bool;
  rejectNegITSafterburner : bool;
  tpcPidNsigmaCut : float
}.

(** The group with one configurable changed. *)
Definition with_photonZMax (photonZMax' : float) (r : t) : t :=
  mk (v0TypeSelection r) (daughterEtaCut r) photonZMax' (v0cospa r)
     (dcav0dau r) (dcav0topv r) (dcanegtopv r) (dcapostopv r) (v0radius
     r) (v0radiusMax r) (photonMassMax r) (armPodCut r) (minTPCrows r)
     (minITSclusters r) (skipTPConly r) (requirePosITSonly r)
     (requireNegITSonly r) (rejectPosITSafterburner r)
     (rejectNegITSafterburner r) (tpcPidNsigmaCut r).

Definition with_v0cospa (v0cospa' : float) (r : t) : t :=
  mk (v0TypeSelection r) (daughterEtaCut r) (photonZMax r) v0cospa'
     (dcav0dau r) (dcav0topv r) (dcanegtopv r) (dcapostopv r) (v0radius
     r) (v0radiusMax r) (photonMassMax r) (armPodCut r) (minTPCrows r)
     (minITSclusters r) (skipTPConly r) (requirePosITSonly r)
     (requireNegITSonly r) (rejectPosITSafterburner r)
     (rejectNegITSafterburner r) (tpcPidNsigmaCut r).

Definition with_dcav0dau (dcav0dau' : float) (r : t) : t :=
  mk (v0TypeSelection r) (daughterEtaCut r) (photonZMax r) (v0cospa r)
     dcav0dau' (dcav0topv r) (dcanegtopv r) (dcapostopv r) (v0radius r)
     (v0radiusMax r) (photonMassMax r) (armPodCut r) (minTPCrows r)
     (minITSclusters r) (skipTPConly r) (requirePosITSonly r)
     (requireNegITSonly r) (rejectPosITSafterburner r)
     (rejectNegITSafterburner r) (tpcPidNsigmaCut r).

Definition with_dcav0topv (dcav0topv' : float) (r : t) : t :=
  mk (v0TypeSelection r) (daughterEtaCut r) (photonZMax r) (v0cospa r)
     (dcav0dau r) dcav0topv' (dcanegtopv r) (dcapostopv r) (v0radius r)
     (v0radiusMax r) (photonMassMax r) (armPodCut r) (minTPCrows r)
     (minITSclusters r) (skipTPConly r) (requirePosITSonly r)
     (requireNegITSonly r) (rejectPosITSafterburner r)
     (rejectNegITSafterburner r) (tpcPidNsigmaCut r).

Definition with_armPodCut (armPodCut' : float) (r : t) : t :=
  mk (v0TypeSelection r) (daughterEtaCut r) (photonZMax r) (v0cospa r)
     (dcav0dau r) (dcav0topv r) (dcanegtopv r) (dcapostopv r) (v0radius
     r) (v0radiusMax r) (photonMassMax r) armPodCut' (minTPCrows r)
     (minITSclusters r) (skipTPConly r) (requirePosITSonly r)
     (requireNegITSonly r) (rejectPosITSafterburner r)
     (rejectNegITSafterburner r) (tpcPidNsigmaCut r).

Definition with_daughterEtaCut (daughterEtaCut' : float) (r : t) : t :=
  mk (v0TypeSelection r) daughterEtaCut' (photonZMax r) (v0cospa r)
     (dcav0dau r) (dcav0topv r) (dcanegtopv r) (dcapostopv r) (v0radius
     r) (v0radiusMax r) (photonMassMax r) (armPodCut r) (minTPCrows r)
     (minITSclusters r) (skipTPConly r) (requirePosITSonly r)
     (requireNegITSonly r) (rejectPosITSafterburner r)
     (rejectNegITSafterburner r) (tpcPidNsigmaCut r).

Definition with_v0TypeSelection (v0TypeSelection' : Z) (r : t) : t :=
  mk v0TypeSelection' (daughterEtaCut r) (photonZMax r) (v0cospa r)
     (dcav0dau r) (dcav0topv r) (dcanegtopv r) (dcapostopv r) (v0radius
     r) (v0radiusMax r) (photonMassMax r) (armPodCut r) (minTPCrows r)
     (minITSclusters r) (skipTPConly r) (requirePosITSonly r)
     (requireNegITSonly r) (rejectPosITSafterburner r)
     (rejectNegITSafterburner r) (tpcPidNsigmaCut r).
End photonSelections.

Module mlConfigurations.
Record t := mk {
  useK0ShortScores : bool;
  useGammaScores : bool;
  calculateK0ShortScores : bool;
  calculateGammaScores : bool;
  thresholdK0Short : float;
  thresholdGamma : float
}.
End mlConfigurations.

(** The configurables of [struct KstarToK0Gamma] read by the selection and
    pairing code. *)
Record KstarToK0Gamma := mkTask {
  doPPAnalysis : bool;
  doMCAssociation : bool;
  rapidityCut : float;
  v0Selections : v0Selections.t;
  photonSelections : photonSelections.t;
  mlConfigurations : mlConfigurations.t
}.

(** The task with one configurable group changed. *)
Definition with_v0Selections (g : v0Selections.t -> v0Selections.t)
    (task : KstarToK0Gamma) : KstarToK0Gamma :=
  mkTask (doPPAnalysis task) (doMCAssociation task) (rapidityCut task)
         (g (v0Selections task)) (photonSelections task) (mlConfigurations task).

Definition with_photonSelections (g : photonSelections.t -> photonSelections.t)
    (task : KstarToK0Gamma) : KstarToK0Gamma :=
  mkTask (doPPAnalysis task) (doMCAssociation task) (rapidityCut task)
         (v0Selections task) (g (photonSelections task)) (mlConfigurations task).

(** ** What the task takes from headers and services outside these files *)

(** [o2::constants::physics] and [o2::aod::track::TPC]: declared in headers
    that are not part of the task file, hence parameters. *)
Record Constants := mkConstants {
  MassK0Short : double;
  MassLambda0 : double;
  MassKaonNeutral : double;
  MassGamma : double;
  track_TPC : Z
}.

(** The joined tables, dynamic columns, [RecoDecay], the PDG database and
    the ONNX models.
    - [DauTracks_at i] is row [i] of the [DauTracks] table.
    - [V0MCCores_at] is [None] for a candidate table without Monte-Carlo
      information (the [requires] test of the source fails) and [Some] of
      the row lookup otherwise.
    - [distovertotmom X Y Z Px Py Pz pvX pvY pvZ] and [V0_p Px Py Pz] are
      the dynamic columns of the V0 table. *)
Record Framework := mkFramework {
  DauTracks_at : Z -> DauTrack.t;
  V0MCCores_at : option (Z -> V0MCCore.t);
  distovertotmom : float -> float -> float -> float -> float -> float ->
                   float -> float -> float -> float;
  V0_p : float -> float -> float -> float;
  std_pow : double -> Z -> double;
  RecoDecay_pt : float -> float -> float;
  RecoDecay_m : list (list float) -> list double -> float;
  RecoDecay_y : list float -> double -> float;
  pdgDB_Mass : Z -> double;
  mlCustomModelK0Short_evalModel : list float -> nat -> float;
  mlCustomModelGamma_evalModel : list float -> nat -> float
}.

(** [v0.posTrackExtra_as<DauTracks>()], [v0.negTrackExtra_as<DauTracks>()],
    [v0.v0MCCore_as<...>()], [v0.distovertotmom(pvX, pvY, pvZ)], [v0.p()]. *)
Definition posTrackExtra_as (fw : Framework) (v0 : V0.t) : DauTrack.t :=
  DauTracks_at fw (V0.posTrackExtraId v0).
Definition negTrackExtra_as (fw : Framework) (v0 : V0.t) : DauTrack.t :=
  DauTracks_at fw (V0.negTrackExtraId v0).
Definition v0MCCore_as (fw : Framework) : option (V0.t -> V0MCCore.t) :=
  match V0MCCores_at fw with
  | Some at_ => Some (fun v0 => at_ (V0.v0MCCoreId v0))
  | None => None
  end.
Definition V0_distovertotmom (fw : Framework) (v0 : V0.t)
    (pvX pvY pvZ : float) : float :=
  distovertotmom fw (V0.x v0) (V0.y v0) (V0.z v0)
                    (V0.px v0) (V0.py v0) (V0.pz v0) pvX pvY pvZ.
Definition V0_p_of (fw : Framework) (v0 : V0.t) : float :=
  V0_p fw (V0.px v0) (V0.py v0) (V0.pz v0).

(** ** The histogram registry: the log of [fill] calls *)
Definition HistogramRegistry := list (string * list double).

Definition fill (name : string) (values : list double)
    (histos : HistogramRegistry) : HistogramRegistry :=
  histos ++ [(name, values)].

(** [uint64_t] results of [isV0Selected]: [return false] is 0 and
    [return true] is 1. *)
Definition uint64_false : Z := 0.
Definition uint64_true : Z := 1.
Definition bool_of_uint64 (r : Z) : bool := negb (r =? 0).

(** [if (c) return r;] followed by the rest of the function body. *)
Notation "'IF' c 'RETURN' r ';;' k" := (if c then r else k)
  (at level 10, c at level 99, r at level 99, k at level 200, only parsing).

(** ** Candidate selection *)
Section Selection.

Variable task : KstarToK0Gamma.
Variable pc : Constants.
Variable fw : Framework.

(** [isV0Selected(v0, collision, isPhoton)]: the photon-like cut list
    when [isPhoton], the K0-short-like cut list otherwise. *)
Definition isV0Selected (v0 : V0.t) (collision : Collision.t)
    (isPhoton : bool) : Z :=
  let photonSelections := photonSelections task in
  let v0Selections := v0Selections task in
  if isPhoton then
    (* Acceptance variables *)
    IF gt (V0.z v0) (photonSelections.photonZMax photonSelections)
      RETURN uint64_false ;;
    IF gt (fabs (V0.negativeeta v0)) (photonSelections.daughterEtaCut photonSelections)
       || gt (fabs (V0.positiveeta v0)) (photonSelections.daughterEtaCut photonSelections)
      RETURN uint64_false ;;
    IF (photonSelections.v0TypeSelection photonSelections >? -1)
       && negb (V0.v0Type v0 =? photonSelections.v0TypeSelection photonSelections)
      RETURN uint64_false ;;
    (* Base topological variables *)
    IF lt (V0.v0radius v0) (photonSelections.v0radius photonSelections)
      RETURN uint64_false ;;
    IF gt (V0.v0radius v0) (photonSelections.v0radiusMax photonSelections)
      RETURN uint64_false ;;
    IF lt (fabs (V0.dcapostopv v0)) (photonSelections.dcapostopv photonSelections)
      RETURN uint64_false ;;
    IF gt (fabs (V0.dcanegtopv v0)) (photonSelections.dcanegtopv photonSelections)
      RETURN uint64_false ;;
    IF lt (V0.v0cosPA v0) (photonSelections.v0cospa photonSelections)
      RETURN uint64_false ;;
    IF gt (V0.dcaV0daughters v0) (photonSelections.dcav0dau photonSelections)
      RETURN uint64_false ;;
    IF lt (V0.dcav0topv v0) (photonSelections.dcav0topv photonSelections)
      RETURN uint64_false ;;
    (* invariant mass selection *)
    IF gt (V0.mGamma v0) (photonSelections.photonMassMax photonSelections)
      RETURN uint64_false ;;
    let posTrackExtra := posTrackExtra_as fw v0 in
    let negTrackExtra := negTrackExtra_as fw v0 in
    (* ITS quality flags *)
    let posIsFromAfterburner := lt (DauTrack.itsChi2PerNcl posTrackExtra) zero in
    let negIsFromAfterburner := lt (DauTrack.itsChi2PerNcl negTrackExtra) zero in
    IF DauTrack.itsNCls posTrackExtra <? photonSelections.minITSclusters photonSelections
      RETURN uint64_false ;;
    IF DauTrack.itsNCls negTrackExtra <? photonSelections.minITSclusters photonSelections
      RETURN uint64_false ;;
    IF photonSelections.rejectPosITSafterburner photonSelections && posIsFromAfterburner
      RETURN uint64_false ;;
    IF photonSelections.rejectNegITSafterburner photonSelections && negIsFromAfterburner
      RETURN uint64_false ;;
    (* TPC quality flags *)
    IF DauTrack.tpcCrossedRows posTrackExtra <? photonSelections.minTPCrows photonSelections
      RETURN uint64_false ;;
    IF DauTrack.tpcCrossedRows negTrackExtra <? photonSelections.minTPCrows photonSelections
      RETURN uint64_false ;;
    (* TPC PID *)
    IF gt (fabs (DauTrack.tpcNSigmaEl posTrackExtra)) (photonSelections.tpcPidNsigmaCut photonSelections)
      RETURN uint64_false ;;
    IF gt (fabs (DauTrack.tpcNSigmaEl negTrackExtra)) (photonSelections.tpcPidNsigmaCut photonSelections)
      RETURN uint64_false ;;
    (* ITS only tag *)
    IF photonSelections.requirePosITSonly photonSelections
       && (DauTrack.tpcCrossedRows posTrackExtra >? 0)
      RETURN uint64_false ;;
    IF photonSelections.requireNegITSonly photonSelections
       && (DauTrack.tpcCrossedRows negTrackExtra >? 0)
      RETURN uint64_false ;;
    (* TPC only tag *)
    IF photonSelections.skipTPConly photonSelections
       && (DauTrack.detectorMap posTrackExtra =? track_TPC pc)
      RETURN uint64_false ;;
    IF photonSelections.skipTPConly photonSelections
       && (DauTrack.detectorMap negTrackExtra =? track_TPC pc)
      RETURN uint64_false ;;
    (* armenteros *)
    IF gt (to_double (photonSelections.armPodCut photonSelections)) (d64q 1 10000)
       && lt (fmul (V0.qtarm v0) (photonSelections.armPodCut photonSelections))
             (fabs (V0.alpha v0))
      RETURN uint64_false ;;
    (* MC association (if asked) *)
    if doMCAssociation task then
      match v0MCCore_as fw with
      | Some v0MCCore =>
          let v0MC := v0MCCore v0 in
          IF negb (V0MCCore.pdgCode v0MC =? 22)
             || negb (V0MCCore.pdgCodePositive v0MC =? 11)
             || negb (V0MCCore.pdgCodeNegative v0MC =? -11)
            RETURN uint64_false ;;
          uint64_true
      | None => uint64_true
      end
    else uint64_true
  else
    (* Acceptance variables *)
    IF gt (fabs (V0.negativeeta v0)) (photonSelections.daughterEtaCut photonSelections)
       || gt (fabs (V0.positiveeta v0)) (photonSelections.daughterEtaCut photonSelections)
      RETURN uint64_false ;;
    IF (photonSelections.v0TypeSelection photonSelections >? -1)
       && negb (V0.v0Type v0 =? photonSelections.v0TypeSelection photonSelections)
      RETURN uint64_false ;;
    (* Base topological variables *)
    IF lt (V0.v0radius v0) (v0Selections.v0radius v0Selections)
      RETURN uint64_false ;;
    IF gt (V0.v0radius v0) (v0Selections.v0radiusMax v0Selections)
      RETURN uint64_false ;;
    IF lt (fabs (V0.dcapostopv v0)) (v0Selections.dcapostopv v0Selections)
      RETURN uint64_false ;;
    IF gt (fabs (V0.dcanegtopv v0)) (v0Selections.dcanegtopv v0Selections)
      RETURN uint64_false ;;
    IF lt (V0.v0cosPA v0) (v0Selections.v0cospa v0Selections)
      RETURN uint64_false ;;
    IF gt (V0.dcaV0daughters v0) (v0Selections.dcav0dau v0Selections)
      RETURN uint64_false ;;
    IF lt (V0.dcav0topv v0) (v0Selections.dcav0topv v0Selections)
      RETURN uint64_false ;;
    (* invariant mass window *)
    IF gt (fabs (dsub (to_double (V0.mK0Short v0)) (MassK0Short pc)))
          (to_double (v0Selections.v0MassWindow v0Selections))
      RETURN uint64_false ;;
    (* competing mass rejection *)
    IF lt (fabs (dsub (to_double (V0.mLambda v0)) (MassLambda0 pc)))
          (to_double (v0Selections.compMassRejection v0Selections))
      RETURN uint64_false ;;
    let posTrackExtra := posTrackExtra_as fw v0 in
    let negTrackExtra := negTrackExtra_as fw v0 in
    (* ITS quality flags *)
    let posIsFromAfterburner := lt (DauTrack.itsChi2PerNcl posTrackExtra) zero in
    let negIsFromAfterburner := lt (DauTrack.itsChi2PerNcl negTrackExtra) zero in
    IF DauTrack.itsNCls posTrackExtra <? v0Selections.minITSclusters v0Selections
      RETURN uint64_false ;;
    IF DauTrack.itsNCls negTrackExtra <? v0Selections.minITSclusters v0Selections
      RETURN uint64_false ;;
    IF v0Selections.rejectPosITSafterburner v0Selections && posIsFromAfterburner
      RETURN uint64_false ;;
    IF v0Selections.rejectNegITSafterburner v0Selections && negIsFromAfterburner
      RETURN uint64_false ;;
    (* TPC quality flags *)
    IF DauTrack.tpcCrossedRows posTrackExtra <? v0Selections.minTPCrows v0Selections
      RETURN uint64_false ;;
    IF DauTrack.tpcCrossedRows negTrackExtra <? v0Selections.minTPCrows v0Selections
      RETURN uint64_false ;;
    (* TPC PID *)
    IF gt (fabs (DauTrack.tpcNSigmaPi posTrackExtra)) (v0Selections.tpcPidNsigmaCut v0Selections)
      RETURN uint64_false ;;
    IF gt (fabs (DauTrack.tpcNSigmaPi negTrackExtra)) (v0Selections.tpcPidNsigmaCut v0Selections)
      RETURN uint64_false ;;
    (* TOF PID in DeltaT *)
    IF gt (fabs (V0.posTOFDeltaTK0Pi v0)) (v0Selections.maxDeltaTimePion v0Selections)
      RETURN uint64_false ;;
    IF gt (fabs (V0.negTOFDeltaTK0Pi v0)) (v0Selections.maxDeltaTimePion v0Selections)
      RETURN uint64_false ;;
    (* TOF PID in NSigma *)
    IF gt (fabs (V0.tofNSigmaK0PiPlus v0)) (v0Selections.tofPidNsigmaCutK0Pi v0Selections)
      RETURN uint64_false ;;
    IF gt (fabs (V0.tofNSigmaK0PiMinus v0)) (v0Selections.tofPidNsigmaCutK0Pi v0Selections)
      RETURN uint64_false ;;
    (* ITS only tag *)
    IF v0Selections.requirePosITSonly v0Selections
       && (DauTrack.tpcCrossedRows posTrackExtra >? 0)
      RETURN uint64_false ;;
    IF v0Selections.requireNegITSonly v0Selections
       && (DauTrack.tpcCrossedRows negTrackExtra >? 0)
      RETURN uint64_false ;;
    (* TPC only tag *)
    IF v0Selections.skipTPConly v0Selections
       && (DauTrack.detectorMap posTrackExtra =? track_TPC pc)
      RETURN uint64_false ;;
    IF v0Selections.skipTPConly v0Selections
       && (DauTrack.detectorMap negTrackExtra =? track_TPC pc)
      RETURN uint64_false ;;
    (* proper lifetime *)
    IF gt (dmul (to_double (V0_distovertotmom fw v0 (Collision.posX collision)
                               (Collision.posY collision) (Collision.posZ collision)))
                (MassK0Short pc))
          (to_double (v0Selections.lifetimeCut v0Selections))
      RETURN uint64_false ;;
    (* armenteros *)
    IF gt (to_double (v0Selections.armPodCut v0Selections)) (d64q 1 10000)
       && lt (fmul (V0.qtarm v0) (v0Selections.armPodCut v0Selections))
             (fabs (V0.alpha v0))
      RETURN uint64_false ;;
    (* MC association (if asked) *)
    if doMCAssociation task then
      match v0MCCore_as fw with
      | Some v0MCCore =>
          let v0MC := v0MCCore v0 in
          IF negb (V0MCCore.pdgCode v0MC =? 310)
             || negb (V0MCCore.pdgCodePositive v0MC =? 211)
             || negb (V0MCCore.pdgCodeNegative v0MC =? -211)
            RETURN uint64_false ;;
          uint64_true
      | None => uint64_true
      end
    else uint64_true.

End Selection.

(** ** [std::vector<bool>] access by a signed index *)
Definition vec_get {A} (v : list A) (i : Z) : option A :=
  if i <? 0 then None else v !! Z.to_nat i.

Definition vec_set {A} (v : list A) (i : Z) (a : A) : option (list A) :=
  if (0 <=? i) && (i <? Z.of_nat (length v))
  then Some (<[Z.to_nat i := a]> v)
  else None.

(** [std::count(v.begin(), v.end(), true)]. *)
Definition count_true (v : list bool) : nat :=
  length (List.filter (fun b => b) v).

Section Analysis.

Variable task : KstarToK0Gamma.
Variable pc : Constants.
Variable fw : Framework.

(** The local [inputFeatures] of [analyseV0Candidate]. *)
Definition inputFeatures (v0 : V0.t) (pt : float) : list float :=
  [pt; zero; zero; V0.v0radius v0; V0.v0cosPA v0; V0.dcaV0daughters v0;
   V0.dcapostopv v0; V0.dcanegtopv v0].

(** The local [passK0ShortSelections] of [analyseV0Candidate]. *)
Definition passK0ShortSelections (v0 : V0.t) (collision : Collision.t)
    (pt : float) : bool :=
  let ml := mlConfigurations task in
  if mlConfigurations.useK0ShortScores ml then
    let k0shortScore :=
      if mlConfigurations.calculateK0ShortScores ml
      then mlCustomModelK0Short_evalModel fw (inputFeatures v0 pt) 1%nat
      else V0.k0ShortBDTScore v0 in
    if gt k0shortScore (mlConfigurations.thresholdK0Short ml) then true else false
  else bool_of_uint64 (isV0Selected task pc fw v0 collision false).

(** The local [passGammaSelections] of [analyseV0Candidate]. *)
Definition passGammaSelections (v0 : V0.t) (collision : Collision.t)
    (pt : float) : bool :=
  let ml := mlConfigurations task in
  if mlConfigurations.useGammaScores ml then
    let gammaScore :=
      if mlConfigurations.calculateGammaScores ml
      then mlCustomModelGamma_evalModel fw (inputFeatures v0 pt) 1%nat
      else V0.antiLambdaBDTScore v0 in
    if gt gammaScore (mlConfigurations.thresholdGamma ml) then true else false
  else bool_of_uint64 (isV0Selected task pc fw v0 collision true).

(** [analyseV0Candidate]: the two masks after the call, [None] when the
    local index falls outside a mask. *)
Definition analyseV0Candidate (v0 : V0.t) (collision : Collision.t)
    (pt : float) (selK0ShortIndices selGammaIndices : list bool)
    (v0TableOffset : Z) : option (list bool * list bool) :=
  selK ← vec_set selK0ShortIndices (V0.globalIndex v0 - v0TableOffset)
                 (passK0ShortSelections v0 collision pt);
  selG ← vec_set selGammaIndices (V0.globalIndex v0 - v0TableOffset)
                 (passGammaSelections v0 collision pt);
  Some (selK, selG).

(** The local [k0shortDecayLength] of [fillQAplot]. *)
Definition k0shortDecayLength (collision : Collision.t) (k0short : V0.t) : float :=
  let dx := to_double (fsub (V0.x k0short) (Collision.posX collision)) in
  let dy := to_double (fsub (V0.y k0short) (Collision.posY collision)) in
  let dz := to_double (fsub (V0.z k0short) (Collision.posZ collision)) in
  to_float
    (ddiv (dmul (dsqrt (dadd (dadd (std_pow fw dx 2) (std_pow fw dy 2))
                             (std_pow fw dz 2)))
                (MassKaonNeutral pc))
          (dadd (to_double (V0_p_of fw k0short)) (d64q 1 10000000000))).

(** One [histos.fill(HIST(name), values...)] call. *)
Definition entry (name : string) (values : list double) :
  string * list double := (name, values).

(** A run of [histos.fill] calls, in source order. *)
Definition fill_all (fills : list (string * list double))
    (histos : HistogramRegistry) : HistogramRegistry :=
  fold_left (fun h nv => fill (fst nv) (snd nv) h) fills histos.

Definition fillQAplot (collision : Collision.t) (k0short gamma : V0.t)
    (afterSel : Z) (histos : HistogramRegistry) : HistogramRegistry :=
  let posTrackExtraK0Short := posTrackExtra_as fw k0short in
  let negTrackExtraK0Short := negTrackExtra_as fw k0short in
  let posTrackExtraGamma := posTrackExtra_as fw gamma in
  let negTrackExtraGamma := negTrackExtra_as fw gamma in
  let F := to_double in
  let I := int_to_double in
  let decayLength := k0shortDecayLength collision k0short in
  if afterSel =? 0 then
    (* Candidates before any selections *)
    fill_all
      [
       (entry "K0sGamma/BeforeSel/hPosDCAToPV"
          [F (V0.dcapostopv k0short)]);
       (entry "K0sGamma/BeforeSel/hNegDCAToPV"
          [F (V0.dcanegtopv k0short)]);
       (entry "K0sGamma/BeforeSel/hDCAV0Daughters"
          [F (V0.dcaV0daughters k0short)]);
       (entry "K0sGamma/BeforeSel/hDCAV0ToPV"
          [F (V0.dcav0topv k0short)]);
       (entry "K0sGamma/BeforeSel/hV0PointingAngle"
          [F (V0.v0cosPA k0short)]);
       (entry "K0sGamma/BeforeSel/hV0Radius"
          [F (V0.v0radius k0short)]);
       (entry "K0sGamma/BeforeSel/hV0DecayLength"
          [F decayLength]);
       (entry "K0sGamma/BeforeSel/hV0InvMassWindow"
          [dsub (F (V0.mK0Short k0short)) (MassK0Short pc)]);
       (entry "K0sGamma/BeforeSel/h2dCompetingMassRej"
          [F (V0.mLambda k0short); F (V0.mK0Short k0short)]);
       (entry "K0sGamma/BeforeSel/hPhotonMass"
          [F (V0.mGamma k0short)]);
       (entry "K0sGamma/BeforeSel/hPhotonZconv"
          [F (fabs (V0.z k0short))]);
       (entry "K0sGamma/BeforeSel/h2dArmenteros"
          [F (V0.alpha k0short); F (V0.qtarm k0short)]);
       (entry "K0sGamma/BeforeSel/hPosTPCNsigmaPi"
          [F (DauTrack.tpcNSigmaPi posTrackExtraK0Short)]);
       (entry "K0sGamma/BeforeSel/hNegTPCNsigmaPi"
          [F (DauTrack.tpcNSigmaPi negTrackExtraK0Short)]);
       (entry "K0sGamma/BeforeSel/hPosTPCNsigmaEl"
          [F (DauTrack.tpcNSigmaEl posTrackExtraK0Short)]);
       (entry "K0sGamma/BeforeSel/hNegTPCNsigmaEl"
          [F (DauTrack.tpcNSigmaEl negTrackExtraK0Short)]);
       (entry "K0sGamma/BeforeSel/h2dPositiveITSvsTPCpts"
          [I (DauTrack.tpcCrossedRows posTrackExtraK0Short); I (DauTrack.itsNCls posTrackExtraK0Short)]);
       (entry "K0sGamma/BeforeSel/h2dNegativeITSvsTPCpts"
          [I (DauTrack.tpcCrossedRows negTrackExtraK0Short); I (DauTrack.itsNCls negTrackExtraK0Short)])
      ] histos
  else
    (* Candidates after K0s selections, then after Gamma selections *)
    fill_all
      [
       (entry "K0sGamma/K0s/hPosDCAToPV"
          [F (V0.dcapostopv k0short)]);
       (entry "K0sGamma/K0s/hNegDCAToPV"
          [F (V0.dcanegtopv k0short)]);
       (entry "K0sGamma/K0s/hDCAV0Daughters"
          [F (V0.dcaV0daughters k0short)]);
       (entry "K0sGamma/K0s/hDCAV0ToPV"
          [F (V0.dcav0topv k0short)]);
       (entry "K0sGamma/K0s/hV0PointingAngle"
          [F (V0.v0cosPA k0short)]);
       (entry "K0sGamma/K0s/hV0Radius"
          [F (V0.v0radius k0short)]);
       (entry "K0sGamma/K0s/hV0DecayLength"
          [F decayLength]);
       (entry "K0sGamma/K0s/hV0InvMassWindow"
          [dsub (F (V0.mK0Short k0short)) (MassK0Short pc)]);
       (entry "K0sGamma/K0s/h2dCompetingMassRej"
          [F (V0.mLambda k0short); F (V0.mK0Short k0short)]);
       (entry "K0sGamma/K0s/h2dArmenteros"
          [F (V0.alpha k0short); F (V0.qtarm k0short)]);
       (entry "K0sGamma/K0s/hPosTPCNsigma"
          [F (DauTrack.tpcNSigmaPi posTrackExtraK0Short)]);
       (entry "K0sGamma/K0s/hNegTPCNsigma"
          [F (DauTrack.tpcNSigmaPi negTrackExtraK0Short)]);
       (entry "K0sGamma/K0s/h2dPositiveITSvsTPCpts"
          [I (DauTrack.tpcCrossedRows posTrackExtraK0Short); I (DauTrack.itsNCls posTrackExtraK0Short)]);
       (entry "K0sGamma/K0s/h2dNegativeITSvsTPCpts"
          [I (DauTrack.tpcCrossedRows negTrackExtraK0Short); I (DauTrack.itsNCls negTrackExtraK0Short)]);
       (entry "K0sGamma/Gamma/hPosDCAToPV"
          [F (V0.dcapostopv gamma)]);
       (entry "K0sGamma/Gamma/hNegDCAToPV"
          [F (V0.dcanegtopv gamma)]);
       (entry "K0sGamma/Gamma/hDCAV0Daughters"
          [F (V0.dcaV0daughters gamma)]);
       (entry "K0sGamma/Gamma/hDCAV0ToPV"
          [F (V0.dcav0topv gamma)]);
       (entry "K0sGamma/Gamma/hV0PointingAngle"
          [F (V0.v0cosPA gamma)]);
       (entry "K0sGamma/Gamma/hV0Radius"
          [F (V0.v0radius gamma)]);
       (entry "K0sGamma/Gamma/hPhotonMass"
          [F (V0.mGamma gamma)]);
       (entry "K0sGamma/Gamma/hPhotonZconv"
          [F (fabs (V0.z gamma))]);
       (entry "K0sGamma/Gamma/h2dArmenteros"
          [F (V0.alpha gamma); F (V0.qtarm gamma)]);
       (entry "K0sGamma/Gamma/hPosTPCNsigma"
          [F (DauTrack.tpcNSigmaEl posTrackExtraGamma)]);
       (entry "K0sGamma/Gamma/hNegTPCNsigma"
          [F (DauTrack.tpcNSigmaEl negTrackExtraGamma)]);
       (entry "K0sGamma/Gamma/h2dPositiveITSvsTPCpts"
          [I (DauTrack.tpcCrossedRows posTrackExtraGamma); I (DauTrack.itsNCls posTrackExtraGamma)]);
       (entry "K0sGamma/Gamma/h2dNegativeITSvsTPCpts"
          [I (DauTrack.tpcCrossedRows negTrackExtraGamma); I (DauTrack.itsNCls negTrackExtraGamma)])
      ] histos.

(** The locals [pt], [invmass] and [rapidity] of
    [analyseV0PairCandidate]. *)
Definition pairPt (k0short gamma : V0.t) : float :=
  RecoDecay_pt fw (fadd (V0.px k0short) (V0.px gamma))
                  (fadd (V0.py k0short) (V0.py gamma)).

Definition pairInvMass (k0short gamma : V0.t) : float :=
  RecoDecay_m fw
    [[V0.px k0short; V0.py k0short; V0.pz k0short];
     [V0.px gamma; V0.py gamma; V0.pz gamma]]
    [MassKaonNeutral pc; MassGamma pc].

Definition pairRapidity (k0short gamma : V0.t) : float :=
  RecoDecay_y fw
    [fadd (V0.px k0short) (V0.px gamma);
     fadd (V0.py k0short) (V0.py gamma);
     fadd (V0.pz k0short) (V0.pz gamma)]
    (to_double (pairInvMass k0short gamma)).

(** The tail of [analyseV0PairCandidate], from the fill of
    [K0sGamma/h3dMassK0sGamma] on: what a pair that is reported does. *)
Definition reportPair (collision : Collision.t) (k0short gamma : V0.t)
    (centrality : float) (gapSide : Z) (histos : HistogramRegistry)
    : HistogramRegistry :=
  let pt := pairPt k0short gamma in
  let invmass := pairInvMass k0short gamma in
  let values := [to_double centrality; to_double pt; to_double invmass] in
  let histos := fill "K0sGamma/h3dMassK0sGamma" values histos in
  let histos :=
    if negb (doPPAnalysis task) then
      if gapSide =? 0 then fill "K0sGamma/h3dMassK0sGammaSGA" values histos
      else if gapSide =? 1 then fill "K0sGamma/h3dMassK0sGammaSGC" values histos
      else if gapSide =? 2 then fill "K0sGamma/h3dMassK0sGammaDG" values histos
      else fill "K0sGamma/h3dMassK0sGammaHadronic" values histos
    else histos in
  fillQAplot collision k0short gamma 1 histos.

(** [analyseV0PairCandidate]: the registry after the call.  Every
    [return] before the fills leaves the registry as it was. *)
Definition analyseV0PairCandidate (collision : Collision.t)
    (k0short gamma : V0.t) (centrality : float) (gapSide : Z)
    (histos : HistogramRegistry) : HistogramRegistry :=
  let pt := pairPt k0short gamma in
  let invmass := pairInvMass k0short gamma in
  let rapidity := pairRapidity k0short gamma in
  (* rapidity cut on the resonance *)
  IF negb (doMCAssociation task) && gt (fabs rapidity) (rapidityCut task)
    RETURN histos ;;
  (* main analysis *)
  match (if doMCAssociation task then v0MCCore_as fw else None) with
  | Some v0MCCore =>
      let k0shortMC := v0MCCore k0short in
      let gammaMC := v0MCCore gamma in
      IF negb (V0MCCore.pdgCodeMother k0shortMC =? V0MCCore.pdgCodeMother gammaMC)
        RETURN histos ;;
      let ptmc :=
        RecoDecay_pt fw (fadd (V0MCCore.pxMC k0shortMC) (V0MCCore.pxMC gammaMC))
                        (fadd (V0MCCore.pyMC k0shortMC) (V0MCCore.pyMC gammaMC)) in
      let rapiditymc :=
        RecoDecay_y fw
          [fadd (V0MCCore.pxMC k0shortMC) (V0MCCore.pxMC gammaMC);
           fadd (V0MCCore.pyMC k0shortMC) (V0MCCore.pyMC gammaMC);
           fadd (V0MCCore.pzMC k0shortMC) (V0MCCore.pzMC gammaMC)]
          (pdgDB_Mass fw (V0MCCore.pdgCodeMother k0shortMC)) in
      IF gt (fabs rapiditymc) (rapidityCut task)
        RETURN histos ;;
      let histos :=
        if (V0MCCore.pdgCodeMother k0shortMC =? 313)
           && (V0MCCore.pdgCodeMother k0shortMC =? V0MCCore.pdgCodeMother gammaMC)
        then fill "K0sGamma/h3dInvMassTrueK0Star892"
                  [to_double centrality; to_double ptmc; to_double invmass] histos
        else histos in
      reportPair collision k0short gamma centrality gapSide histos
  | None =>
      reportPair collision k0short gamma centrality gapSide histos
  end.

(** [checkTrackIndices]: the k0short and the gamma have different
    daughter tracks. *)
Definition checkTrackIndices (k0short gamma : V0.t) : bool :=
  (* positive track of the k0short against the daughters of the gamma *)
  IF (V0.posTrackExtraId k0short =? V0.posTrackExtraId gamma)
     || (V0.posTrackExtraId k0short =? V0.negTrackExtraId gamma)
    RETURN false ;;
  (* negative track of the k0short against the daughters of the gamma *)
  IF (V0.negTrackExtraId k0short =? V0.posTrackExtraId gamma)
     || (V0.negTrackExtraId k0short =? V0.negTrackExtraId gamma)
    RETURN false ;;
  true.

End Analysis.

(** ** The pairwise matcher *)
Section Pairing.

(** The state threaded through the two loops and what is done with a
    pair that passes every test. *)
Context {St : Type}.
Variable formPair : V0.t -> V0.t -> St -> St.

Variable fullV0s : V0Table.t.
Variable selK0ShortIndices selGammaIndices : list bool.

(** The 2nd loop over all v0s, for one [k0short]. *)
Fixpoint gammaLoop (k0short : V0.t) (gammas : list V0.t) (st : St)
    : option St :=
  match gammas with
  | [] => Some st
  | gamma :: rest =>
      sel ← vec_get selGammaIndices (V0.globalIndex gamma - V0Table.offset fullV0s);
      if negb sel then gammaLoop k0short rest st
      else if V0.globalIndex k0short =? V0.globalIndex gamma
      then gammaLoop k0short rest st
      else if negb (checkTrackIndices k0short gamma)
      then gammaLoop k0short rest st
      else gammaLoop k0short rest (formPair k0short gamma st)
  end.

(** The 1st loop over all v0s. *)
Fixpoint k0shortLoop (k0shorts : list V0.t) (st : St) : option St :=
  match k0shorts with
  | [] => Some st
  | k0short :: rest =>
      sel ← vec_get selK0ShortIndices (V0.globalIndex k0short - V0Table.offset fullV0s);
      if negb sel then k0shortLoop rest st
      else
        st' ← gammaLoop k0short (V0Table.rows fullV0s) st;
        k0shortLoop rest st'
  end.

Definition forEachV0V0Pair (st : St) : option St :=
  k0shortLoop (V0Table.rows fullV0s) st.

End Pairing.

(** [buildV0V0Pairs]: the registry after all pairs were handed to
    [analyseV0PairCandidate]; [None] when a mask is read out of range. *)
Definition buildV0V0Pairs (task : KstarToK0Gamma) (pc : Constants)
    (fw : Framework) (collision : Collision.t) (fullV0s : V0Table.t)
    (selK0ShortIndices selGammaIndices : list bool) (centrality : float)
    (gapSide : Z) (histos : HistogramRegistry) : option HistogramRegistry :=
  forEachV0V0Pair
    (fun k0short gamma =>
       analyseV0PairCandidate task pc fw collision k0short gamma centrality gapSide)
    fullV0s selK0ShortIndices selGammaIndices histos.

(** What the matcher does with a pair when only the calls are logged. *)
Definition record (k0short gamma : V0.t) (pairs : list (V0.t * V0.t))
    : list (V0.t * V0.t) :=
  pairs ++ [(k0short, gamma)].

(** The (k0short, gamma) pairs that [buildV0V0Pairs] hands to
    [analyseV0PairCandidate], in the order of the calls. *)
Definition emittedPairs (fullV0s : V0Table.t)
    (selK0ShortIndices selGammaIndices : list bool)
    : option (list (V0.t * V0.t)) :=
  forEachV0V0Pair record fullV0s selK0ShortIndices selGammaIndices [].

(** Handing a logged list of pairs to [formPair], first pair first. *)
Definition replay {St : Type} (formPair : V0.t -> V0.t -> St -> St)
    (pairs : list (V0.t * V0.t)) (st : St) : St :=
  fold_left (fun s p => formPair (fst p) (snd p) s) pairs st.

(** ** The thresholds of one category

    [isV0Selected] reads the photon-like group when [isPhoton] and the
    K0-short-like group otherwise; these views name the threshold that a
    cut of the given category is compared with, and the task in which one
    cut of both groups is switched off. *)
Definition dcapostopv_of (task : KstarToK0Gamma) (isPhoton : bool) : float :=
  if isPhoton then photonSelections.dcapostopv (photonSelections task)
  else v0Selections.dcapostopv (v0Selections task).

Definition dcanegtopv_of (task : KstarToK0Gamma) (isPhoton : bool) : float :=
  if isPhoton then photonSelections.dcanegtopv (photonSelections task)
  else v0Selections.dcanegtopv (v0Selections task).

Definition armPodCut_of (task : KstarToK0Gamma) (isPhoton : bool) : float :=
  if isPhoton then photonSelections.armPodCut (photonSelections task)
  else v0Selections.armPodCut (v0Selections task).

(** Slope 0: the Armenteros-Podolanski cut is not evaluated. *)
Definition without_armPodCut (task : KstarToK0Gamma) : KstarToK0Gamma :=
  with_v0Selections (v0Selections.with_armPodCut zero)
    (with_photonSelections (photonSelections.with_armPodCut zero) task).

(** Minimum cosine -infinity: no value is below it. *)
Definition without_v0cospa (task : KstarToK0Gamma) : KstarToK0Gamma :=
  with_v0Selections (v0Selections.with_v0cospa ninf)
    (with_photonSelections (photonSelections.with_v0cospa ninf) task).

(** Maximum daughter DCA +infinity: no value is above it. *)
Definition without_dcav0dau (task : KstarToK0Gamma) : KstarToK0Gamma :=
  with_v0Selections (v0Selections.with_dcav0dau pinf)
    (with_photonSelections (photonSelections.with_dcav0dau pinf) task).

(** Minimum DCA to the primary vertex -infinity: no value is below it. *)
Definition without_dcav0topv (task : KstarToK0Gamma) : KstarToK0Gamma :=
  with_v0Selections (v0Selections.with_dcav0topv ninf)
    (with_photonSelections (photonSelections.with_dcav0topv ninf) task).

(** Mass window +infinity: no distance to the K0-short mass is above it. *)
Definition without_v0MassWindow (task : KstarToK0Gamma) : KstarToK0Gamma :=
  with_v0Selections (v0Selections.with_v0MassWindow pinf) task.

(** Maximum conversion-point z +infinity: no z is above it. *)
Definition without_photonZMax (task : KstarToK0Gamma) : KstarToK0Gamma :=
  with_photonSelections (photonSelections.with_photonZMax pinf) task.

(** The local expression [std::fabs(v0.mK0Short() - MassK0Short)] of the
    invariant mass window, computed in [double]. *)
Definition massDistanceK0Short (pc : Constants) (v0 : V0.t) : double :=
  fabs (dsub (to_double (V0.mK0Short v0)) (MassK0Short pc)).

(** ** Configurable defaults and sample data *)

(** The default values of the configurables, as declared in the task. *)
Module Defaults.

Definition v0Sel : v0Selections.t :=
  {| v0Selections.v0TypeSelection := 1;
     v0Selections.daughterEtaCut := f32q 8 10;
     v0Selections.v0cospa := f32q 97 100;
     v0Selections.dcav0dau := f32 1 0;
     v0Selections.dcav0topv := f32q 5 100;
     v0Selections.dcapostopv := f32q 5 100;
     v0Selections.dcanegtopv := f32q 5 100;
     v0Selections.v0radius := f32q 12 10;
     v0Selections.v0radiusMax := f32 100000 0;
     v0Selections.lifetimeCut := f32 20 0;
     v0Selections.v0MassWindow := f32q 8 1000;
     v0Selections.compMassRejection := f32q 8 1000;
     v0Selections.armPodCut := f32 5 0;
     v0Selections.minTPCrows := 70;
     v0Selections.minITSclusters := -1;
     v0Selections.skipTPConly := false;
     v0Selections.requirePosITSonly := false;
     v0Selections.requireNegITSonly := false;
     v0Selections.rejectPosITSafterburner := false;
     v0Selections.rejectNegITSafterburner := false;
     v0Selections.tpcPidNsigmaCut := f32 5 0;
     v0Selections.tofPidNsigmaCutLaPr := f32 1000000 0;
     v0Selections.tofPidNsigmaCutLaPi := f32 1000000 0;
     v0Selections.tofPidNsigmaCutK0Pi := f32 1000000 0;
     v0Selections.maxDeltaTimeProton := f32 1000000000 0;
     v0Selections.maxDeltaTimePion := f32 1000000000 0 |}.

Definition photonSel : photonSelections.t :=
  {| photonSelections.v0TypeSelection := 1;
     photonSelections.daughterEtaCut := f32q 8 10;
     photonSelections.photonZMax := f32 240 0;
     photonSelections.v0cospa := f32q 97 100;
     photonSelections.dcav0dau := f32 1 0;
     photonSelections.dcav0topv := f32q 5 100;
     photonSelections.dcanegtopv := f32q 5 100;
     photonSelections.dcapostopv := f32q 5 100;
     photonSelections.v0radius := f32q 12 10;
     photonSelections.v0radiusMax := f32 100000 0;
     photonSelections.photonMassMax := f32q 8 1000;
     photonSelections.armPodCut := f32 5 0;
     photonSelections.minTPCrows := 70;
     photonSelections.minITSclusters := -1;
     photonSelections.skipTPConly := false;
     photonSelections.requirePosITSonly := false;
     photonSelections.requireNegITSonly := false;
     photonSelections.rejectPosITSafterburner := false;
     photonSelections.rejectNegITSafterburner := false;
     photonSelections.tpcPidNsigmaCut := f32 5 0 |}.

Definition ml : mlConfigurations.t :=
  {| mlConfigurations.useK0ShortScores := false;
     mlConfigurations.useGammaScores := false;
     mlConfigurations.calculateK0ShortScores := false;
     mlConfigurations.calculateGammaScores := false;
     mlConfigurations.thresholdK0Short := f32 (-1) 0;
     mlConfigurations.thresholdGamma := f32 (-1) 0 |}.

Definition task : KstarToK0Gamma :=
  {| doPPAnalysis := true;
     doMCAssociation := true;
     rapidityCut := f32 1 (-1);
     v0Selections := v0Sel;
     photonSelections := photonSel;
     mlConfigurations := ml |}.

End Defaults.

(** Sample inputs on which the statements below are exercised. *)
Module Sample.

(** Constants as in O2's [PhysicsConstants.h] and track [DetectorMapEnum]. *)
Definition pc : Constants :=
  {| MassK0Short := d64q 497611 1000000;
     MassLambda0 := d64q 1115683 1000000;
     MassKaonNeutral := d64q 497611 1000000;
     MassGamma := d64 0 0;
     track_TPC := 2 |}.

(** A daughter track of good quality. *)
Definition track : DauTrack.t :=
  {| DauTrack.itsChi2PerNcl := f32 1 0;
     DauTrack.itsNCls := 5;
     DauTrack.tpcCrossedRows := 100;
     DauTrack.detectorMap := 3;
     DauTrack.tpcNSigmaEl := f32 1 (-1);
     DauTrack.tpcNSigmaPi := f32 (-1) (-1) |}.

(** Real data (no Monte-Carlo tables joined); every pair has rapidity
    [y]. *)
Definition fw (y : float) : Framework :=
  {| DauTracks_at := fun _ => track;
     V0MCCores_at := None;
     distovertotmom := fun _ _ _ _ _ _ _ _ _ => f32 1 0;
     V0_p := fun _ _ _ => f32 2 0;
     std_pow := fun b _ => dmul b b;
     RecoDecay_pt := fun _ _ => f32 3 (-1);
     RecoDecay_m := fun _ _ => f32q 9 10;
     RecoDecay_y := fun _ _ => y;
     pdgDB_Mass := fun _ => d64q 89555 100000;
     mlCustomModelK0Short_evalModel := fun _ _ => f32 1 (-1);
     mlCustomModelGamma_evalModel := fun _ _ => f32 1 (-1) |}.

Definition collision : Collision.t :=
  {| Collision.posX := zero; Collision.posY := zero; Collision.posZ := f32 1 0 |}.

(** A candidate with global index [i] and daughter tracks [pos], [neg]
    that passes the default K0-short-like and photon-like cut lists. *)
Definition v0 (i pos neg : Z) : V0.t :=
  {| V0.globalIndex := i;
     V0.posTrackExtraId := pos;
     V0.negTrackExtraId := neg;
     V0.v0MCCoreId := -1;
     V0.x := f32 1 0;
     V0.y := f32 2 0;
     V0.z := f32 10 0;
     V0.px := f32 1 (-1);
     V0.py := f32 1 (-2);
     V0.pz := f32 1 (-3);
     V0.negativeeta := f32 (-1) (-1);
     V0.positiveeta := f32 1 (-2);
     V0.v0Type := 1;
     V0.v0radius := f32 2 0;
     V0.dcapostopv := f32 1 (-1);
     V0.dcanegtopv := f32 (-1) (-5);
     V0.v0cosPA := f32q 99 100;
     V0.dcaV0daughters := f32 1 (-2);
     V0.dcav0topv := f32 1 (-2);
     V0.mGamma := f32q 1 1000;
     V0.mK0Short := f32q 4976 10000;
     V0.mLambda := f32 3 (-1);
     V0.qtarm := f32 1 (-3);
     V0.alpha := f32 (-1) (-1);
     V0.posTOFDeltaTK0Pi := zero;
     V0.negTOFDeltaTK0Pi := zero;
     V0.tofNSigmaK0PiPlus := zero;
     V0.tofNSigmaK0PiMinus := zero;
     V0.k0ShortBDTScore := f32q 8 10;
     V0.antiLambdaBDTScore := f32q 8 10 |}.

(** The defaults with Monte-Carlo association switched off. *)
Definition task_data : KstarToK0Gamma :=
  {| doPPAnalysis := true;
     doMCAssociation := false;
     rapidityCut := f32 1 (-1);
     v0Selections := Defaults.v0Sel;
     photonSelections := Defaults.photonSel;
     mlConfigurations := Defaults.ml |}.

(** The defaults with the photon-like daughter pseudorapidity bound
    lowered to 0.25; the K0-short-like bound stays at 0.8. *)
Definition task_narrow_photon_eta : KstarToK0Gamma :=
  with_photonSelections (photonSelections.with_daughterEtaCut (f32 1 (-2)))
    Defaults.task.

(** The defaults with the K0-short mass window set to the distance
    between the K0-short mass and the [float] nearest to it. *)
Definition task_edge_window : KstarToK0Gamma :=
  with_v0Selections (v0Selections.with_v0MassWindow (f32 15500537 (-50)))
    Defaults.task.

(** A candidate whose K0-short mass is the [float] nearest to 0.497611. *)
Definition v0_edge : V0.t :=
  V0.with_mK0Short (f32q 497611 1000000) (v0 0 1 2).

(** The defaults with both Armenteros-Podolanski slopes set to 2^-14,
    which is positive and below 1e-4. *)
Definition task_small_slope : KstarToK0Gamma :=
  with_v0Selections (v0Selections.with_armPodCut (f32 1 (-14)))
    (with_photonSelections (photonSelections.with_armPodCut (f32 1 (-14)))
       Defaults.task).

(** The defaults in score-based photon mode with the scores of the
    derived data and threshold 0.5. *)
Definition task_gamma_scores : KstarToK0Gamma :=
  {| doPPAnalysis := true;
     doMCAssociation := true;
     rapidityCut := f32 1 (-1);
     v0Selections := Defaults.v0Sel;
     photonSelections := Defaults.photonSel;
     mlConfigurations :=
       {| mlConfigurations.useK0ShortScores := false;
          mlConfigurations.useGammaScores := true;
          mlConfigurations.calculateK0ShortScores := false;
          mlConfigurations.calculateGammaScores := false;
          mlConfigurations.thresholdK0Short := f32 (-1) 0;
          mlConfigurations.thresholdGamma := f32 1 (-1) |} |}.

(** A candidate, its daughter tracks and its dynamic columns with NaN
    in every floating-point column. *)
Definition v0_nan : V0.t :=
  {| V0.globalIndex := 0;
     V0.posTrackExtraId := 1;
     V0.negTrackExtraId := 2;
     V0.v0MCCoreId := -1;
     V0.x := nan; V0.y := nan; V0.z := nan;
     V0.px := nan; V0.py := nan; V0.pz := nan;
     V0.negativeeta := nan;
     V0.positiveeta := nan;
     V0.v0Type := 1;
     V0.v0radius := nan;
     V0.dcapostopv := nan;
     V0.dcanegtopv := nan;
     V0.v0cosPA := nan;
     V0.dcaV0daughters := nan;
     V0.dcav0topv := nan;
     V0.mGamma := nan;
     V0.mK0Short := nan;
     V0.mLambda := nan;
     V0.qtarm := nan;
     V0.alpha := nan;
     V0.posTOFDeltaTK0Pi := nan;
     V0.negTOFDeltaTK0Pi := nan;
     V0.tofNSigmaK0PiPlus := nan;
     V0.tofNSigmaK0PiMinus := nan;
     V0.k0ShortBDTScore := nan;
     V0.antiLambdaBDTScore := nan |}.

Definition track_nan : DauTrack.t :=
  {| DauTrack.itsChi2PerNcl := nan;
     DauTrack.itsNCls := 5;
     DauTrack.tpcCrossedRows := 100;
     DauTrack.detectorMap := 3;
     DauTrack.tpcNSigmaEl := nan;
     DauTrack.tpcNSigmaPi := nan |}.

Definition fw_nan : Framework :=
  {| DauTracks_at := fun _ => track_nan;
     V0MCCores_at := None;
     distovertotmom := fun _ _ _ _ _ _ _ _ _ => nan;
     V0_p := fun _ _ _ => nan;
     std_pow := fun b _ => dmul b b;
     RecoDecay_pt := fun _ _ => nan;
     RecoDecay_m := fun _ _ => nan;
     RecoDecay_y := fun _ _ => nan;
     pdgDB_Mass := fun _ => nan;
     mlCustomModelK0Short_evalModel := fun _ _ => nan;
     mlCustomModelGamma_evalModel := fun _ _ => nan |}.

(** The batch of the concrete scenario: three candidates, the third
    sharing its positive daughter with the first. *)
Definition batch_shared : V0Table.t :=
  V0Table.mk 10 [v0 10 1 2; v0 11 3 4; v0 12 1 6].

(** Three candidates with six different daughter tracks. *)
Definition batch_disjoint : V0Table.t :=
  V0Table.mk 10 [v0 10 1 2; v0 11 3 4; v0 12 5 6].

(** Two candidates with four different daughter tracks. *)
Definition batch_two : V0Table.t :=
  V0Table.mk 0 [v0 0 1 2; v0 1 3 4].

End Sample.

(** ** Vocabulary for the statements about a batch *)

(** The mask bit of a row: the vector read at its local index. *)
Definition maskBit (fullV0s : V0Table.t) (sel : list bool) (v0 : V0.t)
    : option bool :=
  vec_get sel (V0.globalIndex v0 - V0Table.offset fullV0s).

(** Two candidates have a daughter track in common: one of the four
    identifier equalities holds. *)
Definition sharesDaughter (k0short gamma : V0.t) : Prop :=
  V0.posTrackExtraId k0short = V0.posTrackExtraId gamma \/
  V0.posTrackExtraId k0short = V0.negTrackExtraId gamma \/
  V0.negTrackExtraId k0short = V0.posTrackExtraId gamma \/
  V0.negTrackExtraId k0short = V0.negTrackExtraId gamma.

(** The rows of a grouped table carry consecutive global indices that
    start at [offset()], as the framework hands them out. *)
Definition consecutiveIndices (fullV0s : V0Table.t) : Prop :=
  forall (i : nat) (v0 : V0.t),
    V0Table.rows fullV0s !! i = Some v0 ->
    V0.globalIndex v0 = V0Table.offset fullV0s + Z.of_nat i.

(** A (primary, secondary) combination that the matcher has to form. *)
Definition validPair (fullV0s : V0Table.t)
    (selK0ShortIndices selGammaIndices : list bool)
    (k0short gamma : V0.t) : Prop :=
  In k0short (V0Table.rows fullV0s) /\ In gamma (V0Table.rows fullV0s) /\
  maskBit fullV0s selK0ShortIndices k0short = Some true /\
  maskBit fullV0s selGammaIndices gamma = Some true /\
  V0.globalIndex k0short <> V0.globalIndex gamma.

(** Candidates whose bit is set in both masks. *)
Definition overlaps (selK0ShortIndices selGammaIndices : list bool) : nat :=
  count_true (zip_with andb selK0ShortIndices selGammaIndices).

(** What a pair emitted by the matcher satisfies. *)
Definition goodPair (fullV0s : V0Table.t)
    (selK0ShortIndices selGammaIndices : list bool)
    (p : V0.t * V0.t) : Prop :=
  let k0short := fst p in
  let gamma := snd p in
  V0.globalIndex k0short <> V0.globalIndex gamma /\
  k0short <> gamma /\
  V0.posTrackExtraId k0short <> V0.posTrackExtraId gamma /\
  V0.posTrackExtraId k0short <> V0.negTrackExtraId gamma /\
  V0.negTrackExtraId k0short <> V0.posTrackExtraId gamma /\
  V0.negTrackExtraId k0short <> V0.negTrackExtraId gamma /\
  maskBit fullV0s selK0ShortIndices k0short = Some true /\
  maskBit fullV0s selGammaIndices gamma = Some true.

(** The two loops written as list operations: [Kb] and [Gb] are the mask
    bits (false where the mask cannot be read), [pairable] the two tests
    on a pair, [pairsOf k] what the inner loop forms for [k]. *)
Definition Kb (fullV0s : V0Table.t) (selK0ShortIndices : list bool)
    (v0 : V0.t) : bool :=
  default false (maskBit fullV0s selK0ShortIndices v0).

Definition Gb (fullV0s : V0Table.t) (selGammaIndices : list bool)
    (v0 : V0.t) : bool :=
  default false (maskBit fullV0s selGammaIndices v0).

Definition pairable (k0short gamma : V0.t) : bool :=
  negb (V0.globalIndex k0short =? V0.globalIndex gamma)
  && checkTrackIndices k0short gamma.

Definition pairsOf (fullV0s : V0Table.t)
    (selK0ShortIndices selGammaIndices : list bool) (k0short : V0.t)
    : list (V0.t * V0.t) :=
  if Kb fullV0s selK0ShortIndices k0short
  then map (pair k0short)
           (List.filter (fun gamma => Gb fullV0s selGammaIndices gamma
                                      && pairable k0short gamma)
                        (V0Table.rows fullV0s))
  else [].

(** ** Vocabulary for the statements about the registry *)

(** The number of entries of one histogram: the [fill] calls logged under
    its name. *)
Definition countEntries (name : string) (histos : HistogramRegistry) : nat :=
  length (List.filter (fun e => String.eqb (fst e) name) histos).

Definition massHist : string := "K0sGamma/h3dMassK0sGamma".

Definition trueHist : string := "K0sGamma/h3dInvMassTrueK0Star892".

(** Pairs that pass the rapidity gate of the data branch. *)
Definition inRapidityWindow (task : KstarToK0Gamma) (pc : Constants) (fw : Framework)
    (p : V0.t * V0.t) : bool :=
  negb (gt (fabs (pairRapidity pc fw (fst p) (snd p))) (rapidityCut task)).

(** The local [rapiditymc] of [analyseV0PairCandidate]. *)
Definition pairRapidityMC (fw : Framework) (k0shortMC gammaMC : V0MCCore.t) : float :=
  RecoDecay_y fw
    [fadd (V0MCCore.pxMC k0shortMC) (V0MCCore.pxMC gammaMC);
     fadd (V0MCCore.pyMC k0shortMC) (V0MCCore.pyMC gammaMC);
     fadd (V0MCCore.pzMC k0shortMC) (V0MCCore.pzMC gammaMC)]
    (pdgDB_Mass fw (V0MCCore.pdgCodeMother k0shortMC)).

(** The columns of a candidate that the photon-like cut list reads. *)
Definition photonInputs (v0 : V0.t) :=
  (V0.z v0, V0.negativeeta v0, V0.positiveeta v0, V0.v0Type v0, V0.v0radius v0,
   V0.dcapostopv v0, V0.dcanegtopv v0, V0.v0cosPA v0, V0.dcaV0daughters v0,
   V0.dcav0topv v0, V0.mGamma v0, V0.qtarm v0, V0.alpha v0,
   V0.posTrackExtraId v0, V0.negTrackExtraId v0, V0.v0MCCoreId v0).

(** ** Event selection *)

(** The flags of [o2::aod::evsel] that the task tests with
    [collision.selection_bit]. *)
Inductive EventSelectionFlag : Type :=
| kIsTriggerTVX
| kNoITSROFrameBorder
| kNoTimeFrameBorder
| kIsVertexITSTPC
| kIsGoodZvtxFT0vsPV
| kIsVertexTOFmatched
| kIsVertexTRDmatched
| kNoSameBunchPileup
| kNoCollInTimeRangeStandard
| kNoCollInTimeRangeStrict
| kNoCollInTimeRangeNarrow
| kNoCollInTimeRangeVzDependent
| kNoCollInRofStandard
| kNoCollInRofStrict.

(** A row of [soa::Join<aod::StraCollisions, aod::StraCents,
    aod::StraEvSels, aod::StraStamps>]: the vertex position, which the
    candidate selection reads, and the event-level columns.  The column
    [timestamp] is a [uint64_t]. *)
Module StraCollision.
Record t := mk {
  position : Collision.t;
  sel8 : bool;
  selection_bit : EventSelectionFlag -> bool;
  multNTracksPVeta1 : Z;
  ft0cOccupancyInTimeRange : float;
  trackOccupancyInTimeRange : Z;
  centFT0M : float;
  centFT0C : float;
  multFT0A : float;
  multFT0C : float;
  gapSide : Z;
  runNumber : Z;
  timestamp : Z;
  globalBC : Z
}.
Definition posZ (collision : t) : float := Collision.posZ (position collision).

(** Rows that differ from [r] in the named columns only. *)
Definition with_occupancy (ft0cOccupancyInTimeRange' : float) (trackOccupancyInTimeRange' : Z) (r : t) : t :=
  mk (position r) (sel8 r) (selection_bit r) (multNTracksPVeta1 r)
     ft0cOccupancyInTimeRange' trackOccupancyInTimeRange' (centFT0M r)
     (centFT0C r) (multFT0A r) (multFT0C r) (gapSide r) (runNumber r)
     (timestamp r) (globalBC r).

Definition with_multNTracksPVeta1 (multNTracksPVeta1' : Z) (r : t) : t :=
  mk (position r) (sel8 r) (selection_bit r) multNTracksPVeta1'
     (ft0cOccupancyInTimeRange r) (trackOccupancyInTimeRange r) (centFT0M r)
     (centFT0C r) (multFT0A r) (multFT0C r) (gapSide r) (runNumber r)
     (timestamp r) (globalBC r).
End StraCollision.

Module eventSelections.
Record t := mk {
  requireSel8 : bool;
  requireTriggerTVX : bool;
  rejectITSROFBorder : bool;
  rejectTFBorder : bool;
  requireIsVertexITSTPC : bool;
  requireIsGoodZvtxFT0VsPV : bool;
  requireIsVertexTOFmatched : bool;
  requireIsVertexTRDmatched : bool;
  rejectSameBunchPileup : bool;
  requireNoCollInTimeRangeStd : bool;
  requireNoCollInTimeRangeStrict : bool;
  requireNoCollInTimeRangeNarrow : bool;
  requireNoCollInTimeRangeVzDep : bool;
  requireNoCollInROFStd : bool;
  requireNoCollInROFStrict : bool;
  requireINEL0 : bool;
  requireINEL1 : bool;
  maxZVtxPosition : float;
  useFT0CbasedOccupancy : bool;
  minOccupancy : float;
  maxOccupancy : float
}.

(** The group with one configurable changed. *)
Definition with_maxZVtxPosition (maxZVtxPosition' : float) (r : t) : t :=
  mk (requireSel8 r) (requireTriggerTVX r) (rejectITSROFBorder r)
     (rejectTFBorder r) (requireIsVertexITSTPC r) (requireIsGoodZvtxFT0VsPV
     r) (requireIsVertexTOFmatched r) (requireIsVertexTRDmatched r)
     (rejectSameBunchPileup r) (requireNoCollInTimeRangeStd r)
     (requireNoCollInTimeRangeStrict r) (requireNoCollInTimeRangeNarrow r)
     (requireNoCollInTimeRangeVzDep r) (requireNoCollInROFStd r)
     (requireNoCollInROFStrict r) (requireINEL0 r) (requireINEL1 r)
     maxZVtxPosition' (useFT0CbasedOccupancy r) (minOccupancy r)
     (maxOccupancy r).
End eventSelections.

(** Conversion [int] -> [float] (rounds to nearest even). *)
Definition int_to_float (z : Z) : float := f32 z 0.

(** [a >= b]; false as soon as one side is NaN. *)
Definition ge (a b : spec_float) : bool := le b a.

(** [if (fillHists) histos.fill(HIST("hEventSelection"), bin);] *)
Definition countEvent (fillHists : bool) (bin : Z) (histos : HistogramRegistry)
    : HistogramRegistry :=
  if fillHists then fill "hEventSelection" [int_to_double bin] histos else histos.

(** [isEventAccepted(collision, fillHists)]: the decision and the registry
    after the call. *)
Definition isEventAccepted (task : KstarToK0Gamma) (es : eventSelections.t)
    (collision : StraCollision.t) (fillHists : bool)
    (histos : HistogramRegistry) : bool * HistogramRegistry :=
  let bit := StraCollision.selection_bit collision in
  let histos := countEvent fillHists 0 histos in
  IF eventSelections.requireSel8 es && negb (StraCollision.sel8 collision)
    RETURN (false, histos) ;;
  let histos := countEvent fillHists 1 histos in
  IF eventSelections.requireTriggerTVX es && negb (bit kIsTriggerTVX)
    RETURN (false, histos) ;;
  let histos := countEvent fillHists 2 histos in
  IF eventSelections.rejectITSROFBorder es && negb (bit kNoITSROFrameBorder)
    RETURN (false, histos) ;;
  let histos := countEvent fillHists 3 histos in
  IF eventSelections.rejectTFBorder es && negb (bit kNoTimeFrameBorder)
    RETURN (false, histos) ;;
  let histos := countEvent fillHists 4 histos in
  IF gt (fabs (StraCollision.posZ collision)) (eventSelections.maxZVtxPosition es)
    RETURN (false, histos) ;;
  let histos := countEvent fillHists 5 histos in
  IF eventSelections.requireIsVertexITSTPC es && negb (bit kIsVertexITSTPC)
    RETURN (false, histos) ;;
  let histos := countEvent fillHists 6 histos in
  IF eventSelections.requireIsGoodZvtxFT0VsPV es && negb (bit kIsGoodZvtxFT0vsPV)
    RETURN (false, histos) ;;
  let histos := countEvent fillHists 7 histos in
  IF eventSelections.requireIsVertexTOFmatched es && negb (bit kIsVertexTOFmatched)
    RETURN (false, histos) ;;
  let histos := countEvent fillHists 8 histos in
  IF eventSelections.requireIsVertexTRDmatched es && negb (bit kIsVertexTRDmatched)
    RETURN (false, histos) ;;
  let histos := countEvent fillHists 9 histos in
  IF eventSelections.rejectSameBunchPileup es && negb (bit kNoSameBunchPileup)
    RETURN (false, histos) ;;
  let histos := countEvent fillHists 10 histos in
  IF eventSelections.requireNoCollInTimeRangeStd es
     && negb (bit kNoCollInTimeRangeStandard)
    RETURN (false, histos) ;;
  let histos := countEvent fillHists 11 histos in
  IF eventSelections.requireNoCollInTimeRangeStrict es
     && negb (bit kNoCollInTimeRangeStrict)
    RETURN (false, histos) ;;
  let histos := countEvent fillHists 12 histos in
  IF eventSelections.requireNoCollInTimeRangeNarrow es
     && negb (bit kNoCollInTimeRangeNarrow)
    RETURN (false, histos) ;;
  let histos := countEvent fillHists 13 histos in
  IF eventSelections.requireNoCollInTimeRangeVzDep es
     && negb (bit kNoCollInTimeRangeVzDependent)
    RETURN (false, histos) ;;
  let histos := countEvent fillHists 14 histos in
  IF eventSelections.requireNoCollInROFStd es && negb (bit kNoCollInRofStandard)
    RETURN (false, histos) ;;
  let histos := countEvent fillHists 15 histos in
  IF eventSelections.requireNoCollInROFStrict es && negb (bit kNoCollInRofStrict)
    RETURN (false, histos) ;;
  let histos := countEvent fillHists 16 histos in
  if doPPAnalysis task then
    (* we are in pp *)
    IF eventSelections.requireINEL0 es
       && (StraCollision.multNTracksPVeta1 collision <? 1)
      RETURN (false, histos) ;;
    let histos := countEvent fillHists 17 histos in
    IF eventSelections.requireINEL1 es
       && (StraCollision.multNTracksPVeta1 collision <? 2)
      RETURN (false, histos) ;;
    let histos := countEvent fillHists 18 histos in
    (true, histos)
  else
    (* we are in Pb-Pb *)
    let collisionOccupancy :=
      if eventSelections.useFT0CbasedOccupancy es
      then StraCollision.ft0cOccupancyInTimeRange collision
      else int_to_float (StraCollision.trackOccupancyInTimeRange collision) in
    IF ge (eventSelections.minOccupancy es) zero
       && lt collisionOccupancy (eventSelections.minOccupancy es)
      RETURN (false, histos) ;;
    let histos := countEvent fillHists 17 histos in
    IF ge (eventSelections.maxOccupancy es) zero
       && gt collisionOccupancy (eventSelections.maxOccupancy es)
      RETURN (false, histos) ;;
    let histos := countEvent fillHists 18 histos in
    (true, histos).

(** The bins of [hEventSelection] filled by an event that passes the first
    [n] stages of the cut flow. *)
Definition cutFlow (n : nat) : HistogramRegistry :=
  map (fun i => ("hEventSelection"%string, [int_to_double (Z.of_nat i)])) (seq 0 n).

(** The rejection tests of [isEventAccepted], in the order of the code. *)
Definition eventRejections (task : KstarToK0Gamma) (es : eventSelections.t)
    (collision : StraCollision.t) : list bool :=
  let bit := StraCollision.selection_bit collision in
  let collisionOccupancy :=
    if eventSelections.useFT0CbasedOccupancy es
    then StraCollision.ft0cOccupancyInTimeRange collision
    else int_to_float (StraCollision.trackOccupancyInTimeRange collision) in
  [ eventSelections.requireSel8 es && negb (StraCollision.sel8 collision);
    eventSelections.requireTriggerTVX es && negb (bit kIsTriggerTVX);
    eventSelections.rejectITSROFBorder es && negb (bit kNoITSROFrameBorder);
    eventSelections.rejectTFBorder es && negb (bit kNoTimeFrameBorder);
    gt (fabs (StraCollision.posZ collision)) (eventSelections.maxZVtxPosition es);
    eventSelections.requireIsVertexITSTPC es && negb (bit kIsVertexITSTPC);
    eventSelections.requireIsGoodZvtxFT0VsPV es && negb (bit kIsGoodZvtxFT0vsPV);
    eventSelections.requireIsVertexTOFmatched es && negb (bit kIsVertexTOFmatched);
    eventSelections.requireIsVertexTRDmatched es && negb (bit kIsVertexTRDmatched);
    eventSelections.rejectSameBunchPileup es && negb (bit kNoSameBunchPileup);
    eventSelections.requireNoCollInTimeRangeStd es
    && negb (bit kNoCollInTimeRangeStandard);
    eventSelections.requireNoCollInTimeRangeStrict es
    && negb (bit kNoCollInTimeRangeStrict);
    eventSelections.requireNoCollInTimeRangeNarrow es
    && negb (bit kNoCollInTimeRangeNarrow);
    eventSelections.requireNoCollInTimeRangeVzDep es
    && negb (bit kNoCollInTimeRangeVzDependent);
    eventSelections.requireNoCollInROFStd es && negb (bit kNoCollInRofStandard);
    eventSelections.requireNoCollInROFStrict es && negb (bit kNoCollInRofStrict);
    if doPPAnalysis task
    then eventSelections.requireINEL0 es
         && (StraCollision.multNTracksPVeta1 collision <? 1)
    else ge (eventSelections.minOccupancy es) zero
         && lt collisionOccupancy (eventSelections.minOccupancy es);
    if doPPAnalysis task
    then eventSelections.requireINEL1 es
         && (StraCollision.multNTracksPVeta1 collision <? 2)
    else ge (eventSelections.maxOccupancy es) zero
         && gt collisionOccupancy (eventSelections.maxOccupancy es) ].

(** [es'] requires and rejects no more than [es]: every switch that
    requires or rejects and is on in [es'] is on in [es]; the bound on the
    vertex, the two occupancy bounds and the choice of the occupancy
    estimator ([useFT0CbasedOccupancy], which selects a column and
    requires nothing) are the same. *)
Definition looserThan (es' es : eventSelections.t) : Prop :=
  (eventSelections.requireSel8 es' = true -> eventSelections.requireSel8 es = true) /\
  (eventSelections.requireTriggerTVX es' = true ->
   eventSelections.requireTriggerTVX es = true) /\
  (eventSelections.rejectITSROFBorder es' = true ->
   eventSelections.rejectITSROFBorder es = true) /\
  (eventSelections.rejectTFBorder es' = true ->
   eventSelections.rejectTFBorder es = true) /\
  (eventSelections.requireIsVertexITSTPC es' = true ->
   eventSelections.requireIsVertexITSTPC es = true) /\
  (eventSelections.requireIsGoodZvtxFT0VsPV es' = true ->
   eventSelections.requireIsGoodZvtxFT0VsPV es = true) /\
  (eventSelections.requireIsVertexTOFmatched es' = true ->
   eventSelections.requireIsVertexTOFmatched es = true) /\
  (eventSelections.requireIsVertexTRDmatched es' = true ->
   eventSelections.requireIsVertexTRDmatched es = true) /\
  (eventSelections.rejectSameBunchPileup es' = true ->
   eventSelections.rejectSameBunchPileup es = true) /\
  (eventSelections.requireNoCollInTimeRangeStd es' = true ->
   eventSelections.requireNoCollInTimeRangeStd es = true) /\
  (eventSelections.requireNoCollInTimeRangeStrict es' = true ->
   eventSelections.requireNoCollInTimeRangeStrict es = true) /\
  (eventSelections.requireNoCollInTimeRangeNarrow es' = true ->
   eventSelections.requireNoCollInTimeRangeNarrow es = true) /\
  (eventSelections.requireNoCollInTimeRangeVzDep es' = true ->
   eventSelections.requireNoCollInTimeRangeVzDep es = true) /\
  (eventSelections.requireNoCollInROFStd es' = true ->
   eventSelections.requireNoCollInROFStd es = true) /\
  (eventSelections.requireNoCollInROFStrict es' = true ->
   eventSelections.requireNoCollInROFStrict es = true) /\
  (eventSelections.requireINEL0 es' = true -> eventSelections.requireINEL0 es = true) /\
  (eventSelections.requireINEL1 es' = true -> eventSelections.requireINEL1 es = true) /\
  eventSelections.maxZVtxPosition es' = eventSelections.maxZVtxPosition es /\
  eventSelections.useFT0CbasedOccupancy es' = eventSelections.useFT0CbasedOccupancy es /\
  eventSelections.minOccupancy es' = eventSelections.minOccupancy es /\
  eventSelections.maxOccupancy es' = eventSelections.maxOccupancy es.

(** ** The event loop *)

(** The four ONNX models of the task. *)
Inductive MLModel : Type :=
| ModelLambda
| ModelAntiLambda
| ModelK0Short
| ModelGamma.

(** The calls that the task makes to the CCDB manager, the CCDB API,
    Zorro and the ONNX models, logged in the order of the calls. *)
Inductive ServiceCall : Type :=
| ccdb_setURL (url : string)
| ccdb_setCaching (b : bool)
| ccdb_setLocalObjectValidityChecking
| ccdb_setFatalWhenNull (b : bool)
| zorro_initCCDB (runNumber timestamp : Z) (triggers : string)
| zorro_populateHistRegistry (runNumber : Z)
| zorro_isSelected (globalBC : Z)
| ccdbApi_init (url : string)
| ccdbApi_retrieveBlob (path : string) (timestamp : Z) (localPath : string)
| onnx_initModel (model : MLModel) (path : string) (enableOptimizations : bool).

(** The configurables of the task outside the groups above. *)
Module taskOptions.
Record t := mk {
  cfgSkimmedProcessing : bool;
  cfgSkimmedTrigger : string;
  qaCentrality : bool;
  upcCuts_fv0Cut : float;
  upcCuts_ft0aCut : float;
  upcCuts_ft0cCut : float;
  upcCuts_zdcCut : float;
  eventSelections : eventSelections.t;
  useLambdaScores : bool;
  useAntiLambdaScores : bool;
  calculateLambdaScores : bool;
  calculateAntiLambdaScores : bool;
  customModelPathCCDB : string;
  timestampCCDB : Z;
  loadCustomModelsFromCCDB : bool;
  enableOptimizations : bool;
  localModelPathLambda : string;
  localModelPathAntiLambda : string;
  localModelPathK0Short : string;
  localModelPathGamma : string;
  ccdburl : string
}.
End taskOptions.

(** Columns and services that the event loop takes from outside the task
    file: the dynamic column [pt()] over (px, py), the bin lookup in
    [hRawCentrality], [SGSelector::trueGap], the success of
    [CcdbApi::retrieveBlob] for (path, timestamp, local path),
    [has_v0MCCore()], the transverse momentum of the Monte-Carlo core of a
    candidate ([RecoDecay::sqrtSumOfSquares] over the daughter momenta),
    and what [Zorro::populateHistRegistry] makes of the registry that
    [initCCDB] hands to it by reference, for a run number. *)
Record Host := mkHost {
  V0_pt : float -> float -> float;
  hRawCentrality_FindBin : double -> Z;
  hRawCentrality_GetBinContent : Z -> double;
  sgSelector_trueGap : StraCollision.t -> float -> float -> float -> float -> Z;
  retrieveBlob : string -> Z -> string -> bool;
  has_v0MCCore : V0.t -> bool;
  v0MC_ptmc : Z -> float;
  populateHistRegistry : HistogramRegistry -> Z -> HistogramRegistry
}.

(** The members of the task that change while it runs. *)
Record TaskState := mkState {
  histos : HistogramRegistry;
  mRunNumber : Z;
  calls : list ServiceCall
}.

(** How a call of a process function ends: it returns, it stops at a
    [LOG(fatal)], or it reads or writes a mask outside its bounds. *)
Inductive Outcome (A : Type) : Type :=
| Returned (a : A)
| Fatal (message : string)
| OutOfRange.
Arguments Returned {A} a.
Arguments Fatal {A} message.
Arguments OutOfRange {A}.

Definition andThen {A B : Type} (o : Outcome A) (k : A -> Outcome B) : Outcome B :=
  match o with
  | Returned a => k a
  | Fatal message => Fatal message
  | OutOfRange => OutOfRange
  end.

Definition inRange {A : Type} (o : option A) : Outcome A :=
  match o with
  | Some a => Returned a
  | None => OutOfRange
  end.

Definition call (c : ServiceCall) (st : TaskState) : TaskState :=
  mkState (histos st) (mRunNumber st) (calls st ++ [c]).

Definition withHistos (h : HistogramRegistry) (st : TaskState) : TaskState :=
  mkState h (mRunNumber st) (calls st).

(** The configurable that asks for the scores of a model to be calculated
    and the local path of the model. *)
Definition calculateScores (task : KstarToK0Gamma) (opts : taskOptions.t)
    (model : MLModel) : bool :=
  match model with
  | ModelLambda => taskOptions.calculateLambdaScores opts
  | ModelAntiLambda => taskOptions.calculateAntiLambdaScores opts
  | ModelK0Short => mlConfigurations.calculateK0ShortScores (mlConfigurations task)
  | ModelGamma => mlConfigurations.calculateGammaScores (mlConfigurations task)
  end.

Definition localModelPath (opts : taskOptions.t) (model : MLModel) : string :=
  match model with
  | ModelLambda => taskOptions.localModelPathLambda opts
  | ModelAntiLambda => taskOptions.localModelPathAntiLambda opts
  | ModelK0Short => taskOptions.localModelPathK0Short opts
  | ModelGamma => taskOptions.localModelPathGamma opts
  end.

Definition fatalMessage (model : MLModel) : string :=
  match model with
  | ModelLambda => "Error encountered while fetching/loading the Lambda model from CCDB! Maybe the model doesn't exist yet for this runnumber/timestamp?"
  | ModelAntiLambda => "Error encountered while fetching/loading the AntiLambda model from CCDB! Maybe the model doesn't exist yet for this runnumber/timestamp?"
  | ModelK0Short => "Error encountered while fetching/loading the K0Short model from CCDB! Maybe the model doesn't exist yet for this runnumber/timestamp?"
  | ModelGamma => "Error encountered while fetching/loading the Gamma model from CCDB! Maybe the model doesn't exist yet for this runnumber/timestamp?"
  end.

(** The conversion of a [uint64_t] to [int64_t], as in
    [int64_t timeStampML = collision.timestamp();]: the value modulo 2^64
    in the range from -2^63 to 2^63 - 1. *)
Definition to_int64 (z : Z) : Z := (z + 2 ^ 63) mod 2 ^ 64 - 2 ^ 63.

(** The order in which [loadMachines] goes through the models. *)
Definition loadOrder : list MLModel :=
  [ModelLambda; ModelAntiLambda; ModelK0Short; ModelGamma].

Section EventLoop.

Variable task : KstarToK0Gamma.
Variable opts : taskOptions.t.
Variable pc : Constants.
Variable fw : Framework.
Variable host : Host.

(** One [if (mlConfigurations.calculate...Scores)] block of the CCDB
    branch of [loadMachines]. *)
Definition fetchModel (timeStampML : Z) (model : MLModel) (st : TaskState)
    : Outcome TaskState :=
  if calculateScores task opts model then
    let st :=
      call (ccdbApi_retrieveBlob (taskOptions.customModelPathCCDB opts) timeStampML
              (localModelPath opts model)) st in
    if retrieveBlob host (taskOptions.customModelPathCCDB opts) timeStampML
                    (localModelPath opts model)
    then Returned (call (onnx_initModel model (localModelPath opts model)
                           (taskOptions.enableOptimizations opts)) st)
    else Fatal (fatalMessage model)
  else Returned st.

(** One [if (mlConfigurations.calculate...Scores)] line of the local
    branch of [loadMachines]. *)
Definition initLocalModel (model : MLModel) (st : TaskState) : TaskState :=
  if calculateScores task opts model
  then call (onnx_initModel model (localModelPath opts model)
               (taskOptions.enableOptimizations opts)) st
  else st.

Definition loadMachines (timeStampML : Z) (st : TaskState) : Outcome TaskState :=
  if taskOptions.loadCustomModelsFromCCDB opts then
    let st := call (ccdbApi_init (taskOptions.ccdburl opts)) st in
    andThen (fetchModel timeStampML ModelLambda st) (fun st =>
    andThen (fetchModel timeStampML ModelAntiLambda st) (fun st =>
    andThen (fetchModel timeStampML ModelK0Short st) (fun st =>
    fetchModel timeStampML ModelGamma st)))
  else
    Returned (initLocalModel ModelGamma
               (initLocalModel ModelK0Short
                 (initLocalModel ModelAntiLambda
                   (initLocalModel ModelLambda st)))).

Definition initCCDB (collision : StraCollision.t) (st : TaskState)
    : Outcome TaskState :=
  IF mRunNumber st =? StraCollision.runNumber collision
    RETURN Returned st ;;
  let st := mkState (histos st) (StraCollision.runNumber collision) (calls st) in
  let st :=
    if taskOptions.cfgSkimmedProcessing opts then
      let st :=
        call (zorro_initCCDB (StraCollision.runNumber collision)
                (StraCollision.timestamp collision)
                (taskOptions.cfgSkimmedTrigger opts))
          (call (ccdb_setFatalWhenNull false)
            (call ccdb_setLocalObjectValidityChecking
              (call (ccdb_setCaching true)
                (call (ccdb_setURL (taskOptions.ccdburl opts)) st)))) in
      call (zorro_populateHistRegistry (StraCollision.runNumber collision))
        (withHistos (populateHistRegistry host (histos st)
                       (StraCollision.runNumber collision)) st)
    else st in
  (* machine learning initialization if requested *)
  if mlConfigurations.calculateK0ShortScores (mlConfigurations task)
     || taskOptions.calculateLambdaScores opts
     || taskOptions.calculateAntiLambdaScores opts
     || mlConfigurations.calculateGammaScores (mlConfigurations task)
  then
    let timeStampML := to_int64 (StraCollision.timestamp collision) in
    let timeStampML :=
      if negb (taskOptions.timestampCCDB opts =? -1)
      then taskOptions.timestampCCDB opts
      else timeStampML in
    loadMachines timeStampML st
  else Returned st.

(** The local [centrality] of [fillEventHistograms] after the first
    block. *)
Definition eventCentrality (collision : StraCollision.t) : float :=
  if doPPAnalysis task then
    if taskOptions.qaCentrality opts
    then to_float (hRawCentrality_GetBinContent host
                     (hRawCentrality_FindBin host
                        (to_double (fadd (StraCollision.multFT0A collision)
                                         (StraCollision.multFT0C collision)))))
    else StraCollision.centFT0M collision
  else
    if taskOptions.qaCentrality opts
    then to_float (hRawCentrality_GetBinContent host
                     (hRawCentrality_FindBin host
                        (to_double (StraCollision.multFT0C collision))))
    else StraCollision.centFT0C collision.

(** [fillEventHistograms(collision, centrality, selGapSide)]: the two
    reference arguments and the registry after the call. *)
Definition fillEventHistograms (collision : StraCollision.t)
    (centrality : float) (selGapSide : Z) (histos : HistogramRegistry)
    : float * Z * HistogramRegistry :=
  let centrality := eventCentrality collision in
  let gapSide := StraCollision.gapSide collision in
  let '(selGapSide, histos) :=
    if negb (doPPAnalysis task) then
      let selGapSide :=
        sgSelector_trueGap host collision
          (taskOptions.upcCuts_fv0Cut opts) (taskOptions.upcCuts_ft0aCut opts)
          (taskOptions.upcCuts_ft0cCut opts) (taskOptions.upcCuts_zdcCut opts) in
      (selGapSide,
       fill_all
         [entry "hGapSide" [int_to_double gapSide];
          entry "hSelGapSide" [int_to_double selGapSide];
          entry "hEventCentralityVsSelGapSide"
                [to_double centrality;
                 int_to_double (if selGapSide <=? 2 then selGapSide else -1)]]
         histos)
    else (selGapSide, histos) in
  (centrality, selGapSide,
   fill_all
     [entry "hEventCentrality" [to_double centrality];
      entry "hCentralityVsNch"
            [to_double centrality;
             int_to_double (StraCollision.multNTracksPVeta1 collision)];
      entry "hCentralityVsPVz"
            [to_double centrality; to_double (StraCollision.posZ collision)];
      entry "hEventPVz" [to_double (StraCollision.posZ collision)];
      entry "hEventOccupancy"
            [int_to_double (StraCollision.trackOccupancyInTimeRange collision)];
      entry "hCentralityVsOccupancy"
            [to_double centrality;
             int_to_double (StraCollision.trackOccupancyInTimeRange collision)]]
     histos).

(** The loop over the V0s of [processRealData]: the QA fills before any
    selection and the two masks. *)
Fixpoint v0LoopRealData (collision : Collision.t) (v0TableOffset : Z)
    (v0s : list V0.t) (selK0ShortIndices selGammaIndices : list bool)
    (histos : HistogramRegistry)
    : option (list bool * list bool * HistogramRegistry) :=
  match v0s with
  | [] => Some (selK0ShortIndices, selGammaIndices, histos)
  | v0 :: rest =>
      let histos := fillQAplot pc fw collision v0 v0 0 histos in
      sel ← analyseV0Candidate task pc fw v0 collision
              (V0_pt host (V0.px v0) (V0.py v0))
              selK0ShortIndices selGammaIndices v0TableOffset;
      v0LoopRealData collision v0TableOffset rest (fst sel) (snd sel) histos
  end.

(** The loop over the V0s of [processMonteCarlo]: a V0 without
    Monte-Carlo core is skipped. *)
Fixpoint v0LoopMonteCarlo (collision : Collision.t) (v0TableOffset : Z)
    (v0s : list V0.t) (selK0ShortIndices selGammaIndices : list bool)
    (histos : HistogramRegistry)
    : option (list bool * list bool * HistogramRegistry) :=
  match v0s with
  | [] => Some (selK0ShortIndices, selGammaIndices, histos)
  | v0 :: rest =>
      if negb (has_v0MCCore host v0)
      then v0LoopMonteCarlo collision v0TableOffset rest
             selK0ShortIndices selGammaIndices histos
      else
        let ptmc := v0MC_ptmc host (V0.v0MCCoreId v0) in
        let histos := fillQAplot pc fw collision v0 v0 0 histos in
        sel ← analyseV0Candidate task pc fw v0 collision ptmc
                selK0ShortIndices selGammaIndices v0TableOffset;
        v0LoopMonteCarlo collision v0TableOffset rest (fst sel) (snd sel) histos
  end.

(** The conversion of the [int] argument [selGapSide] to the [uint8_t]
    parameter [gapSide] of [buildV0V0Pairs]. *)
Definition to_uint8 (z : Z) : Z := z mod 256.

(** What [processRealData] and [processMonteCarlo] do with the masks:
    the two counts, their histograms and the pairs. *)
Definition countAndPair (collision : Collision.t) (fullV0s : V0Table.t)
    (selK0ShortIndices selGammaIndices : list bool) (centrality : float)
    (selGapSide : Z) (histos : HistogramRegistry)
    : option HistogramRegistry :=
  let nK0Shorts := Z.of_nat (count_true selK0ShortIndices) in
  let nGammas := Z.of_nat (count_true selGammaIndices) in
  let histos :=
    fill "K0sGamma/h2dNbrOfK0ShortVsCentrality"
         [to_double centrality; int_to_double nK0Shorts] histos in
  let histos :=
    fill "K0sGamma/h2dNbrOfGammaVsCentrality"
         [to_double centrality; int_to_double nGammas] histos in
  if (nK0Shorts >=? 1) && (nGammas >=? 1)
  then buildV0V0Pairs task pc fw collision fullV0s selK0ShortIndices
         selGammaIndices centrality (to_uint8 selGapSide) histos
  else Some histos.

(** The condition under which a process function fires up CCDB. *)
Definition needsCCDB : bool :=
  taskOptions.cfgSkimmedProcessing opts
  || (mlConfigurations.useK0ShortScores (mlConfigurations task)
      && mlConfigurations.calculateK0ShortScores (mlConfigurations task))
  || (taskOptions.useLambdaScores opts && taskOptions.calculateLambdaScores opts)
  || (taskOptions.useAntiLambdaScores opts
      && taskOptions.calculateAntiLambdaScores opts)
  || (mlConfigurations.useGammaScores (mlConfigurations task)
      && mlConfigurations.calculateGammaScores (mlConfigurations task)).

(** The body shared by the two process functions; [v0Loop] is the loop
    over the V0s of the function. *)
Definition processCollision
    (v0Loop : Collision.t -> Z -> list V0.t -> list bool -> list bool ->
              HistogramRegistry ->
              option (list bool * list bool * HistogramRegistry))
    (collision : StraCollision.t) (fullV0s : V0Table.t) (st : TaskState)
    : Outcome TaskState :=
  andThen (if needsCCDB then initCCDB collision st else Returned st) (fun st =>
  let event :=
    isEventAccepted task (taskOptions.eventSelections opts) collision true
                    (histos st) in
  let st := withHistos (snd event) st in
  IF negb (fst event)
    RETURN Returned st ;;
  let st :=
    if taskOptions.cfgSkimmedProcessing opts
    then call (zorro_isSelected (StraCollision.globalBC collision)) st
    else st in
  let filled := fillEventHistograms collision (f32 (-1) 0) (-1) (histos st) in
  let centrality := fst (fst filled) in
  let selGapSide := snd (fst filled) in
  (* perform main analysis *)
  let selK0ShortIndices := replicate (V0Table.size fullV0s) false in
  let selGammaIndices := replicate (V0Table.size fullV0s) false in
  andThen (inRange (v0Loop (StraCollision.position collision)
                      (V0Table.offset fullV0s) (V0Table.rows fullV0s)
                      selK0ShortIndices selGammaIndices (snd filled))) (fun sel =>
  andThen (inRange (countAndPair (StraCollision.position collision) fullV0s
                      (fst (fst sel)) (snd (fst sel)) centrality selGapSide
                      (snd sel))) (fun registry =>
  Returned (withHistos registry st)))).

Definition processRealData := processCollision v0LoopRealData.

Definition processMonteCarlo := processCollision v0LoopMonteCarlo.

End EventLoop.

(** ** Vocabulary for the statements about the event loop *)

(** The decisions of [analyseV0Candidate] for a row in the two process
    functions: with the transverse momentum of the row in real data; with
    that of its Monte-Carlo core, and none without such a core, in
    simulation. *)
Definition k0ShortDecisionRealData (task : KstarToK0Gamma) (pc : Constants)
    (fw : Framework) (host : Host) (collision : Collision.t) (v0 : V0.t) : bool :=
  passK0ShortSelections task pc fw v0 collision (V0_pt host (V0.px v0) (V0.py v0)).

Definition gammaDecisionRealData (task : KstarToK0Gamma) (pc : Constants)
    (fw : Framework) (host : Host) (collision : Collision.t) (v0 : V0.t) : bool :=
  passGammaSelections task pc fw v0 collision (V0_pt host (V0.px v0) (V0.py v0)).

Definition k0ShortDecisionMonteCarlo (task : KstarToK0Gamma) (pc : Constants)
    (fw : Framework) (host : Host) (collision : Collision.t) (v0 : V0.t) : bool :=
  has_v0MCCore host v0
  && passK0ShortSelections task pc fw v0 collision
       (v0MC_ptmc host (V0.v0MCCoreId v0)).

Definition gammaDecisionMonteCarlo (task : KstarToK0Gamma) (pc : Constants)
    (fw : Framework) (host : Host) (collision : Collision.t) (v0 : V0.t) : bool :=
  has_v0MCCore host v0
  && passGammaSelections task pc fw v0 collision
       (v0MC_ptmc host (V0.v0MCCoreId v0)).

(** The QA fills before any selection for the rows of a table. *)
Definition beforeSelectionFills (pc : Constants) (fw : Framework)
    (collision : Collision.t) (v0s : list V0.t) : HistogramRegistry :=
  flat_map (fun v0 => fillQAplot pc fw collision v0 v0 0 []) v0s.


(** The fills of the two counts of selected candidates. *)
Definition countFills (centrality : float)
    (selK0ShortIndices selGammaIndices : list bool) : HistogramRegistry :=
  [("K0sGamma/h2dNbrOfK0ShortVsCentrality"%string,
    [to_double centrality; int_to_double (Z.of_nat (count_true selK0ShortIndices))]);
   ("K0sGamma/h2dNbrOfGammaVsCentrality"%string,
    [to_double centrality; int_to_double (Z.of_nat (count_true selGammaIndices))])].

(** The state after the CCDB step of a process function. *)
Definition ccdbStep (task : KstarToK0Gamma) (opts : taskOptions.t) (host : Host)
    (collision : StraCollision.t) (st : TaskState) : Outcome TaskState :=
  if needsCCDB task opts then initCCDB task opts host collision st else Returned st.

(** The QA fills before any selection in [processMonteCarlo]: those of
    the rows that have a Monte-Carlo core. *)
Definition beforeSelectionFillsMonteCarlo (pc : Constants) (fw : Framework)
    (host : Host) (collision : Collision.t) (v0s : list V0.t) : HistogramRegistry :=
  flat_map (fun v0 => if has_v0MCCore host v0
                      then fillQAplot pc fw collision v0 v0 0 []
                      else []) v0s.

(** ** Vocabulary for the statements about the model loading *)

(** Whether [loadMachines] gets past a model in its CCDB branch: the
    scores of the model are not asked for, or its blob is retrieved. *)
Definition fetched (task : KstarToK0Gamma) (opts : taskOptions.t) (host : Host)
    (timeStampML : Z) (model : MLModel) : bool :=
  negb (calculateScores task opts model)
  || retrieveBlob host (taskOptions.customModelPathCCDB opts) timeStampML
                  (localModelPath opts model).

(** The calls of the CCDB branch for a model that is asked for and
    retrieved, and the call of the local branch. *)
Definition fetchCalls (opts : taskOptions.t) (timeStampML : Z) (model : MLModel)
    : list ServiceCall :=
  [ccdbApi_retrieveBlob (taskOptions.customModelPathCCDB opts) timeStampML
     (localModelPath opts model);
   onnx_initModel model (localModelPath opts model)
     (taskOptions.enableOptimizations opts)].

Definition initCall (opts : taskOptions.t) (model : MLModel) : ServiceCall :=
  onnx_initModel model (localModelPath opts model)
    (taskOptions.enableOptimizations opts).

(** The models whose scores the configuration asks to calculate, in the
    order of [loadMachines]. *)
Definition requestedModels (task : KstarToK0Gamma) (opts : taskOptions.t)
    : list MLModel :=
  List.filter (calculateScores task opts) loadOrder.

(** The time stamp that [initCCDB] hands to [loadMachines]: the one of
    the configuration, or the one of the collision, converted to
    [int64_t], when that is -1. *)
Definition timeStampML_of (opts : taskOptions.t) (collision : StraCollision.t) : Z :=
  if taskOptions.timestampCCDB opts =? -1
  then to_int64 (StraCollision.timestamp collision)
  else taskOptions.timestampCCDB opts.

Definition addCalls (cs : list ServiceCall) (st : TaskState) : TaskState :=
  mkState (histos st) (mRunNumber st) (calls st ++ cs).

(** ** The task [readv0s] (readv0s.cxx) *)

Module readv0s.

(** The columns of a row of [aod::V0s] that the task reads. *)
Module V0s.
Record t := mk {
  v0Type : Z;
  posTrackId : Z;
  negTrackId : Z
}.
End V0s.

Section Loops.

(** The rows of [TracksCompleteIU] by index, and the dynamic column
    [hasITS()] of these rows and of the rows of [DauTracks]. *)
Variable TracksCompleteIU : Type.
Variable TracksCompleteIU_at : Z -> TracksCompleteIU.
Variable TracksCompleteIU_hasITS : TracksCompleteIU -> bool.
Variable DauTracks_hasITS : DauTrack.t -> bool.
Variable fw : Framework.

Fixpoint processOriginal (v0tables : list V0s.t) (histos : HistogramRegistry)
    : HistogramRegistry :=
  match v0tables with
  | [] => histos
  | v0 :: rest =>
      let histos := fill "hV0s" [d64 1 (-1)] histos in
      IF negb (V0s.v0Type v0 =? 1)
        RETURN processOriginal rest histos ;;
      let histos := fill "hV0s" [d64 3 (-1)] histos in
      let posPartTrack := TracksCompleteIU_at (V0s.posTrackId v0) in
      let negPartTrack := TracksCompleteIU_at (V0s.negTrackId v0) in
      let histos :=
        if negb (TracksCompleteIU_hasITS posPartTrack)
           || negb (TracksCompleteIU_hasITS negPartTrack)
        then fill "hV0s" [d64 7 (-1)] histos
        else fill "hV0s" [d64 5 (-1)] histos in
      processOriginal rest histos
  end.

Fixpoint processDerived (fullV0s : list V0.t) (histos : HistogramRegistry)
    : HistogramRegistry :=
  match fullV0s with
  | [] => histos
  | v0 :: rest =>
      let histos := fill "hV0s" [d64 1 (-1)] histos in
      IF negb (V0.v0Type v0 =? 1)
        RETURN processDerived rest histos ;;
      let histos := fill "hV0s" [d64 3 (-1)] histos in
      let posPartTrack := posTrackExtra_as fw v0 in
      let negPartTrack := negTrackExtra_as fw v0 in
      let histos :=
        if negb (DauTracks_hasITS posPartTrack)
           || negb (DauTracks_hasITS negPartTrack)
        then fill "hV0s" [d64 7 (-1)] histos
        else fill "hV0s" [d64 5 (-1)] histos in
      processDerived rest histos
  end.

End Loops.

(** The entries of [hV0s] at the value [x]. *)
Definition entriesAt (x : double) (histos : HistogramRegistry) : nat :=
  length (List.filter
            (fun e => String.eqb (fst e) "hV0s"
                      && match snd e with
                         | [v] => feq v x
                         | _ => false
                         end) histos).

(** The fills for one V0 of type [v0Type] whose daughters have ITS
    ([posITS], [negITS]). *)
Definition fillsOf (v0Type : Z) (posITS negITS : bool) : HistogramRegistry :=
  if v0Type =? 1
  then [("hV0s"%string, [d64 1 (-1)]); ("hV0s"%string, [d64 3 (-1)]);
        ("hV0s"%string, [if posITS && negITS then d64 5 (-1) else d64 7 (-1)])]
  else [("hV0s"%string, [d64 1 (-1)])].

End readv0s.

(** ** Sample data for the event loop *)

Module SampleRun.

(** The defaults of the group [eventSelections]. *)
Definition eventSel : eventSelections.t :=
  {| eventSelections.requireSel8 := true;
     eventSelections.requireTriggerTVX := true;
     eventSelections.rejectITSROFBorder := true;
     eventSelections.rejectTFBorder := true;
     eventSelections.requireIsVertexITSTPC := false;
     eventSelections.requireIsGoodZvtxFT0VsPV := true;
     eventSelections.requireIsVertexTOFmatched := false;
     eventSelections.requireIsVertexTRDmatched := false;
     eventSelections.rejectSameBunchPileup := true;
     eventSelections.requireNoCollInTimeRangeStd := false;
     eventSelections.requireNoCollInTimeRangeStrict := false;
     eventSelections.requireNoCollInTimeRangeNarrow := false;
     eventSelections.requireNoCollInTimeRangeVzDep := false;
     eventSelections.requireNoCollInROFStd := false;
     eventSelections.requireNoCollInROFStrict := false;
     eventSelections.requireINEL0 := true;
     eventSelections.requireINEL1 := false;
     eventSelections.maxZVtxPosition := f32 10 0;
     eventSelections.useFT0CbasedOccupancy := false;
     eventSelections.minOccupancy := f32 (-1) 0;
     eventSelections.maxOccupancy := f32 (-1) 0 |}.

(** The group with every switch off and the numeric defaults. *)
Definition eventSel_off : eventSelections.t :=
  {| eventSelections.requireSel8 := false;
     eventSelections.requireTriggerTVX := false;
     eventSelections.rejectITSROFBorder := false;
     eventSelections.rejectTFBorder := false;
     eventSelections.requireIsVertexITSTPC := false;
     eventSelections.requireIsGoodZvtxFT0VsPV := false;
     eventSelections.requireIsVertexTOFmatched := false;
     eventSelections.requireIsVertexTRDmatched := false;
     eventSelections.rejectSameBunchPileup := false;
     eventSelections.requireNoCollInTimeRangeStd := false;
     eventSelections.requireNoCollInTimeRangeStrict := false;
     eventSelections.requireNoCollInTimeRangeNarrow := false;
     eventSelections.requireNoCollInTimeRangeVzDep := false;
     eventSelections.requireNoCollInROFStd := false;
     eventSelections.requireNoCollInROFStrict := false;
     eventSelections.requireINEL0 := false;
     eventSelections.requireINEL1 := false;
     eventSelections.maxZVtxPosition := f32 10 0;
     eventSelections.useFT0CbasedOccupancy := false;
     eventSelections.minOccupancy := f32 (-1) 0;
     eventSelections.maxOccupancy := f32 (-1) 0 |}.

(** The defaults of the remaining configurables, with the switch that
    loads the models from CCDB as given. *)
Definition options (loadCustomModelsFromCCDB : bool) : taskOptions.t :=
  {| taskOptions.cfgSkimmedProcessing := false;
     taskOptions.cfgSkimmedTrigger := "fDoubleXi,fTripleXi,fQuadrupleXi";
     taskOptions.qaCentrality := false;
     taskOptions.upcCuts_fv0Cut := f32 100 0;
     taskOptions.upcCuts_ft0aCut := f32 200 0;
     taskOptions.upcCuts_ft0cCut := f32 100 0;
     taskOptions.upcCuts_zdcCut := f32 10 0;
     taskOptions.eventSelections := eventSel;
     taskOptions.useLambdaScores := false;
     taskOptions.useAntiLambdaScores := false;
     taskOptions.calculateLambdaScores := false;
     taskOptions.calculateAntiLambdaScores := false;
     taskOptions.customModelPathCCDB := EmptyString;
     taskOptions.timestampCCDB := -1;
     taskOptions.loadCustomModelsFromCCDB := loadCustomModelsFromCCDB;
     taskOptions.enableOptimizations := false;
     taskOptions.localModelPathLambda := "Lambda_BDTModel.onnx";
     taskOptions.localModelPathAntiLambda := "AntiLambda_BDTModel.onnx";
     taskOptions.localModelPathK0Short := "KZeroShort_BDTModel.onnx";
     taskOptions.localModelPathGamma := "Gamma_BDTModel.onnx";
     taskOptions.ccdburl := "http://alice-ccdb.cern.ch" |}.

(** The defaults with the K0-short scores calculated and used. *)
Definition task_k0short_model : KstarToK0Gamma :=
  {| doPPAnalysis := true;
     doMCAssociation := true;
     rapidityCut := f32 1 (-1);
     v0Selections := Defaults.v0Sel;
     photonSelections := Defaults.photonSel;
     mlConfigurations :=
       {| mlConfigurations.useK0ShortScores := true;
          mlConfigurations.useGammaScores := false;
          mlConfigurations.calculateK0ShortScores := true;
          mlConfigurations.calculateGammaScores := false;
          mlConfigurations.thresholdK0Short := f32 (-1) 0;
          mlConfigurations.thresholdGamma := f32 (-1) 0 |} |}.

(** A host on which no blob can be retrieved; a candidate has a
    Monte-Carlo core when its core index is not negative; Zorro adds
    nothing to the log of fills. *)
Definition host : Host :=
  {| V0_pt := fun _ _ => f32 1 0;
     hRawCentrality_FindBin := fun _ => 1;
     hRawCentrality_GetBinContent := fun _ => d64 50 0;
     sgSelector_trueGap := fun _ _ _ _ _ => -1;
     retrieveBlob := fun _ _ _ => false;
     has_v0MCCore := fun v0 => 0 <=? V0.v0MCCoreId v0;
     v0MC_ptmc := fun _ => f32 1 0;
     populateHistRegistry := fun histos _ => histos |}.

(** An event of run 544122 that passes the default event selection, with
    [multNTracksPVeta1] as given. *)
Definition event (multNTracksPVeta1 : Z) : StraCollision.t :=
  {| StraCollision.position := Sample.collision;
     StraCollision.sel8 := true;
     StraCollision.selection_bit := fun _ => true;
     StraCollision.multNTracksPVeta1 := multNTracksPVeta1;
     StraCollision.ft0cOccupancyInTimeRange := f32 100 0;
     StraCollision.trackOccupancyInTimeRange := 100;
     StraCollision.centFT0M := f32 50 0;
     StraCollision.centFT0C := f32 50 0;
     StraCollision.multFT0A := f32 100 0;
     StraCollision.multFT0C := f32 100 0;
     StraCollision.gapSide := -1;
     StraCollision.runNumber := 544122;
     StraCollision.timestamp := 1000;
     StraCollision.globalBC := 7 |}.

(** The state before the first collision, and the state once the
    K0-short model has been initialised for run 544122. *)
Definition state : TaskState := mkState [] 0 [].

Definition state_loaded : TaskState :=
  mkState [] 544122
    [onnx_initModel ModelK0Short "KZeroShort_BDTModel.onnx" false].

(** Monte-Carlo tables in which every core is a daughter of a K*(892)0
    at rest. *)
Definition cores (i : Z) : V0MCCore.t :=
  {| V0MCCore.pdgCode := 310;
     V0MCCore.pdgCodePositive := 211;
     V0MCCore.pdgCodeNegative := -211;
     V0MCCore.pdgCodeMother := 313;
     V0MCCore.pxMC := zero;
     V0MCCore.pyMC := zero;
     V0MCCore.pzMC := zero |}.

Definition fw_mc : Framework :=
  {| DauTracks_at := fun _ => Sample.track;
     V0MCCores_at := Some cores;
     distovertotmom := fun _ _ _ _ _ _ _ _ _ => f32 1 0;
     V0_p := fun _ _ _ => f32 2 0;
     std_pow := fun b _ => dmul b b;
     RecoDecay_pt := fun _ _ => f32 3 (-1);
     RecoDecay_m := fun _ _ => f32q 9 10;
     RecoDecay_y := fun _ _ => zero;
     pdgDB_Mass := fun _ => d64q 89555 100000;
     mlCustomModelK0Short_evalModel := fun _ _ => f32 1 (-1);
     mlCustomModelGamma_evalModel := fun _ _ => f32 1 (-1) |}.

(** The defaults for skimmed data. *)
Definition options_skimmed : taskOptions.t :=
  {| taskOptions.cfgSkimmedProcessing := true;
     taskOptions.cfgSkimmedTrigger := "fDoubleXi,fTripleXi,fQuadrupleXi";
     taskOptions.qaCentrality := false;
     taskOptions.upcCuts_fv0Cut := f32 100 0;
     taskOptions.upcCuts_ft0aCut := f32 200 0;
     taskOptions.upcCuts_ft0cCut := f32 100 0;
     taskOptions.upcCuts_zdcCut := f32 10 0;
     taskOptions.eventSelections := eventSel;
     taskOptions.useLambdaScores := false;
     taskOptions.useAntiLambdaScores := false;
     taskOptions.calculateLambdaScores := false;
     taskOptions.calculateAntiLambdaScores := false;
     taskOptions.customModelPathCCDB := EmptyString;
     taskOptions.timestampCCDB := -1;
     taskOptions.loadCustomModelsFromCCDB := false;
     taskOptions.enableOptimizations := false;
     taskOptions.localModelPathLambda := "Lambda_BDTModel.onnx";
     taskOptions.localModelPathAntiLambda := "AntiLambda_BDTModel.onnx";
     taskOptions.localModelPathK0Short := "KZeroShort_BDTModel.onnx";
     taskOptions.localModelPathGamma := "Gamma_BDTModel.onnx";
     taskOptions.ccdburl := "http://alice-ccdb.cern.ch" |}.

(** A host on which Zorro logs one entry for the run in the registry it
    is handed. *)
Definition host_zorro : Host :=
  {| V0_pt := fun _ _ => f32 1 0;
     hRawCentrality_FindBin := fun _ => 1;
     hRawCentrality_GetBinContent := fun _ => d64 50 0;
     sgSelector_trueGap := fun _ _ _ _ _ => -1;
     retrieveBlob := fun _ _ _ => false;
     has_v0MCCore := fun v0 => 0 <=? V0.v0MCCoreId v0;
     v0MC_ptmc := fun _ => f32 1 0;
     populateHistRegistry :=
       fun histos runNumber =>
         histos ++ [("Zorro/run"%string, [int_to_double runNumber])] |}.

(** The state after [initCCDB] for run 544122 on skimmed data with the
    K0-short model. *)
Definition state_skimmed : TaskState :=
  mkState [("Zorro/run"%string, [int_to_double 544122])] 544122
    [ccdb_setURL "http://alice-ccdb.cern.ch";
     ccdb_setCaching true;
     ccdb_setLocalObjectValidityChecking;
     ccdb_setFatalWhenNull false;
     zorro_initCCDB 544122 1000 "fDoubleXi,fTripleXi,fQuadrupleXi";
     zorro_populateHistRegistry 544122;
     onnx_initModel ModelK0Short "KZeroShort_BDTModel.onnx" false].

(** The group with no switch on and the occupancy bounded by 1000, read
    from FT0C or from the tracks. *)
Definition eventSel_occupancy (useFT0CbasedOccupancy : bool)
    : eventSelections.t :=
  {| eventSelections.requireSel8 := false;
     eventSelections.requireTriggerTVX := false;
     eventSelections.rejectITSROFBorder := false;
     eventSelections.rejectTFBorder := false;
     eventSelections.requireIsVertexITSTPC := false;
     eventSelections.requireIsGoodZvtxFT0VsPV := false;
     eventSelections.requireIsVertexTOFmatched := false;
     eventSelections.requireIsVertexTRDmatched := false;
     eventSelections.rejectSameBunchPileup := false;
     eventSelections.requireNoCollInTimeRangeStd := false;
     eventSelections.requireNoCollInTimeRangeStrict := false;
     eventSelections.requireNoCollInTimeRangeNarrow := false;
     eventSelections.requireNoCollInTimeRangeVzDep := false;
     eventSelections.requireNoCollInROFStd := false;
     eventSelections.requireNoCollInROFStrict := false;
     eventSelections.requireINEL0 := false;
     eventSelections.requireINEL1 := false;
     eventSelections.maxZVtxPosition := f32 10 0;
     eventSelections.useFT0CbasedOccupancy := useFT0CbasedOccupancy;
     eventSelections.minOccupancy := f32 (-1) 0;
     eventSelections.maxOccupancy := f32 1000 0 |}.

(** A Pb-Pb event whose FT0C occupancy is 100 and whose track occupancy
    is 5000. *)
Definition event_busy : StraCollision.t :=
  StraCollision.with_occupancy (f32 100 0) 5000 (event 5).

(** The defaults for Pb-Pb. *)
Definition task_pbpb : KstarToK0Gamma :=
  {| doPPAnalysis := false;
     doMCAssociation := true;
     rapidityCut := f32 1 (-1);
     v0Selections := Defaults.v0Sel;
     photonSelections := Defaults.photonSel;
     mlConfigurations := Defaults.ml |}.

(** Monte-Carlo tables in which the core 0 is a K0-short and every other
    core a photon, all daughters of a K*(892)0 at rest. *)
Definition cores_mixed (i : Z) : V0MCCore.t :=
  {| V0MCCore.pdgCode := if i =? 0 then 310 else 22;
     V0MCCore.pdgCodePositive := if i =? 0 then 211 else 11;
     V0MCCore.pdgCodeNegative := if i =? 0 then -211 else -11;
     V0MCCore.pdgCodeMother := 313;
     V0MCCore.pxMC := zero;
     V0MCCore.pyMC := zero;
     V0MCCore.pzMC := zero |}.

Definition fw_mc_mixed : Framework :=
  {| DauTracks_at := fun _ => Sample.track;
     V0MCCores_at := Some cores_mixed;
     distovertotmom := fun _ _ _ _ _ _ _ _ _ => f32 1 0;
     V0_p := fun _ _ _ => f32 2 0;
     std_pow := fun b _ => dmul b b;
     RecoDecay_pt := fun _ _ => f32 3 (-1);
     RecoDecay_m := fun _ _ => f32q 9 10;
     RecoDecay_y := fun _ _ => zero;
     pdgDB_Mass := fun _ => d64q 89555 100000;
     mlCustomModelK0Short_evalModel := fun _ _ => f32 1 (-1);
     mlCustomModelGamma_evalModel := fun _ _ => f32 1 (-1) |}.

(** The candidate [Sample.v0 i pos neg] with the Monte-Carlo core
    [core]. *)
Definition v0_mc (i pos neg core : Z) : V0.t :=
  let r := Sample.v0 i pos neg in
  V0.mk (V0.globalIndex r) (V0.posTrackExtraId r) (V0.negTrackExtraId r) core
        (V0.x r) (V0.y r) (V0.z r) (V0.px r) (V0.py r) (V0.pz r)
        (V0.negativeeta r) (V0.positiveeta r) (V0.v0Type r) (V0.v0radius r)
        (V0.dcapostopv r) (V0.dcanegtopv r) (V0.v0cosPA r) (V0.dcaV0daughters r)
        (V0.dcav0topv r) (V0.mGamma r) (V0.mK0Short r) (V0.mLambda r)
        (V0.qtarm r) (V0.alpha r) (V0.posTOFDeltaTK0Pi r) (V0.negTOFDeltaTK0Pi r)
        (V0.tofNSigmaK0PiPlus r) (V0.tofNSigmaK0PiMinus r)
        (V0.k0ShortBDTScore r) (V0.antiLambdaBDTScore r).

(** A simulated batch: a K0-short, a photon and a candidate without
    Monte-Carlo core, with six different daughter tracks. *)
Definition batch_mc : V0Table.t :=
  V0Table.mk 0 [v0_mc 0 1 2 0; v0_mc 1 3 4 1; v0_mc 2 5 6 (-1)].

End SampleRun.

(** * Properties *)

(** ** Facts about the IEEE comparisons *)
Module IEEEFacts.
Lemma SFcompare_swap (a b : spec_float) :
SFcompare b a = option_map CompOpp (SFcompare a b).
Proof.
destruct a as [sa|sa| |sa ma ea], b as [sb|sb| |sb mb eb]; simpl;
  try reflexivity;
  try (destruct sa; reflexivity); try (destruct sb; reflexivity);
  try (destruct sa, sb; reflexivity).
rewrite (Z.compare_antisym ea eb).
change (Pos.compare_cont Eq mb ma) with (Pos.compare mb ma).
change (Pos.compare_cont Eq ma mb) with (Pos.compare ma mb).
rewrite (Pos.compare_antisym ma mb).
destruct sa, sb; simpl; try reflexivity;
  destruct (ea ?= eb); simpl; try reflexivity;
  destruct (ma ?= mb)%positive; reflexivity.
Qed.

Lemma lt_gt a b : lt a b = gt b a.
Proof. reflexivity. Qed.

Lemma lt_asym a b : lt a b = true -> lt b a = false.
Proof.
unfold lt, SFltb. rewrite (SFcompare_swap a b).
destruct (SFcompare a b) as [[]|]; simpl; congruence.
Qed.

Lemma gt_asym a b : gt a b = true -> lt a b = false.
Proof. unfold gt. apply lt_asym. Qed.

Lemma feq_not_gt a b : feq a b = true -> gt a b = false.
Proof.
unfold feq, gt, SFeqb, SFltb. rewrite (SFcompare_swap a b).
destruct (SFcompare a b) as [[]|]; simpl; congruence.
Qed.

Lemma feq_not_lt a b : feq a b = true -> lt a b = false.
Proof.
unfold feq, lt, SFeqb, SFltb.
destruct (SFcompare a b) as [[]|]; simpl; congruence.
Qed.

Lemma lt_nan_l a : lt nan a = false.
Proof. reflexivity. Qed.
Lemma lt_nan_r a : lt a nan = false.
Proof. destruct a; reflexivity. Qed.
Lemma gt_nan_l a : gt nan a = false.
Proof. apply lt_nan_r. Qed.
Lemma gt_nan_r a : gt a nan = false.
Proof. reflexivity. Qed.

Lemma is_nan_eq a : is_nan a = true -> a = nan.
Proof. destruct a; simpl; intros; (reflexivity || discriminate). Qed.

Lemma gt_pinf a : gt a pinf = false.
Proof. destruct a as [|[]| |]; reflexivity. Qed.
Lemma lt_ninf a : lt a ninf = false.
Proof. destruct a as [|[]| |[]]; reflexivity. Qed.

Lemma fabs_nan a : is_nan (fabs a) = is_nan a.
Proof. destruct a; reflexivity. Qed.

Lemma not_gt_le a b :
is_nan a = false -> is_nan b = false -> gt a b = false -> le a b = true.
Proof.
unfold gt, le, SFltb, SFleb. rewrite (SFcompare_swap a b).
intros Ha Hb.
assert (exists c, SFcompare a b = Some c) as [c ->].
{ destruct a, b; simpl in *; try discriminate; eauto. }
destruct c; simpl; congruence.
Qed.

(** [z' < z] and not [zmax < z] give not [zmax < z']. *)
Lemma lt_le_trans z' z zmax :
lt z' z = true -> gt z zmax = false -> gt z' zmax = false.
Proof.
unfold gt, lt, SFltb.
destruct z' as [s1|s1| |s1 m1 e1], z as [s2|s2| |s2 m2 e2],
         zmax as [s3|s3| |s3 m3 e3]; simpl;
try congruence;
repeat match goal with s : bool |- _ => destruct s end; simpl; try congruence.
all: change (Pos.compare_cont Eq ?a ?b) with (Pos.compare a b).
all: repeat match goal with
     | |- context [ (?a ?= ?b)%Z ] => destruct (Z.compare_spec a b)
     | |- context [ (?a ?= ?b)%positive ] => destruct (Pos.compare_spec a b)
     end; simpl; try congruence; try lia.
Qed.

(** A negative value is not above a value that is not negative. *)
Lemma neg_not_gt z zmax :
lt z zero = true -> lt zmax zero = false -> gt z zmax = false.
Proof.
unfold gt, lt, SFltb.
destruct z as [s1|s1| |s1 m1 e1], zmax as [s3|s3| |s3 m3 e3]; simpl;
try congruence;
repeat match goal with s : bool |- _ => destruct s end; simpl; congruence.
Qed.
End IEEEFacts.
Import IEEEFacts.

(** ** Proof automation for the cut lists *)

Ltac cut_step :=
  match goal with
  | |- context [if ?c then _ else _] => destruct c eqn:?
  end.
Ltac cuts := repeat (cut_step; try reflexivity; try congruence).


Ltac unfold_task :=
  cbn [without_armPodCut without_v0cospa without_dcav0dau without_dcav0topv
       without_v0MassWindow without_photonZMax
       with_v0Selections with_photonSelections
       v0Selections photonSelections doMCAssociation
       v0Selections.with_daughterEtaCut v0Selections.with_v0TypeSelection
       v0Selections.with_v0cospa v0Selections.with_dcav0dau
       v0Selections.with_dcav0topv v0Selections.with_v0MassWindow
       v0Selections.with_armPodCut
       photonSelections.with_photonZMax photonSelections.with_v0cospa
       photonSelections.with_dcav0dau photonSelections.with_dcav0topv
       photonSelections.with_armPodCut photonSelections.with_daughterEtaCut
       photonSelections.with_v0TypeSelection
       v0Selections.v0TypeSelection v0Selections.daughterEtaCut
       v0Selections.v0cospa v0Selections.dcav0dau v0Selections.dcav0topv
       v0Selections.dcapostopv v0Selections.dcanegtopv v0Selections.v0radius
       v0Selections.v0radiusMax v0Selections.lifetimeCut
       v0Selections.v0MassWindow v0Selections.compMassRejection
       v0Selections.armPodCut v0Selections.minTPCrows
       v0Selections.minITSclusters v0Selections.skipTPConly
       v0Selections.requirePosITSonly v0Selections.requireNegITSonly
       v0Selections.rejectPosITSafterburner
       v0Selections.rejectNegITSafterburner v0Selections.tpcPidNsigmaCut
       v0Selections.tofPidNsigmaCutK0Pi v0Selections.maxDeltaTimePion
       photonSelections.v0TypeSelection photonSelections.daughterEtaCut
       photonSelections.photonZMax photonSelections.v0cospa
       photonSelections.dcav0dau photonSelections.dcav0topv
       photonSelections.dcanegtopv photonSelections.dcapostopv
       photonSelections.v0radius photonSelections.v0radiusMax
       photonSelections.photonMassMax photonSelections.armPodCut
       photonSelections.minTPCrows photonSelections.minITSclusters
       photonSelections.skipTPConly photonSelections.requirePosITSonly
       photonSelections.requireNegITSonly
       photonSelections.rejectPosITSafterburner
       photonSelections.rejectNegITSafterburner
       photonSelections.tpcPidNsigmaCut] in *.

Ltac unfold_v0 :=
  unfold posTrackExtra_as, negTrackExtra_as, v0MCCore_as, V0_distovertotmom in *;
  cbn [V0.with_z V0.with_armenteros V0.with_dcatopv V0.with_v0cosPA
       V0.with_dcaV0daughters V0.with_dcav0topv V0.with_mK0Short
       V0.globalIndex V0.posTrackExtraId V0.negTrackExtraId V0.v0MCCoreId
       V0.x V0.y V0.z V0.px V0.py V0.pz V0.negativeeta V0.positiveeta
       V0.v0Type V0.v0radius V0.dcapostopv V0.dcanegtopv V0.v0cosPA
       V0.dcaV0daughters V0.dcav0topv V0.mGamma V0.mK0Short V0.mLambda
       V0.qtarm V0.alpha V0.posTOFDeltaTK0Pi V0.negTOFDeltaTK0Pi
       V0.tofNSigmaK0PiPlus V0.tofNSigmaK0PiMinus V0.k0ShortBDTScore
       V0.antiLambdaBDTScore] in *.

Ltac open_selection :=
  unfold isV0Selected, dcapostopv_of, dcanegtopv_of, armPodCut_of,
         massDistanceK0Short in *;
  cbv zeta in *; unfold_task; unfold_v0.

Ltac split_mc := destruct (V0MCCores_at _); unfold_v0.

(** ** The cut lists of [isV0Selected] *)

Lemma dcapos_rejects task pc fw v0 collision isPhoton :
  lt (fabs (V0.dcapostopv v0)) (dcapostopv_of task isPhoton) = true ->
  isV0Selected task pc fw v0 collision isPhoton = uint64_false.
Proof.
  intros H. open_selection. destruct isPhoton; rewrite H; cuts.
Qed.

Lemma dcaneg_rejects task pc fw v0 collision isPhoton :
  gt (fabs (V0.dcanegtopv v0)) (dcanegtopv_of task isPhoton) = true ->
  isV0Selected task pc fw v0 collision isPhoton = uint64_false.
Proof.
  intros H. open_selection. destruct isPhoton; rewrite H; cuts.
Qed.

Lemma zcut_rejects task pc fw v0 collision :
  gt (V0.z v0) (photonSelections.photonZMax (photonSelections task)) = true ->
  isV0Selected task pc fw v0 collision true = uint64_false.
Proof. intros H. open_selection. rewrite H. reflexivity. Qed.

Lemma zcut_negative task pc fw v0 collision :
  lt (V0.z v0) zero = true ->
  lt (photonSelections.photonZMax (photonSelections task)) zero = false ->
  isV0Selected task pc fw v0 collision true
  = isV0Selected (without_photonZMax task) pc fw v0 collision true.
Proof.
  intros Hz Hmax. open_selection.
  rewrite (neg_not_gt _ _ Hz Hmax), gt_pinf. reflexivity.
Qed.

Lemma zcut_monotone task pc fw v0 collision z' :
  lt z' (V0.z v0) = true ->
  isV0Selected task pc fw v0 collision true = uint64_true ->
  isV0Selected task pc fw (V0.with_z z' v0) collision true = uint64_true.
Proof.
  intros Hlt H. open_selection.
  destruct (gt (V0.z v0) (photonSelections.photonZMax (photonSelections task)))
    eqn:Hz; [discriminate|].
  rewrite (lt_le_trans _ _ _ Hlt Hz). cbv iota. split_mc; exact H.
Qed.

Lemma k0short_ignores_photonZMax task pc fw v0 collision zmax' :
  isV0Selected (with_photonSelections (photonSelections.with_photonZMax zmax') task)
               pc fw v0 collision false
  = isV0Selected task pc fw v0 collision false.
Proof. open_selection. reflexivity. Qed.

Lemma zcut_passes task pc fw v0 collision :
  gt (V0.z v0) (photonSelections.photonZMax (photonSelections task)) = false ->
  isV0Selected task pc fw v0 collision true
  = isV0Selected (without_photonZMax task) pc fw v0 collision true.
Proof. intros Hz. open_selection. rewrite Hz, gt_pinf. reflexivity. Qed.

Lemma gt_ninf a : gt ninf a = false.
Proof. destruct a as [|[]| |[]]; reflexivity. Qed.

Lemma k0short_ignores_z task pc fw v0 collision z' :
  V0_distovertotmom fw (V0.with_z z' v0) (Collision.posX collision)
                    (Collision.posY collision) (Collision.posZ collision)
  = V0_distovertotmom fw v0 (Collision.posX collision)
                      (Collision.posY collision) (Collision.posZ collision) ->
  isV0Selected task pc fw (V0.with_z z' v0) collision false
  = isV0Selected task pc fw v0 collision false.
Proof. intros Hd. open_selection. rewrite Hd. split_mc; reflexivity. Qed.

Lemma to_double_pinf : to_double pinf = pinf.
Proof. reflexivity. Qed.

Lemma mass_edge task pc fw v0 collision :
  feq (massDistanceK0Short pc v0)
      (to_double (v0Selections.v0MassWindow (v0Selections task))) = true ->
  isV0Selected task pc fw v0 collision false
  = isV0Selected (without_v0MassWindow task) pc fw v0 collision false.
Proof.
  intros H. open_selection.
  rewrite (feq_not_gt _ _ H), to_double_pinf, gt_pinf. reflexivity.
Qed.

Lemma mass_outside task pc fw v0 collision :
  gt (massDistanceK0Short pc v0)
     (to_double (v0Selections.v0MassWindow (v0Selections task))) = true ->
  isV0Selected task pc fw v0 collision false = uint64_false.
Proof. intros H. open_selection. rewrite H. cuts. Qed.

Lemma to_double_zero : gt (to_double zero) (d64q 1 10000) = false.
Proof. vm_compute. reflexivity. Qed.

Lemma armPod_skipped task pc fw v0 collision isPhoton qt' alpha' :
  gt (to_double (armPodCut_of task isPhoton)) (d64q 1 10000) = false ->
  isV0Selected task pc fw (V0.with_armenteros qt' alpha' v0) collision isPhoton
  = isV0Selected task pc fw v0 collision isPhoton.
Proof.
  intros H. open_selection. destruct isPhoton; rewrite H; cbn [andb];
    split_mc; reflexivity.
Qed.

Lemma armPod_rejects task pc fw v0 collision isPhoton :
  gt (to_double (armPodCut_of task isPhoton)) (d64q 1 10000) = true ->
  lt (fmul (V0.qtarm v0) (armPodCut_of task isPhoton)) (fabs (V0.alpha v0)) = true ->
  isV0Selected task pc fw v0 collision isPhoton = uint64_false.
Proof.
  intros H1 H2. open_selection. destruct isPhoton; rewrite H1, H2; cbn [andb]; cuts.
Qed.

Lemma armPod_passes task pc fw v0 collision isPhoton :
  gt (to_double (armPodCut_of task isPhoton)) (d64q 1 10000) = true ->
  gt (fmul (V0.qtarm v0) (armPodCut_of task isPhoton)) (fabs (V0.alpha v0)) = true ->
  isV0Selected task pc fw v0 collision isPhoton
  = isV0Selected (without_armPodCut task) pc fw v0 collision isPhoton.
Proof.
  intros H1 H2. apply gt_asym in H2. open_selection.
  destruct isPhoton; rewrite H1, H2, to_double_zero; reflexivity.
Qed.

Lemma nan_cospa task pc fw v0 collision isPhoton :
  is_nan (V0.v0cosPA v0) = true ->
  isV0Selected task pc fw v0 collision isPhoton
  = isV0Selected (without_v0cospa task) pc fw v0 collision isPhoton.
Proof.
  intros H. apply is_nan_eq in H. open_selection.
  destruct isPhoton; rewrite H, lt_nan_l, lt_ninf; reflexivity.
Qed.

Lemma nan_dcav0dau task pc fw v0 collision isPhoton :
  is_nan (V0.dcaV0daughters v0) = true ->
  isV0Selected task pc fw v0 collision isPhoton
  = isV0Selected (without_dcav0dau task) pc fw v0 collision isPhoton.
Proof.
  intros H. apply is_nan_eq in H. open_selection.
  destruct isPhoton; rewrite H, gt_nan_l, gt_pinf; reflexivity.
Qed.

Lemma nan_dcav0topv task pc fw v0 collision isPhoton :
  is_nan (V0.dcav0topv v0) = true ->
  isV0Selected task pc fw v0 collision isPhoton
  = isV0Selected (without_dcav0topv task) pc fw v0 collision isPhoton.
Proof.
  intros H. apply is_nan_eq in H. open_selection.
  destruct isPhoton; rewrite H, lt_nan_l, lt_ninf; reflexivity.
Qed.

Lemma k0short_ignores_own_eta task pc fw v0 collision eta' :
  isV0Selected (with_v0Selections (v0Selections.with_daughterEtaCut eta') task)
               pc fw v0 collision false
  = isV0Selected task pc fw v0 collision false.
Proof. open_selection. reflexivity. Qed.

Lemma k0short_ignores_own_type task pc fw v0 collision type' :
  isV0Selected (with_v0Selections (v0Selections.with_v0TypeSelection type') task)
               pc fw v0 collision false
  = isV0Selected task pc fw v0 collision false.
Proof. open_selection. reflexivity. Qed.

Lemma k0short_eta_photon_cut task pc fw v0 collision :
  gt (fabs (V0.negativeeta v0)) (photonSelections.daughterEtaCut (photonSelections task)) = true ->
  isV0Selected task pc fw v0 collision false = uint64_false.
Proof. intros H. open_selection. rewrite H. reflexivity. Qed.

(** ** Masks, the registry and the pair analysis *)

Lemma vec_get_set {A} (v v' : list A) i a :
  vec_set v i a = Some v' -> vec_get v' i = Some a.
Proof.
  unfold vec_set, vec_get. destruct (Z.leb_spec 0 i); simpl; [|discriminate].
  destruct (Z.ltb_spec i (Z.of_nat (length v))); [|discriminate].
  intros [= <-]. destruct (Z.ltb_spec i 0); [lia|].
  apply list_lookup_insert_eq. lia.
Qed.

Lemma vec_set_length {A} (v v' : list A) i a :
  vec_set v i a = Some v' -> length v' = length v.
Proof.
  unfold vec_set. destruct (_ && _); [|discriminate].
  intros [= <-]. apply length_insert.
Qed.

Lemma vec_set_is_Some {A} (v : list A) i a :
  0 <= i < Z.of_nat (length v) -> is_Some (vec_set v i a).
Proof.
  intros [H1 H2]. unfold vec_set.
  destruct (Z.leb_spec 0 i); [|lia]. destruct (Z.ltb_spec i (Z.of_nat (length v))); [|lia].
  simpl. eauto.
Qed.

Lemma fill_all_app fills histos : fill_all fills histos = histos ++ fills.
Proof.
  revert histos. induction fills as [|[n v] fills IH]; intros histos; simpl.
  - now rewrite app_nil_r.
  - unfold fill_all in *. simpl. rewrite IH. unfold fill. simpl.
    now rewrite <- app_assoc.
Qed.

Lemma reportPair_app task pc fw collision k0short gamma centrality gapSide histos :
  exists fills,
    reportPair task pc fw collision k0short gamma centrality gapSide histos
    = histos ++ ("K0sGamma/h3dMassK0sGamma"%string,
                 [to_double centrality; to_double (pairPt fw k0short gamma);
                  to_double (pairInvMass pc fw k0short gamma)]) :: fills.
Proof.
  unfold reportPair, fillQAplot. cbv zeta.
  change (1 =? 0) with false. cbv iota. rewrite fill_all_app. unfold fill.
  destruct (negb (doPPAnalysis task)); [destruct (gapSide =? 0); [|destruct (gapSide =? 1); [|destruct (gapSide =? 2)]]|];
    repeat rewrite <- app_assoc; simpl; eexists; reflexivity.
Qed.

Lemma app_cons_neq {A} (l : list A) x l' : l ++ x :: l' <> l.
Proof.
  intros H. apply (f_equal (@length A)) in H. rewrite length_app in H. simpl in H. lia.
Qed.

Lemma pair_cut task pc fw collision k0short gamma centrality gapSide histos :
  doMCAssociation task = false ->
  gt (fabs (pairRapidity pc fw k0short gamma)) (rapidityCut task) = true ->
  analyseV0PairCandidate task pc fw collision k0short gamma centrality gapSide histos = histos.
Proof. intros Hmc Hy. unfold analyseV0PairCandidate. cbv zeta. rewrite Hmc, Hy. reflexivity. Qed.

Lemma pair_reported task pc fw collision k0short gamma centrality gapSide histos :
  doMCAssociation task = false ->
  gt (fabs (pairRapidity pc fw k0short gamma)) (rapidityCut task) = false ->
  analyseV0PairCandidate task pc fw collision k0short gamma centrality gapSide histos
  = reportPair task pc fw collision k0short gamma centrality gapSide histos.
Proof. intros Hmc Hy. unfold analyseV0PairCandidate. cbv zeta. rewrite Hmc, Hy. reflexivity. Qed.

Lemma analyseV0Candidate_is_Some task pc fw v0 collision pt selK selG off :
  0 <= V0.globalIndex v0 - off < Z.of_nat (length selK) ->
  0 <= V0.globalIndex v0 - off < Z.of_nat (length selG) ->
  is_Some (analyseV0Candidate task pc fw v0 collision pt selK selG off).
Proof.
  intros HK HG. unfold analyseV0Candidate.
  destruct (vec_set_is_Some selK _ (passK0ShortSelections task pc fw v0 collision pt) HK) as [sk ->].
  destruct (vec_set_is_Some selG _ (passGammaSelections task pc fw v0 collision pt) HG) as [sg ->].
  simpl. eauto.
Qed.

(** ** The two loops of the matcher *)

Section PairingFacts.

Lemma checkTrackIndices_spec k g :
  checkTrackIndices k g = true <-> ~ sharesDaughter k g.
Proof.
  unfold checkTrackIndices, sharesDaughter.
  destruct (Z.eqb_spec (V0.posTrackExtraId k) (V0.posTrackExtraId g));
  destruct (Z.eqb_spec (V0.posTrackExtraId k) (V0.negTrackExtraId g));
  destruct (Z.eqb_spec (V0.negTrackExtraId k) (V0.posTrackExtraId g));
  destruct (Z.eqb_spec (V0.negTrackExtraId k) (V0.negTrackExtraId g));
  simpl; intuition congruence.
Qed.

Context {St : Type}.
Variable formPair : V0.t -> V0.t -> St -> St.
Variable fullV0s : V0Table.t.
Variable selK selG : list bool.

Lemma gammaLoop_record k gs acc :
  gammaLoop record fullV0s selG k gs acc
  = option_map (app acc) (gammaLoop record fullV0s selG k gs []).
Proof.
  revert acc. induction gs as [|g gs IH]; intros acc; simpl.
  - now rewrite app_nil_r.
  - destruct (vec_get selG _) as [[]|]; simpl; [|apply IH|reflexivity].
    destruct (_ =? _); [apply IH|].
    destruct (checkTrackIndices k g); simpl; [|apply IH].
    rewrite (IH (record k g acc)), (IH (record k g [])).
    destruct (gammaLoop record fullV0s selG k gs []); simpl; [|reflexivity].
    unfold record. now rewrite <- app_assoc.
Qed.

Lemma gammaLoop_replay k gs st :
  gammaLoop formPair fullV0s selG k gs st
  = option_map (fun ps => replay formPair ps st) (gammaLoop record fullV0s selG k gs []).
Proof.
  revert st. induction gs as [|g gs IH]; intros st; simpl.
  - reflexivity.
  - destruct (vec_get selG _) as [[]|]; simpl; [|apply IH|reflexivity].
    destruct (_ =? _); [apply IH|].
    destruct (checkTrackIndices k g); simpl; [|apply IH].
    rewrite IH, (gammaLoop_record k gs (record k g [])).
    destruct (gammaLoop record fullV0s selG k gs []); reflexivity.
Qed.

Lemma k0shortLoop_record ks acc :
  k0shortLoop record fullV0s selK selG ks acc
  = option_map (app acc) (k0shortLoop record fullV0s selK selG ks []).
Proof.
  revert acc. induction ks as [|k ks IH]; intros acc; simpl.
  - now rewrite app_nil_r.
  - destruct (vec_get selK _) as [[]|]; simpl; [|apply IH|reflexivity].
    rewrite (gammaLoop_record k _ acc).
    destruct (gammaLoop record fullV0s selG k _ []) as [ps|]; simpl; [|reflexivity].
    rewrite (IH (acc ++ ps)), (IH ps).
    destruct (k0shortLoop record fullV0s selK selG ks []); simpl; [|reflexivity].
    now rewrite app_assoc.
Qed.

Lemma replay_app ps qs st :
  replay formPair (ps ++ qs) st = replay formPair qs (replay formPair ps st).
Proof. apply fold_left_app. Qed.

Lemma k0shortLoop_replay ks st :
  k0shortLoop formPair fullV0s selK selG ks st
  = option_map (fun ps => replay formPair ps st)
               (k0shortLoop record fullV0s selK selG ks []).
Proof.
  revert st. induction ks as [|k ks IH]; intros st; simpl.
  - reflexivity.
  - destruct (vec_get selK _) as [[]|]; simpl; [|apply IH|reflexivity].
    rewrite gammaLoop_replay.
    destruct (gammaLoop record fullV0s selG k _ []) as [ps|]; simpl; [|reflexivity].
    rewrite IH, (k0shortLoop_record ks ps).
    destruct (k0shortLoop record fullV0s selK selG ks []); simpl; [|reflexivity].
    now rewrite replay_app.
Qed.

End PairingFacts.

Lemma forEachV0V0Pair_replay {St} (formPair : V0.t -> V0.t -> St -> St)
    fullV0s selK selG st :
  forEachV0V0Pair formPair fullV0s selK selG st
  = option_map (fun ps => replay formPair ps st) (emittedPairs fullV0s selK selG).
Proof. apply k0shortLoop_replay. Qed.


Lemma gammaLoop_good tb selK selG k gs acc r :
  maskBit tb selK k = Some true ->
  Forall (goodPair tb selK selG) acc ->
  gammaLoop record tb selG k gs acc = Some r ->
  Forall (goodPair tb selK selG) r.
Proof.
  intros Hk. revert acc. induction gs as [|g gs IH]; intros acc Hacc; simpl.
  - congruence.
  - destruct (vec_get selG _) as [[]|] eqn:Hg; simpl; [|apply IH; exact Hacc|discriminate].
    destruct (Z.eqb_spec (V0.globalIndex k) (V0.globalIndex g)) as [|Hne];
      [apply IH; exact Hacc|].
    destruct (checkTrackIndices k g) eqn:Hc; simpl; [|apply IH; exact Hacc].
    apply IH. unfold record. apply Forall_app; split; [exact Hacc|].
    constructor; [|constructor].
    apply checkTrackIndices_spec in Hc. unfold sharesDaughter in Hc.
    unfold goodPair; simpl. repeat split; try tauto; try exact Hg.
    congruence.
Qed.

Lemma k0shortLoop_good tb selK selG ks acc r :
  Forall (goodPair tb selK selG) acc ->
  k0shortLoop record tb selK selG ks acc = Some r ->
  Forall (goodPair tb selK selG) r.
Proof.
  revert acc. induction ks as [|k ks IH]; intros acc Hacc; simpl.
  - congruence.
  - destruct (vec_get selK _) as [[]|] eqn:Hk; simpl; [|apply IH; exact Hacc|discriminate].
    destruct (gammaLoop record tb selG k _ acc) as [st'|] eqn:Hg; simpl; [|discriminate].
    apply IH. eapply gammaLoop_good; eauto.
Qed.


Section Count.
Variable tb : V0Table.t.
Variable selK selG : list bool.

Lemma gammaLoop_filter k gs :
  (forall g, In g gs -> is_Some (maskBit tb selG g)) ->
  gammaLoop record tb selG k gs []
  = Some (map (pair k) (List.filter (fun g => Gb tb selG g && pairable k g) gs)).
Proof.
  induction gs as [|g gs IH]; intros Hs; simpl; [reflexivity|].
  destruct (Hs g (or_introl eq_refl)) as [b Hb].
  unfold Gb, pairable. unfold maskBit in *. rewrite Hb. simpl.
  assert (IH' := IH (fun g' Hg' => Hs g' (or_intror Hg'))).
  destruct b; simpl; [|exact IH'].
  destruct (_ =? _); simpl; [exact IH'|].
  destruct (checkTrackIndices k g); simpl; [|exact IH'].
  rewrite gammaLoop_record, IH'. reflexivity.
Qed.

Lemma k0shortLoop_flat_map ks :
  (forall v, In v ks -> is_Some (maskBit tb selK v)) ->
  (forall v, In v (V0Table.rows tb) -> is_Some (maskBit tb selG v)) ->
  k0shortLoop record tb selK selG ks [] = Some (flat_map (pairsOf tb selK selG) ks).
Proof.
  intros HK HG. induction ks as [|k ks IH]; simpl; [reflexivity|].
  destruct (HK k (or_introl eq_refl)) as [b Hb].
  assert (IH' := IH (fun v Hv => HK v (or_intror Hv))).
  unfold pairsOf at 1, Kb. unfold maskBit in *. rewrite Hb. simpl.
  destruct b; simpl; [|exact IH'].
  rewrite (gammaLoop_filter k _ HG). simpl.
  rewrite k0shortLoop_record, IH'. reflexivity.
Qed.
End Count.


Section Aligned.
Variable tb : V0Table.t.
Hypothesis Hidx : consecutiveIndices tb.

Lemma maskBit_lookup sel i v :
  V0Table.rows tb !! i = Some v -> maskBit tb sel v = sel !! i.
Proof.
  intros Hv. unfold maskBit, vec_get. rewrite (Hidx i v Hv).
  replace (V0Table.offset tb + Z.of_nat i - V0Table.offset tb) with (Z.of_nat i) by lia.
  destruct (Z.ltb_spec (Z.of_nat i) 0); [lia|]. now rewrite Nat2Z.id.
Qed.

Lemma In_lookup {A} (l : list A) x : In x l -> exists i, l !! i = Some x.
Proof. intros H. apply list_elem_of_In, list_elem_of_lookup in H. exact H. Qed.

Lemma maskBit_is_Some sel v :
  length sel = V0Table.size tb -> In v (V0Table.rows tb) ->
  is_Some (maskBit tb sel v).
Proof.
  intros Hlen Hin. destruct (In_lookup _ _ Hin) as [i Hi].
  rewrite (maskBit_lookup sel i v Hi). apply lookup_lt_is_Some.
  rewrite Hlen. unfold V0Table.size. apply lookup_lt_is_Some. eauto.
Qed.

Lemma map_maskBit sel :
  length sel = V0Table.size tb ->
  map (fun v => default false (maskBit tb sel v)) (V0Table.rows tb) = sel.
Proof.
  intros Hlen. apply list_eq. intros i.
  change (map ?f ?l) with (f <$> l). rewrite list_lookup_fmap.
  destruct (V0Table.rows tb !! i) as [v|] eqn:Hv; simpl.
  - rewrite (maskBit_lookup sel i v Hv).
    destruct (sel !! i) eqn:Hs; [reflexivity|].
    apply lookup_ge_None in Hs. apply lookup_lt_Some in Hv.
    unfold V0Table.size in Hlen. lia.
  - symmetry. apply lookup_ge_None. apply lookup_ge_None in Hv.
    unfold V0Table.size in Hlen. lia.
Qed.

Lemma globalIndex_inj k g :
  In k (V0Table.rows tb) -> In g (V0Table.rows tb) ->
  V0.globalIndex k = V0.globalIndex g -> k = g.
Proof.
  intros Hk Hg He.
  destruct (In_lookup _ _ Hk) as [i Hi], (In_lookup _ _ Hg) as [j Hj].
  rewrite (Hidx i k Hi), (Hidx j g Hj) in He.
  assert (i = j) by lia. subst j. congruence.
Qed.

Lemma NoDup_rows : List.NoDup (V0Table.rows tb).
Proof.
  apply NoDup_ListNoDup, NoDup_alt. intros i j v Hi Hj.
  pose proof (Hidx i v Hi). pose proof (Hidx j v Hj). lia.
Qed.
End Aligned.

Lemma count_true_map {A} (f : A -> bool) l :
  count_true (map f l) = length (List.filter f l).
Proof.
  unfold count_true. induction l as [|a l IH]; simpl; [reflexivity|].
  destruct (f a); simpl; congruence.
Qed.

Lemma overlaps_map {A} (f g : A -> bool) l :
  overlaps (map f l) (map g l) = length (List.filter (fun a => f a && g a) l).
Proof.
  unfold overlaps, count_true. induction l as [|a l IH]; simpl; [reflexivity|].
  destruct (f a && g a); simpl; congruence.
Qed.

Lemma NoDup_map_pair {A B} (a : A) (l : list B) :
  List.NoDup l -> List.NoDup (map (pair a) l).
Proof.
  induction 1 as [|b l Hb Hl IH]; simpl; constructor; [|exact IH].
  intros Hin. apply in_map_iff in Hin as [b' [Heq Hb']]. congruence.
Qed.

Section Counting.
Variable tb : V0Table.t.
Variable selK selG : list bool.
Hypothesis Hidx : consecutiveIndices tb.
Hypothesis Hdisjoint :
  forall k g, In k (V0Table.rows tb) -> In g (V0Table.rows tb) ->
              V0.globalIndex k <> V0.globalIndex g -> ~ sharesDaughter k g.


Lemma inner_count k gs :
  In k (V0Table.rows tb) -> List.NoDup gs -> (forall g, In g gs -> In g (V0Table.rows tb)) ->
  (length (List.filter (fun g => Gb tb selG g && pairable k g) gs)
   + (if Gb tb selG k && existsb (fun g => (V0.globalIndex g =? V0.globalIndex k)%Z) gs
      then 1 else 0)
   = length (List.filter (Gb tb selG) gs))%nat.
Proof.
  intros Hk. induction gs as [|g gs IH]; intros Hnd Hin; simpl.
  - now rewrite andb_false_r.
  - apply List.NoDup_cons_iff in Hnd as [Hnotin Hnd].
    specialize (IH Hnd (fun g' Hg' => Hin g' (or_intror Hg'))).
    unfold pairable at 1.
    destruct (Z.eqb_spec (V0.globalIndex g) (V0.globalIndex k)) as [He|Hne].
    + assert (g = k) by (apply (globalIndex_inj tb Hidx); auto using in_eq). subst g.
      rewrite Z.eqb_refl. simpl. rewrite andb_false_r.
      assert (existsb (fun g => V0.globalIndex g =? V0.globalIndex k) gs = false) as Hex.
      { apply not_true_is_false. intros Hex. apply existsb_exists in Hex as [g' [Hg' He']].
        apply Z.eqb_eq in He'.
        assert (g' = k) by (apply (globalIndex_inj tb Hidx); auto using in_cons).
        subst g'. contradiction. }
      rewrite Hex, andb_false_r in IH. rewrite andb_true_r.
      destruct (Gb tb selG k); simpl; lia.
    + destruct (Z.eqb_spec (V0.globalIndex k) (V0.globalIndex g)); [congruence|].
      assert (checkTrackIndices k g = true) as ->.
      { apply checkTrackIndices_spec. apply Hdisjoint; auto using in_eq. }
      simpl. rewrite andb_true_r. destruct (Gb tb selG g); simpl; lia.
Qed.

Lemma existsb_self k : In k (V0Table.rows tb) ->
  existsb (fun g => V0.globalIndex g =? V0.globalIndex k) (V0Table.rows tb) = true.
Proof. intros Hk. apply existsb_exists. exists k. split; [auto|apply Z.eqb_refl]. Qed.

Lemma outer_count ks :
  (forall k, In k ks -> In k (V0Table.rows tb)) ->
  (length (flat_map (pairsOf tb selK selG) ks)
   + length (List.filter (fun k => (Kb tb selK k) && (Gb tb selG k)) ks)
   = length (List.filter (Kb tb selK) ks) * length (List.filter (Gb tb selG) (V0Table.rows tb)))%nat.
Proof.
  induction ks as [|k ks IH]; intros Hin; simpl; [reflexivity|].
  specialize (IH (fun k' Hk' => Hin k' (or_intror Hk'))).
  assert (Hk : In k (V0Table.rows tb)) by (apply Hin; auto using in_eq).
  pose proof (inner_count k (V0Table.rows tb) Hk (NoDup_rows tb Hidx) (fun g Hg => Hg)) as Hc.
  rewrite (existsb_self k Hk), andb_true_r in Hc.
  rewrite length_app. unfold pairsOf at 1.
  destruct (Kb tb selK k); simpl; [|exact IH].
  rewrite length_map. destruct (Gb tb selG k); simpl; lia.
Qed.

Lemma In_pairs k g :
  In (k, g) (flat_map (pairsOf tb selK selG) (V0Table.rows tb))
  <-> In k (V0Table.rows tb) /\ In g (V0Table.rows tb) /\ Kb tb selK k = true /\ Gb tb selG g = true
      /\ V0.globalIndex k <> V0.globalIndex g.
Proof.
  rewrite in_flat_map. split.
  - intros [k' [Hk' Hp]]. unfold pairsOf in Hp.
    destruct (Kb tb selK k') eqn:HK; [|contradiction].
    apply in_map_iff in Hp as [g' [Heq Hf]]. inversion Heq; subst.
    apply filter_In in Hf as [Hg Hb].
    apply andb_true_iff in Hb as [HG Hp]. unfold pairable in Hp.
    apply andb_true_iff in Hp as [Hne _].
    apply negb_true_iff, Z.eqb_neq in Hne. auto.
  - intros (Hk & Hg & HK & HG & Hne). exists k. split; [exact Hk|].
    unfold pairsOf. rewrite HK. apply in_map. apply filter_In. split; [exact Hg|].
    rewrite HG. unfold pairable. simpl.
    apply andb_true_iff. split.
    + apply negb_true_iff, Z.eqb_neq. exact Hne.
    + apply checkTrackIndices_spec. auto.
Qed.

Lemma NoDup_pairs ks :
  List.NoDup ks -> List.NoDup (flat_map (pairsOf tb selK selG) ks).
Proof.
  induction ks as [|k ks IH]; intros Hnd; simpl; [constructor|].
  apply List.NoDup_cons_iff in Hnd as [Hnotin Hnd].
  apply List.NoDup_app; [| apply IH; exact Hnd |].
  - unfold pairsOf. destruct (Kb tb selK k); [|constructor].
    apply NoDup_map_pair. apply List.NoDup_filter. apply (NoDup_rows tb Hidx).
  - intros [k' g'] Hin1 Hin2.
    assert (k' = k).
    { unfold pairsOf in Hin1. destruct (Kb tb selK k); [|contradiction].
      apply in_map_iff in Hin1 as [? [Heq _]]. congruence. }
    subst k'. apply in_flat_map in Hin2 as [k2 [Hk2 Hp]].
    assert (k2 = k).
    { unfold pairsOf in Hp. destruct (Kb tb selK k2); [|contradiction].
      apply in_map_iff in Hp as [? [Heq _]]. congruence. }
    subst k2. contradiction.
Qed.
End Counting.

(** ** The claims *)

(** C1 (the code departs from the claim). The K0-short-like acceptance cuts
    read the photon-like group: changing [v0Selections.daughterEtaCut] or
    [v0Selections.v0TypeSelection] never changes the K0-short-like
    decision, and a candidate accepted with the defaults, whose daughters
    lie within the K0-short-like bound 0.8, is rejected as K0-short-like
    once the photon-like bound alone is lowered to 0.25. *)
Theorem C1_k0short_acceptance_reads_photon_group :
  (forall task pc fw v0 collision eta' type',
      isV0Selected (with_v0Selections (v0Selections.with_daughterEtaCut eta') task)
                   pc fw v0 collision false
      = isV0Selected task pc fw v0 collision false /\
      isV0Selected (with_v0Selections (v0Selections.with_v0TypeSelection type') task)
                   pc fw v0 collision false
      = isV0Selected task pc fw v0 collision false) /\
  isV0Selected Defaults.task Sample.pc (Sample.fw zero) (Sample.v0 0 1 2)
               Sample.collision false = uint64_true /\
  gt (fabs (V0.negativeeta (Sample.v0 0 1 2)))
     (v0Selections.daughterEtaCut (v0Selections Sample.task_narrow_photon_eta))
  = false /\
  gt (fabs (V0.positiveeta (Sample.v0 0 1 2)))
     (v0Selections.daughterEtaCut (v0Selections Sample.task_narrow_photon_eta))
  = false /\
  isV0Selected Sample.task_narrow_photon_eta Sample.pc (Sample.fw zero)
               (Sample.v0 0 1 2) Sample.collision false = uint64_false.
Proof.
  split.
  - intros. split;
      [apply k0short_ignores_own_eta | apply k0short_ignores_own_type].
  - vm_compute. auto.
Qed.

(** C2. Every pair that the matcher hands on has two candidates with
    different global indices (so two different candidates), fails all four
    daughter-identifier equalities, and has the K0-short mask bit of its
    primary and the photon mask bit of its secondary set; this holds for
    every batch and every pair of masks. *)
Theorem C2_emitted_pairs_are_valid :
  forall fullV0s selK0ShortIndices selGammaIndices pairs k0short gamma,
    emittedPairs fullV0s selK0ShortIndices selGammaIndices = Some pairs ->
    In (k0short, gamma) pairs ->
    V0.globalIndex k0short <> V0.globalIndex gamma /\
    k0short <> gamma /\
    V0.posTrackExtraId k0short <> V0.posTrackExtraId gamma /\
    V0.posTrackExtraId k0short <> V0.negTrackExtraId gamma /\
    V0.negTrackExtraId k0short <> V0.posTrackExtraId gamma /\
    V0.negTrackExtraId k0short <> V0.negTrackExtraId gamma /\
    maskBit fullV0s selK0ShortIndices k0short = Some true /\
    maskBit fullV0s selGammaIndices gamma = Some true.
Proof.
  intros tb selK selG pairs k g He Hin.
  assert (Forall (goodPair tb selK selG) pairs) as HF.
  { eapply k0shortLoop_good; [constructor | exact He]. }
  rewrite List.Forall_forall in HF. exact (HF _ Hin).
Qed.

Lemma C2_emitted_pairs_are_valid_witness :
  emittedPairs Sample.batch_shared [true; false; true] [false; true; true]
  = Some [(Sample.v0 10 1 2, Sample.v0 11 3 4);
          (Sample.v0 12 1 6, Sample.v0 11 3 4)] /\
  In (Sample.v0 12 1 6, Sample.v0 11 3 4)
     [(Sample.v0 10 1 2, Sample.v0 11 3 4);
      (Sample.v0 12 1 6, Sample.v0 11 3 4)] /\
  maskBit Sample.batch_shared [true; false; true] (Sample.v0 12 1 6) = Some true.
Proof.
  split; [vm_compute; reflexivity|].
  split; [right; left; reflexivity|].
  apply (C2_emitted_pairs_are_valid Sample.batch_shared
           [true; false; true] [false; true; true]
           [(Sample.v0 10 1 2, Sample.v0 11 3 4);
            (Sample.v0 12 1 6, Sample.v0 11 3 4)]
           (Sample.v0 12 1 6) (Sample.v0 11 3 4)).
  - vm_compute; reflexivity.
  - right; left; reflexivity.
Defined.

(** C3, counterexample. With the K0-short mass 0.497611, a candidate whose
    mass is the nearest [float] and a window equal to the distance between
    the two lies exactly at the edge, and is accepted. *)
Lemma C3_mass_window_edge_accepted :
  feq (massDistanceK0Short Sample.pc Sample.v0_edge)
      (to_double (v0Selections.v0MassWindow (v0Selections Sample.task_edge_window)))
  = true /\
  isV0Selected Sample.task_edge_window Sample.pc (Sample.fw zero) Sample.v0_edge
               Sample.collision false = uint64_true.
Proof. vm_compute. auto. Qed.

(** C3, amended. The mass window is inclusive: a candidate exactly at the
    edge is not rejected by the mass-window cut, it is classified as with
    an unbounded window (accepted iff it passes the other cuts); a
    candidate whose distance to the K0-short mass exceeds the window is
    rejected. *)
Theorem C3_mass_window_edge_inclusive :
  forall task pc fw v0 collision,
    (feq (massDistanceK0Short pc v0)
         (to_double (v0Selections.v0MassWindow (v0Selections task))) = true ->
     isV0Selected task pc fw v0 collision false
     = isV0Selected (without_v0MassWindow task) pc fw v0 collision false) /\
    (gt (massDistanceK0Short pc v0)
        (to_double (v0Selections.v0MassWindow (v0Selections task))) = true ->
     isV0Selected task pc fw v0 collision false = uint64_false).
Proof.
  intros. split; [apply mass_edge | apply mass_outside].
Qed.

Lemma C3_mass_window_edge_inclusive_witness :
  feq (massDistanceK0Short Sample.pc Sample.v0_edge)
      (to_double (v0Selections.v0MassWindow (v0Selections Sample.task_edge_window)))
  = true /\
  isV0Selected Sample.task_edge_window Sample.pc (Sample.fw zero) Sample.v0_edge
               Sample.collision false
  = isV0Selected (without_v0MassWindow Sample.task_edge_window) Sample.pc
                 (Sample.fw zero) Sample.v0_edge Sample.collision false.
Proof.
  split; [vm_compute; reflexivity|].
  apply (proj1 (C3_mass_window_edge_inclusive Sample.task_edge_window Sample.pc
                  (Sample.fw zero) Sample.v0_edge Sample.collision)).
  vm_compute; reflexivity.
Defined.

(** C4, counterexample. With the positive slope 2^-14 in both groups, a
    candidate with qt * k < |alpha| is accepted in both categories: the
    cut is not applied although the slope is positive. *)
Lemma C4_small_positive_slope_skipped :
  lt zero (armPodCut_of Sample.task_small_slope false) = true /\
  lt zero (armPodCut_of Sample.task_small_slope true) = true /\
  lt (fmul (V0.qtarm (Sample.v0 0 1 2)) (armPodCut_of Sample.task_small_slope false))
     (fabs (V0.alpha (Sample.v0 0 1 2))) = true /\
  lt (fmul (V0.qtarm (Sample.v0 0 1 2)) (armPodCut_of Sample.task_small_slope true))
     (fabs (V0.alpha (Sample.v0 0 1 2))) = true /\
  isV0Selected Sample.task_small_slope Sample.pc (Sample.fw zero) (Sample.v0 0 1 2)
               Sample.collision false = uint64_true /\
  isV0Selected Sample.task_small_slope Sample.pc (Sample.fw zero) (Sample.v0 0 1 2)
               Sample.collision true = uint64_true.
Proof. vm_compute. repeat (split; [reflexivity|]). reflexivity. Qed.

(** C4, amended. In both categories the Armenteros-Podolanski cut is
    applied exactly when the slope k exceeds 1e-4: otherwise qt and alpha
    have no influence on the decision; when it is applied, a candidate with
    qt * k < |alpha| is rejected and a candidate with qt * k > |alpha|
    passes the cut (it is classified as without the cut). *)
Theorem C4_armenteros_cut :
  forall task pc fw v0 collision isPhoton,
    (gt (to_double (armPodCut_of task isPhoton)) (d64q 1 10000) = false ->
     forall qt' alpha',
       isV0Selected task pc fw (V0.with_armenteros qt' alpha' v0) collision isPhoton
       = isV0Selected task pc fw v0 collision isPhoton) /\
    (gt (to_double (armPodCut_of task isPhoton)) (d64q 1 10000) = true ->
     lt (fmul (V0.qtarm v0) (armPodCut_of task isPhoton)) (fabs (V0.alpha v0)) = true ->
     isV0Selected task pc fw v0 collision isPhoton = uint64_false) /\
    (gt (to_double (armPodCut_of task isPhoton)) (d64q 1 10000) = true ->
     gt (fmul (V0.qtarm v0) (armPodCut_of task isPhoton)) (fabs (V0.alpha v0)) = true ->
     isV0Selected task pc fw v0 collision isPhoton
     = isV0Selected (without_armPodCut task) pc fw v0 collision isPhoton).
Proof.
  intros. split; [|split].
  - intros H qt' alpha'. apply armPod_skipped; exact H.
  - apply armPod_rejects.
  - apply armPod_passes.
Qed.

Lemma C4_armenteros_cut_witness :
  gt (to_double (armPodCut_of Defaults.task false)) (d64q 1 10000) = true /\
  lt (fmul (V0.qtarm (V0.with_armenteros (f32 1 (-3)) (f32 1 0) (Sample.v0 0 1 2)))
           (armPodCut_of Defaults.task false))
     (fabs (V0.alpha (V0.with_armenteros (f32 1 (-3)) (f32 1 0) (Sample.v0 0 1 2))))
  = true /\
  isV0Selected Defaults.task Sample.pc (Sample.fw zero)
               (V0.with_armenteros (f32 1 (-3)) (f32 1 0) (Sample.v0 0 1 2))
               Sample.collision false = uint64_false /\
  gt (to_double (armPodCut_of Sample.task_small_slope true)) (d64q 1 10000) = false /\
  isV0Selected Sample.task_small_slope Sample.pc (Sample.fw zero)
               (V0.with_armenteros (f32 1 (-3)) (f32 1 0) (Sample.v0 0 1 2))
               Sample.collision true
  = isV0Selected Sample.task_small_slope Sample.pc (Sample.fw zero)
                 (Sample.v0 0 1 2) Sample.collision true /\
  gt (fmul (V0.qtarm (Sample.v0 0 1 2)) (armPodCut_of Defaults.task true))
     (fabs (V0.alpha (Sample.v0 0 1 2))) = true /\
  isV0Selected Defaults.task Sample.pc (Sample.fw zero) (Sample.v0 0 1 2)
               Sample.collision true
  = isV0Selected (without_armPodCut Defaults.task) Sample.pc (Sample.fw zero)
                 (Sample.v0 0 1 2) Sample.collision true.
Proof.
  split; [vm_compute; reflexivity|].
  split; [vm_compute; reflexivity|].
  split.
  { apply (proj1 (proj2 (C4_armenteros_cut Defaults.task Sample.pc (Sample.fw zero)
                   (V0.with_armenteros (f32 1 (-3)) (f32 1 0) (Sample.v0 0 1 2))
                   Sample.collision false))); vm_compute; reflexivity. }
  split; [vm_compute; reflexivity|].
  split.
  { apply (proj1 (C4_armenteros_cut Sample.task_small_slope Sample.pc (Sample.fw zero)
                   (Sample.v0 0 1 2) Sample.collision true)); vm_compute; reflexivity. }
  split; [vm_compute; reflexivity|].
  apply (proj2 (proj2 (C4_armenteros_cut Defaults.task Sample.pc (Sample.fw zero)
                   (Sample.v0 0 1 2) Sample.collision true))); vm_compute; reflexivity.
Defined.

(** C5, failing input. With the default [doMCAssociation = true] and a
    candidate table without Monte-Carlo information, a pair of rapidity 2,
    above the window 0.5, is reported: the registry receives the fill of
    [K0sGamma/h3dMassK0sGamma]. *)
Lemma C5_pair_outside_window_reported :
  V0MCCores_at (Sample.fw (f32 2 0)) = None /\
  doMCAssociation Defaults.task = true /\
  gt (fabs (pairRapidity Sample.pc (Sample.fw (f32 2 0))
                         (Sample.v0 0 1 2) (Sample.v0 1 3 4)))
     (rapidityCut Defaults.task) = true /\
  analyseV0PairCandidate Defaults.task Sample.pc (Sample.fw (f32 2 0))
    Sample.collision (Sample.v0 0 1 2) (Sample.v0 1 3 4) zero 255 []
  = reportPair Defaults.task Sample.pc (Sample.fw (f32 2 0))
      Sample.collision (Sample.v0 0 1 2) (Sample.v0 1 3 4) zero 255 [] /\
  head (analyseV0PairCandidate Defaults.task Sample.pc (Sample.fw (f32 2 0))
          Sample.collision (Sample.v0 0 1 2) (Sample.v0 1 3 4) zero 255 [])
  = Some ("K0sGamma/h3dMassK0sGamma"%string,
          [to_double zero; to_double (f32 3 (-1)); to_double (f32q 9 10)]).
Proof. vm_compute. repeat (split; [reflexivity|]). reflexivity. Qed.

(** C5. The rapidity gate of [analyseV0PairCandidate] follows the
    configurable [doMCAssociation], not the presence of Monte-Carlo
    information.  With [doMCAssociation] off, a pair with
    |rapidity| > rapidityCut leaves the registry untouched and every other
    pair is reported; so every reported pair has |rapidity| not above the
    window, and within it when neither value is NaN.  With
    [doMCAssociation] on, which is the default, and a candidate table
    without Monte-Carlo information, every pair is reported, whatever its
    rapidity is: the registry receives the fill of
    [K0sGamma/h3dMassK0sGamma], and the rapidity cut is never applied. *)
Theorem C5_rapidity_gate_follows_flag :
  forall task pc fw collision k0short gamma centrality gapSide histos,
    (doMCAssociation task = false ->
     (gt (fabs (pairRapidity pc fw k0short gamma)) (rapidityCut task) = true ->
      analyseV0PairCandidate task pc fw collision k0short gamma centrality gapSide histos
      = histos) /\
     (gt (fabs (pairRapidity pc fw k0short gamma)) (rapidityCut task) = false ->
      analyseV0PairCandidate task pc fw collision k0short gamma centrality gapSide histos
      = reportPair task pc fw collision k0short gamma centrality gapSide histos) /\
     (analyseV0PairCandidate task pc fw collision k0short gamma centrality gapSide histos
      <> histos ->
      gt (fabs (pairRapidity pc fw k0short gamma)) (rapidityCut task) = false /\
      (is_nan (pairRapidity pc fw k0short gamma) = false ->
       is_nan (rapidityCut task) = false ->
       le (fabs (pairRapidity pc fw k0short gamma)) (rapidityCut task) = true))) /\
    (doMCAssociation task = true ->
     V0MCCores_at fw = None ->
     analyseV0PairCandidate task pc fw collision k0short gamma centrality gapSide histos
     = reportPair task pc fw collision k0short gamma centrality gapSide histos /\
     analyseV0PairCandidate task pc fw collision k0short gamma centrality gapSide histos
     <> histos /\
     exists fills,
       analyseV0PairCandidate task pc fw collision k0short gamma centrality gapSide
                              histos
       = histos ++ ("K0sGamma/h3dMassK0sGamma"%string,
                    [to_double centrality; to_double (pairPt fw k0short gamma);
                     to_double (pairInvMass pc fw k0short gamma)]) :: fills).
Proof.
  intros task pc fw collision k0short gamma centrality gapSide registry. split.
  - intros Hmc. split; [|split].
    + apply pair_cut; exact Hmc.
    + apply pair_reported; exact Hmc.
    + intros Hne.
      destruct (gt (fabs (pairRapidity pc fw k0short gamma)) (rapidityCut task)) eqn:Hy.
      * exfalso. apply Hne. apply pair_cut; assumption.
      * split; [reflexivity|]. intros Hn1 Hn2. apply not_gt_le; [|exact Hn2|exact Hy].
        now rewrite fabs_nan.
  - intros Hmc Hnone.
    assert (Hrep : analyseV0PairCandidate task pc fw collision k0short gamma centrality
                     gapSide registry
                   = reportPair task pc fw collision k0short gamma centrality gapSide
                       registry).
    { unfold analyseV0PairCandidate, v0MCCore_as. cbv zeta. rewrite Hmc, Hnone.
      reflexivity. }
    destruct (reportPair_app task pc fw collision k0short gamma centrality gapSide registry)
      as [fills Hfills].
    split; [exact Hrep|]. rewrite Hrep, Hfills. split; [apply app_cons_neq|].
    exists fills. reflexivity.
Qed.

Lemma C5_rapidity_gate_follows_flag_witness :
  (doMCAssociation Sample.task_data = false /\
   gt (fabs (pairRapidity Sample.pc (Sample.fw (f32 2 0))
                          (Sample.v0 0 1 2) (Sample.v0 1 3 4)))
      (rapidityCut Sample.task_data) = true /\
   analyseV0PairCandidate Sample.task_data Sample.pc (Sample.fw (f32 2 0))
     Sample.collision (Sample.v0 0 1 2) (Sample.v0 1 3 4) zero 255 [] = []) /\
  (doMCAssociation Defaults.task = true /\
   V0MCCores_at (Sample.fw (f32 2 0)) = None /\
   gt (fabs (pairRapidity Sample.pc (Sample.fw (f32 2 0))
                          (Sample.v0 0 1 2) (Sample.v0 1 3 4)))
      (rapidityCut Defaults.task) = true /\
   analyseV0PairCandidate Defaults.task Sample.pc (Sample.fw (f32 2 0))
     Sample.collision (Sample.v0 0 1 2) (Sample.v0 1 3 4) zero 255 [] <> []).
Proof.
  split.
  - split; [reflexivity|]. split; [vm_compute; reflexivity|].
    apply (proj1 (proj1 (C5_rapidity_gate_follows_flag Sample.task_data Sample.pc
                    (Sample.fw (f32 2 0)) Sample.collision (Sample.v0 0 1 2)
                    (Sample.v0 1 3 4) zero 255 []) eq_refl)).
    vm_compute; reflexivity.
  - split; [reflexivity|]. split; [reflexivity|]. split; [vm_compute; reflexivity|].
    apply (proj2 (C5_rapidity_gate_follows_flag Defaults.task Sample.pc
                    (Sample.fw (f32 2 0)) Sample.collision (Sample.v0 0 1 2)
                    (Sample.v0 1 3 4) zero 255 []) eq_refl eq_refl).
Defined.

(** C6, counterexample. A candidate with NaN in the pointing-angle cosine,
    and in every other floating-point column, is accepted by the default
    cuts in both categories. *)
Lemma C6_nan_candidate_accepted :
  is_nan (V0.v0cosPA Sample.v0_nan) = true /\
  isV0Selected Defaults.task Sample.pc Sample.fw_nan Sample.v0_nan
               Sample.collision false = uint64_true /\
  isV0Selected Defaults.task Sample.pc Sample.fw_nan Sample.v0_nan
               Sample.collision true = uint64_true.
Proof. vm_compute. auto. Qed.

(** C6, amended. A comparison with NaN is false, so a cut whose rejection
    test reads a NaN column does not reject: in both categories a candidate
    with a NaN pointing-angle cosine, a NaN daughter-pair DCA or a NaN DCA
    to the primary vertex is classified as if that cut were switched off.
    [isV0Selected] is a total function: it returns on every input. *)
Theorem C6_nan_comparison_passes_cut :
  forall task pc fw v0 collision isPhoton,
    (is_nan (V0.v0cosPA v0) = true ->
     isV0Selected task pc fw v0 collision isPhoton
     = isV0Selected (without_v0cospa task) pc fw v0 collision isPhoton) /\
    (is_nan (V0.dcaV0daughters v0) = true ->
     isV0Selected task pc fw v0 collision isPhoton
     = isV0Selected (without_dcav0dau task) pc fw v0 collision isPhoton) /\
    (is_nan (V0.dcav0topv v0) = true ->
     isV0Selected task pc fw v0 collision isPhoton
     = isV0Selected (without_dcav0topv task) pc fw v0 collision isPhoton).
Proof.
  intros. split; [|split].
  - apply nan_cospa.
  - apply nan_dcav0dau.
  - apply nan_dcav0topv.
Qed.

Lemma C6_nan_comparison_passes_cut_witness :
  is_nan (V0.v0cosPA (V0.with_v0cosPA nan (Sample.v0 0 1 2))) = true /\
  isV0Selected Defaults.task Sample.pc (Sample.fw zero)
               (V0.with_v0cosPA nan (Sample.v0 0 1 2)) Sample.collision true
  = isV0Selected (without_v0cospa Defaults.task) Sample.pc (Sample.fw zero)
                 (V0.with_v0cosPA nan (Sample.v0 0 1 2)) Sample.collision true /\
  isV0Selected Defaults.task Sample.pc (Sample.fw zero)
               (V0.with_dcaV0daughters nan (Sample.v0 0 1 2)) Sample.collision false
  = isV0Selected (without_dcav0dau Defaults.task) Sample.pc (Sample.fw zero)
                 (V0.with_dcaV0daughters nan (Sample.v0 0 1 2)) Sample.collision false /\
  isV0Selected Defaults.task Sample.pc (Sample.fw zero)
               (V0.with_dcav0topv nan (Sample.v0 0 1 2)) Sample.collision false
  = isV0Selected (without_dcav0topv Defaults.task) Sample.pc (Sample.fw zero)
                 (V0.with_dcav0topv nan (Sample.v0 0 1 2)) Sample.collision false.
Proof.
  split; [reflexivity|]. split; [|split].
  - apply (proj1 (C6_nan_comparison_passes_cut Defaults.task Sample.pc (Sample.fw zero)
                    (V0.with_v0cosPA nan (Sample.v0 0 1 2)) Sample.collision true)).
    reflexivity.
  - apply (proj1 (proj2 (C6_nan_comparison_passes_cut Defaults.task Sample.pc
                    (Sample.fw zero) (V0.with_dcaV0daughters nan (Sample.v0 0 1 2))
                    Sample.collision false))).
    reflexivity.
  - apply (proj2 (proj2 (C6_nan_comparison_passes_cut Defaults.task Sample.pc
                    (Sample.fw zero) (V0.with_dcav0topv nan (Sample.v0 0 1 2))
                    Sample.collision false))).
    reflexivity.
Defined.

(** Two candidates with four different daughter tracks, both set in
    both masks: each of them is paired with the other in each role, which
    makes the 2 * 2 - 2 valid combinations. *)
Example pairs_of_two_candidates_in_both_roles :
  checkTrackIndices (Sample.v0 0 1 2) (Sample.v0 1 3 4) = true /\
  checkTrackIndices (Sample.v0 1 3 4) (Sample.v0 0 1 2) = true /\
  emittedPairs Sample.batch_two [true; true] [true; true]
  = Some [(Sample.v0 0 1 2, Sample.v0 1 3 4);
          (Sample.v0 1 3 4, Sample.v0 0 1 2)].
Proof. vm_compute. auto. Qed.

(** C7. For a batch whose rows carry consecutive global indices, with
    masks of the size of the batch and no daughter track shared by two
    different candidates, the matcher returns and emits exactly
    |primaryMask| * |secondaryMask| - overlaps pairs; every valid
    (primary, secondary) combination is emitted exactly once and nothing
    else is.  The roles are fixed by the masks and never swapped: the
    reverse-ordered pair of an emitted pair is not emitted as its
    duplicate, it is emitted exactly when it is a valid combination
    itself (both candidates set in both masks). *)
Theorem C7_pair_count_and_coverage :
  forall fullV0s selK0ShortIndices selGammaIndices,
    consecutiveIndices fullV0s ->
    length selK0ShortIndices = V0Table.size fullV0s ->
    length selGammaIndices = V0Table.size fullV0s ->
    (forall k0short gamma,
        In k0short (V0Table.rows fullV0s) -> In gamma (V0Table.rows fullV0s) ->
        V0.globalIndex k0short <> V0.globalIndex gamma ->
        ~ sharesDaughter k0short gamma) ->
    exists pairs,
      emittedPairs fullV0s selK0ShortIndices selGammaIndices = Some pairs /\
      length pairs
      = (count_true selK0ShortIndices * count_true selGammaIndices
         - overlaps selK0ShortIndices selGammaIndices)%nat /\
      List.NoDup pairs /\
      (forall k0short gamma,
          In (k0short, gamma) pairs
          <-> validPair fullV0s selK0ShortIndices selGammaIndices k0short gamma) /\
      (forall k0short gamma,
          In (k0short, gamma) pairs ->
          (In (gamma, k0short) pairs
           <-> maskBit fullV0s selK0ShortIndices gamma = Some true /\
               maskBit fullV0s selGammaIndices k0short = Some true)).
Proof.
  intros tb selK selG Hidx HlenK HlenG Hdis.
  exists (flat_map (pairsOf tb selK selG) (V0Table.rows tb)).
  assert (HK : forall v, Kb tb selK v = true <-> maskBit tb selK v = Some true).
  { intros v. unfold Kb. destruct (maskBit tb selK v) as [[]|]; simpl; split; congruence. }
  assert (HG : forall v, Gb tb selG v = true <-> maskBit tb selG v = Some true).
  { intros v. unfold Gb. destruct (maskBit tb selG v) as [[]|]; simpl; split; congruence. }
  assert (Hmem : forall k g,
             In (k, g) (flat_map (pairsOf tb selK selG) (V0Table.rows tb))
             <-> validPair tb selK selG k g).
  { intros k g. rewrite (In_pairs tb selK selG Hdis). unfold validPair.
    rewrite HK, HG. tauto. }
  split; [|split; [|split; [|split]]].
  - apply k0shortLoop_flat_map.
    + intros v Hv. apply (maskBit_is_Some tb Hidx); assumption.
    + intros v Hv. apply (maskBit_is_Some tb Hidx); assumption.
  - pose proof (outer_count tb selK selG Hidx Hdis (V0Table.rows tb) (fun k Hk => Hk)) as Hc.
    pose proof (map_maskBit tb Hidx selK HlenK) as EK.
    pose proof (map_maskBit tb Hidx selG HlenG) as EG.
    assert (count_true selK = length (List.filter (Kb tb selK) (V0Table.rows tb))) as ->
      by (rewrite <- count_true_map; f_equal; symmetry; exact EK).
    assert (count_true selG = length (List.filter (Gb tb selG) (V0Table.rows tb))) as ->
      by (rewrite <- count_true_map; f_equal; symmetry; exact EG).
    assert (overlaps selK selG
            = length (List.filter (fun v => Kb tb selK v && Gb tb selG v)
                                  (V0Table.rows tb))) as ->
      by (rewrite <- overlaps_map; f_equal; symmetry; assumption).
    lia.
  - apply (NoDup_pairs tb selK selG Hidx). apply (NoDup_rows tb Hidx).
  - exact Hmem.
  - intros k g Hin. rewrite Hmem. apply Hmem in Hin.
    unfold validPair in *. intuition.
Qed.

Lemma C7_pair_count_and_coverage_witness :
  (exists pairs,
      emittedPairs Sample.batch_disjoint [true; false; true] [false; true; true]
      = Some pairs /\
      length pairs = 3%nat) /\
  (exists pairs,
      emittedPairs Sample.batch_two [true; true] [true; true] = Some pairs /\
      length pairs = 2%nat /\
      List.NoDup pairs /\
      (In (Sample.v0 0 1 2, Sample.v0 1 3 4) pairs
       <-> validPair Sample.batch_two [true; true] [true; true]
                     (Sample.v0 0 1 2) (Sample.v0 1 3 4)) /\
      (In (Sample.v0 1 3 4, Sample.v0 0 1 2) pairs
       <-> validPair Sample.batch_two [true; true] [true; true]
                     (Sample.v0 1 3 4) (Sample.v0 0 1 2))).
Proof.
  split.
  - destruct (C7_pair_count_and_coverage Sample.batch_disjoint
                [true; false; true] [false; true; true])
      as [pairs [He [Hlen _]]].
    + intros i v0 H.
      destruct i as [|[|[|i]]]; simpl in H; inversion H; reflexivity.
    + reflexivity.
    + reflexivity.
    + intros k g Hk Hg Hne. simpl in Hk, Hg. unfold sharesDaughter.
      destruct Hk as [<-|[<-|[<-|[]]]], Hg as [<-|[<-|[<-|[]]]]; simpl in *;
        intros [H|[H|[H|H]]]; try discriminate H; apply Hne; reflexivity.
    + exists pairs. split; [exact He | exact Hlen].
  - destruct (C7_pair_count_and_coverage Sample.batch_two [true; true] [true; true])
      as [pairs [He [Hlen [Hnd [Hvalid _]]]]].
    + intros i v0 H.
      destruct i as [|[|i]]; simpl in H; inversion H; reflexivity.
    + reflexivity.
    + reflexivity.
    + intros k g Hk Hg Hne. simpl in Hk, Hg. unfold sharesDaughter.
      destruct Hk as [<-|[<-|[]]], Hg as [<-|[<-|[]]]; simpl in *;
        intros [H|[H|[H|H]]]; try discriminate H; apply Hne; reflexivity.
    + exists pairs. split; [exact He|]. split; [exact Hlen|]. split; [exact Hnd|].
      split; apply Hvalid.
Defined.

(** C8. In both categories the two daughter DCA cuts point in opposite
    directions: a candidate is rejected when |DCA to PV| of the positive
    daughter is below its threshold, and rejected when |DCA to PV| of the
    negative daughter is above its threshold.  So there is a candidate,
    accepted in both categories, that stays accepted when the DCA of the
    positive daughter is raised above its threshold and is rejected once
    the DCA of the negative daughter is raised above its threshold too. *)
Theorem C8_daughter_dca_cuts_opposite :
  (forall task pc fw v0 collision isPhoton,
      lt (fabs (V0.dcapostopv v0)) (dcapostopv_of task isPhoton) = true ->
      isV0Selected task pc fw v0 collision isPhoton = uint64_false) /\
  (forall task pc fw v0 collision isPhoton,
      gt (fabs (V0.dcanegtopv v0)) (dcanegtopv_of task isPhoton) = true ->
      isV0Selected task pc fw v0 collision isPhoton = uint64_false) /\
  (exists task pc fw v0 collision pos' neg',
      forall isPhoton,
        isV0Selected task pc fw v0 collision isPhoton = uint64_true /\
        gt (fabs pos') (dcapostopv_of task isPhoton) = true /\
        gt (fabs neg') (dcanegtopv_of task isPhoton) = true /\
        isV0Selected task pc fw (V0.with_dcatopv pos' (V0.dcanegtopv v0) v0)
                     collision isPhoton = uint64_true /\
        isV0Selected task pc fw (V0.with_dcatopv pos' neg' v0)
                     collision isPhoton = uint64_false).
Proof.
  split; [exact dcapos_rejects | split; [exact dcaneg_rejects |]].
  exists Defaults.task, Sample.pc, (Sample.fw zero), (Sample.v0 0 1 2),
         Sample.collision, (f32 1 0), (f32 1 0).
  intros []; vm_compute; auto.
Qed.

Lemma C8_daughter_dca_cuts_opposite_witness :
  gt (fabs (V0.dcanegtopv (V0.with_dcatopv (f32 1 0) (f32 1 0) (Sample.v0 0 1 2))))
     (dcanegtopv_of Defaults.task true) = true /\
  isV0Selected Defaults.task Sample.pc (Sample.fw zero)
               (V0.with_dcatopv (f32 1 0) (f32 1 0) (Sample.v0 0 1 2))
               Sample.collision true = uint64_false /\
  lt (fabs (V0.dcapostopv (V0.with_dcatopv (f32 1 (-6)) (f32 1 (-6)) (Sample.v0 0 1 2))))
     (dcapostopv_of Defaults.task false) = true /\
  isV0Selected Defaults.task Sample.pc (Sample.fw zero)
               (V0.with_dcatopv (f32 1 (-6)) (f32 1 (-6)) (Sample.v0 0 1 2))
               Sample.collision false = uint64_false.
Proof.
  split; [vm_compute; reflexivity|]. split.
  { apply (proj1 (proj2 C8_daughter_dca_cuts_opposite)). vm_compute; reflexivity. }
  split; [vm_compute; reflexivity|].
  apply (proj1 C8_daughter_dca_cuts_opposite). vm_compute; reflexivity.
Defined.

(** C9, counterexample. With [photonZMax] set to -2^100, a candidate
    with the negative z -2^90, accepted when the cut is switched off, is
    rejected by the cut: a negative z is above a more negative bound. *)
Lemma C9_negative_z_rejected :
  lt (V0.z (V0.with_z (f32 (-1) 90) (Sample.v0 0 1 2))) zero = true /\
  isV0Selected
    (with_photonSelections (photonSelections.with_photonZMax (f32 (-1) 100))
       Defaults.task)
    Sample.pc (Sample.fw zero) (V0.with_z (f32 (-1) 90) (Sample.v0 0 1 2))
    Sample.collision true = uint64_false /\
  isV0Selected
    (without_photonZMax
       (with_photonSelections (photonSelections.with_photonZMax (f32 (-1) 100))
          Defaults.task))
    Sample.pc (Sample.fw zero) (V0.with_z (f32 (-1) 90) (Sample.v0 0 1 2))
    Sample.collision true = uint64_true.
Proof. vm_compute. split; [|split]; reflexivity. Qed.

(** C9, amended. The photon-like classification rejects every candidate
    whose signed conversion-point z exceeds [photonZMax], and the cut
    rejects no other: a candidate whose z is not above [photonZMax] is
    classified as with the cut switched off.  The cut reads the signed
    value: a negative z, of any magnitude, is never rejected by it when
    [photonZMax] is not negative, an infinitely negative z is never
    rejected by it whatever [photonZMax] is, and making z smaller never
    turns an accepted candidate into a rejected one.  The K0-short-like
    classification has no conversion-point z cut: it does not depend on
    [photonZMax], and it reads z inside the lifetime cut only, so that a
    change of z that leaves [distovertotmom] as it was leaves the
    decision as it was. *)
Theorem C9_photon_z_cut_signed :
  (forall task pc fw v0 collision,
      gt (V0.z v0) (photonSelections.photonZMax (photonSelections task)) = true ->
      isV0Selected task pc fw v0 collision true = uint64_false) /\
  (forall task pc fw v0 collision,
      gt (V0.z v0) (photonSelections.photonZMax (photonSelections task)) = false ->
      isV0Selected task pc fw v0 collision true
      = isV0Selected (without_photonZMax task) pc fw v0 collision true) /\
  (forall task pc fw v0 collision,
      lt (V0.z v0) zero = true ->
      lt (photonSelections.photonZMax (photonSelections task)) zero = false ->
      isV0Selected task pc fw v0 collision true
      = isV0Selected (without_photonZMax task) pc fw v0 collision true) /\
  (forall task pc fw v0 collision,
      isV0Selected task pc fw (V0.with_z ninf v0) collision true
      = isV0Selected (without_photonZMax task) pc fw (V0.with_z ninf v0)
                     collision true) /\
  (forall task pc fw v0 collision z',
      lt z' (V0.z v0) = true ->
      isV0Selected task pc fw v0 collision true = uint64_true ->
      isV0Selected task pc fw (V0.with_z z' v0) collision true = uint64_true) /\
  (forall task pc fw v0 collision zmax',
      isV0Selected (with_photonSelections (photonSelections.with_photonZMax zmax') task)
                   pc fw v0 collision false
      = isV0Selected task pc fw v0 collision false) /\
  (forall task pc fw v0 collision z',
      V0_distovertotmom fw (V0.with_z z' v0) (Collision.posX collision)
                        (Collision.posY collision) (Collision.posZ collision)
      = V0_distovertotmom fw v0 (Collision.posX collision)
                          (Collision.posY collision) (Collision.posZ collision) ->
      isV0Selected task pc fw (V0.with_z z' v0) collision false
      = isV0Selected task pc fw v0 collision false).
Proof.
  split; [|split; [|split; [|split; [|split; [|split]]]]].
  - exact zcut_rejects.
  - exact zcut_passes.
  - exact zcut_negative.
  - intros. apply zcut_passes. apply gt_ninf.
  - exact zcut_monotone.
  - exact k0short_ignores_photonZMax.
  - exact k0short_ignores_z.
Qed.

Lemma C9_photon_z_cut_signed_witness :
  gt (V0.z (V0.with_z (f32 1000 0) (Sample.v0 0 1 2)))
     (photonSelections.photonZMax (photonSelections Defaults.task)) = true /\
  isV0Selected Defaults.task Sample.pc (Sample.fw zero)
               (V0.with_z (f32 1000 0) (Sample.v0 0 1 2)) Sample.collision true
  = uint64_false /\
  lt (V0.z (V0.with_z (f32 (-1) 100) (Sample.v0 0 1 2))) zero = true /\
  isV0Selected Defaults.task Sample.pc (Sample.fw zero)
               (V0.with_z (f32 (-1) 100) (Sample.v0 0 1 2)) Sample.collision true
  = isV0Selected (without_photonZMax Defaults.task) Sample.pc (Sample.fw zero)
                 (V0.with_z (f32 (-1) 100) (Sample.v0 0 1 2)) Sample.collision true /\
  isV0Selected Defaults.task Sample.pc (Sample.fw zero)
               (V0.with_z ninf (Sample.v0 0 1 2)) Sample.collision true
  = uint64_true /\
  isV0Selected Defaults.task Sample.pc (Sample.fw zero)
               (V0.with_z (f32 1000 0) (Sample.v0 0 1 2)) Sample.collision false
  = uint64_true.
Proof.
  split; [vm_compute; reflexivity|]. split.
  { apply (proj1 C9_photon_z_cut_signed). vm_compute; reflexivity. }
  split; [vm_compute; reflexivity|]. split.
  { apply (proj1 (proj2 (proj2 C9_photon_z_cut_signed))); vm_compute; reflexivity. }
  split.
  { apply (proj1 (proj2 (proj2 (proj2 (proj2 C9_photon_z_cut_signed))))
             Defaults.task Sample.pc (Sample.fw zero) (Sample.v0 0 1 2)
             Sample.collision ninf); vm_compute; reflexivity. }
  rewrite (proj2 (proj2 (proj2 (proj2 (proj2 (proj2 C9_photon_z_cut_signed)))))
             Defaults.task Sample.pc (Sample.fw zero) (Sample.v0 0 1 2)
             Sample.collision (f32 1000 0)); vm_compute; reflexivity.
Defined.

(** C10. In score-based photon mode without local score calculation the
    photon-like decision of [analyseV0Candidate] is exactly
    antiLambdaBDTScore > thresholdGamma: this is the value of
    [passGammaSelections], the value written to the photon mask at the
    local index of the candidate, and it is the same for any two
    candidates with the same anti-Lambda score, whatever their other
    columns, the collision, the transverse momentum and the tables. *)
Theorem C10_gamma_score_mode_reads_antiLambda_score :
  forall task pc fw v0 collision pt,
    mlConfigurations.useGammaScores (mlConfigurations task) = true ->
    mlConfigurations.calculateGammaScores (mlConfigurations task) = false ->
    passGammaSelections task pc fw v0 collision pt
    = gt (V0.antiLambdaBDTScore v0)
         (mlConfigurations.thresholdGamma (mlConfigurations task)) /\
    (forall selK selG off selK' selG',
        analyseV0Candidate task pc fw v0 collision pt selK selG off
        = Some (selK', selG') ->
        vec_get selG' (V0.globalIndex v0 - off)
        = Some (gt (V0.antiLambdaBDTScore v0)
                   (mlConfigurations.thresholdGamma (mlConfigurations task)))) /\
    (forall pc' fw' v0' collision' pt',
        V0.antiLambdaBDTScore v0' = V0.antiLambdaBDTScore v0 ->
        passGammaSelections task pc' fw' v0' collision' pt'
        = passGammaSelections task pc fw v0 collision pt).
Proof.
  intros * Huse Hcalc.
  assert (Hpass : forall pc fw v0 collision pt,
             passGammaSelections task pc fw v0 collision pt
             = gt (V0.antiLambdaBDTScore v0)
                  (mlConfigurations.thresholdGamma (mlConfigurations task))).
  { intros. unfold passGammaSelections. cbv zeta. rewrite Huse, Hcalc.
    destruct (gt _ _); reflexivity. }
  split; [apply Hpass|split].
  - intros * H. unfold analyseV0Candidate in H.
    destruct (vec_set selK _ _) as [sk|]; simpl in H; [|discriminate].
    destruct (vec_set selG _ _) as [sg|] eqn:Hg; simpl in H; [|discriminate].
    injection H as <- <-. rewrite <- (Hpass pc fw v0 collision pt).
    eapply vec_get_set; exact Hg.
  - intros * He. rewrite !Hpass, He. reflexivity.
Qed.

Lemma C10_gamma_score_mode_reads_antiLambda_score_witness :
  mlConfigurations.useGammaScores (mlConfigurations Sample.task_gamma_scores) = true /\
  mlConfigurations.calculateGammaScores (mlConfigurations Sample.task_gamma_scores)
  = false /\
  passGammaSelections Sample.task_gamma_scores Sample.pc Sample.fw_nan
                      (V0.with_v0cosPA nan (Sample.v0 11 1 2)) Sample.collision zero
  = gt (f32q 8 10) (f32 1 (-1)) /\
  analyseV0Candidate Sample.task_gamma_scores Sample.pc (Sample.fw zero)
                     (Sample.v0 11 1 2) Sample.collision zero
                     [false; false; false] [false; false; false] 10
  = Some ([false; true; false], [false; true; false]).
Proof.
  split; [reflexivity|]. split; [reflexivity|]. split.
  - apply (proj1 (C10_gamma_score_mode_reads_antiLambda_score
                    Sample.task_gamma_scores Sample.pc Sample.fw_nan
                    (V0.with_v0cosPA nan (Sample.v0 11 1 2)) Sample.collision zero
                    eq_refl eq_refl)).
  - vm_compute; reflexivity.
Defined.

Ltac grouped_rows :=
  let i := fresh "i" in
  let v0 := fresh "v0" in
  let H := fresh "H" in
  intros i v0 H;
  destruct i as [|[|[|i]]]; simpl in H; inversion H; reflexivity.

(** * Further properties of the selection and pairing code *)

(** checkTrackIndices *)
Lemma checkTrackIndices_sym k g : checkTrackIndices k g = checkTrackIndices g k.
Proof.
  unfold checkTrackIndices.
  rewrite (Z.eqb_sym (V0.posTrackExtraId g) (V0.posTrackExtraId k)),
          (Z.eqb_sym (V0.posTrackExtraId g) (V0.negTrackExtraId k)),
          (Z.eqb_sym (V0.negTrackExtraId g) (V0.posTrackExtraId k)),
          (Z.eqb_sym (V0.negTrackExtraId g) (V0.negTrackExtraId k)).
  destruct (_ =? _), (_ =? _), (_ =? _), (_ =? _); reflexivity.
Qed.

(** X1. [checkTrackIndices] answers true exactly when the two candidates
    have no daughter track in common.  The answer does not depend on the
    order of the two candidates, it is false for a candidate against
    itself, and false as soon as the two positive daughters are the same
    track. *)
Theorem X_checkTrackIndices_relation :
  forall k0short gamma,
    (checkTrackIndices k0short gamma = true <-> ~ sharesDaughter k0short gamma) /\
    checkTrackIndices k0short gamma = checkTrackIndices gamma k0short /\
    checkTrackIndices k0short k0short = false /\
    (V0.posTrackExtraId k0short = V0.posTrackExtraId gamma ->
     checkTrackIndices k0short gamma = false).
Proof.
  intros k g. split; [apply checkTrackIndices_spec|]. split; [apply checkTrackIndices_sym|].
  split.
  - unfold checkTrackIndices. now rewrite Z.eqb_refl.
  - intros H. unfold checkTrackIndices. rewrite H, Z.eqb_refl. reflexivity.
Qed.

(** closed form of emitted pairs *)
Lemma emittedPairs_closed_form tb selK selG :
  (forall v, In v (V0Table.rows tb) -> is_Some (maskBit tb selK v)) ->
  (forall v, In v (V0Table.rows tb) -> is_Some (maskBit tb selG v)) ->
  emittedPairs tb selK selG = Some (flat_map (pairsOf tb selK selG) (V0Table.rows tb)).
Proof. intros HK HG. apply k0shortLoop_flat_map; assumption. Qed.

Lemma In_pairsOf tb selK selG k g ks :
  In (k, g) (flat_map (pairsOf tb selK selG) ks)
  <-> In k ks /\ In g (V0Table.rows tb) /\
      maskBit tb selK k = Some true /\ maskBit tb selG g = Some true /\
      V0.globalIndex k <> V0.globalIndex g /\ ~ sharesDaughter k g.
Proof.
  assert (HK : forall v, Kb tb selK v = true <-> maskBit tb selK v = Some true).
  { intros v. unfold Kb. destruct (maskBit tb selK v) as [[]|]; simpl; split; congruence. }
  assert (HG : forall v, Gb tb selG v = true <-> maskBit tb selG v = Some true).
  { intros v. unfold Gb. destruct (maskBit tb selG v) as [[]|]; simpl; split; congruence. }
  rewrite in_flat_map. split.
  - intros [k' [Hk' Hp]]. unfold pairsOf in Hp.
    destruct (Kb tb selK k') eqn:HKk; [|contradiction].
    apply in_map_iff in Hp as [g' [Heq Hf]]. inversion Heq; subst.
    apply filter_In in Hf as [Hg Hb].
    apply andb_true_iff in Hb as [HGg Hp]. unfold pairable in Hp.
    apply andb_true_iff in Hp as [Hne Hc].
    apply negb_true_iff, Z.eqb_neq in Hne.
    apply checkTrackIndices_spec in Hc. apply HK in HKk. apply HG in HGg. auto 10.
  - intros (Hk & Hg & HKk & HGg & Hne & Hc). exists k. split; [exact Hk|].
    unfold pairsOf. apply HK in HKk. rewrite HKk. apply in_map. apply filter_In.
    split; [exact Hg|]. apply HG in HGg. rewrite HGg. unfold pairable. simpl.
    apply andb_true_iff. split.
    + apply negb_true_iff, Z.eqb_neq. exact Hne.
    + apply checkTrackIndices_spec. exact Hc.
Qed.

Lemma NoDup_pairsOf tb selK selG ks :
  List.NoDup (V0Table.rows tb) -> List.NoDup ks ->
  List.NoDup (flat_map (pairsOf tb selK selG) ks).
Proof.
  intros Hrows. induction ks as [|k ks IH]; intros Hnd; simpl; [constructor|].
  apply List.NoDup_cons_iff in Hnd as [Hnotin Hnd].
  apply List.NoDup_app; [| apply IH; exact Hnd |].
  - unfold pairsOf. destruct (Kb tb selK k); [|constructor].
    apply NoDup_map_pair. apply List.NoDup_filter. exact Hrows.
  - intros [k' g'] Hin1 Hin2.
    assert (k' = k).
    { unfold pairsOf in Hin1. destruct (Kb tb selK k); [|contradiction].
      apply in_map_iff in Hin1 as [? [Heq _]]. congruence. }
    subst k'. apply In_pairsOf in Hin2 as [Hk _]. contradiction.
Qed.

(** X2. On a grouped table with masks of the size of the table, the matcher
    stays inside the masks, and the pairs it forms are, for each
    K0-short-selected row in table order, the photon-selected rows in
    table order that have another index and no daughter in common with
    it.  No pair is formed twice, and a pair is formed exactly when it is
    a valid combination without a common daughter. *)
Theorem X_emitted_pairs_closed_form :
  forall fullV0s selK0ShortIndices selGammaIndices,
    consecutiveIndices fullV0s ->
    length selK0ShortIndices = V0Table.size fullV0s ->
    length selGammaIndices = V0Table.size fullV0s ->
    emittedPairs fullV0s selK0ShortIndices selGammaIndices
    = Some (flat_map (pairsOf fullV0s selK0ShortIndices selGammaIndices)
                     (V0Table.rows fullV0s)) /\
    List.NoDup (flat_map (pairsOf fullV0s selK0ShortIndices selGammaIndices)
                         (V0Table.rows fullV0s)) /\
    (forall k0short gamma,
        In (k0short, gamma)
           (flat_map (pairsOf fullV0s selK0ShortIndices selGammaIndices)
                     (V0Table.rows fullV0s))
        <-> validPair fullV0s selK0ShortIndices selGammaIndices k0short gamma
            /\ ~ sharesDaughter k0short gamma).
Proof.
  intros tb selK selG Hidx HK HG. split; [|split].
  - apply emittedPairs_closed_form; intros v Hv;
      apply (maskBit_is_Some tb Hidx); assumption.
  - apply NoDup_pairsOf; apply (NoDup_rows tb Hidx).
  - intros k g. rewrite In_pairsOf. unfold validPair. tauto.
Qed.

Lemma X_emitted_pairs_closed_form_witness :
  emittedPairs Sample.batch_shared [true; false; true] [false; true; true]
  = Some [(Sample.v0 10 1 2, Sample.v0 11 3 4);
          (Sample.v0 12 1 6, Sample.v0 11 3 4)].
Proof.
  destruct (X_emitted_pairs_closed_form Sample.batch_shared
              [true; false; true] [false; true; true]) as [H _].
  - grouped_rows.
  - reflexivity.
  - reflexivity.
  - rewrite H. vm_compute; reflexivity.
Defined.

(** error behaviour of the loops *)
Lemma gammaLoop_None {St} (f : V0.t -> V0.t -> St -> St) tb selG k gs st :
  gammaLoop f tb selG k gs st = None
  <-> exists g, In g gs /\ maskBit tb selG g = None.
Proof.
  revert st. induction gs as [|g gs IH]; intros st; simpl.
  - split; [discriminate | intros [g [[] _]]].
  - fold (maskBit tb selG g).
    destruct (maskBit tb selG g) as [b|] eqn:Hb; simpl.
    + assert (forall st', gammaLoop f tb selG k gs st' = None
                          <-> exists g0, (g = g0 \/ In g0 gs) /\ maskBit tb selG g0 = None)
        as Hrest.
      { intros st'. rewrite IH. split.
        - intros [g0 [Hin H0]]. exists g0. auto.
        - intros [g0 [[<-|Hin] H0]]; [congruence|]. exists g0. auto. }
      destruct b; simpl; [|apply Hrest].
      destruct (_ =? _); [apply Hrest|].
      destruct (checkTrackIndices k g); simpl; apply Hrest.
    + split; [|reflexivity]. intros _. exists g. auto.
Qed.

Lemma k0shortLoop_None {St} (f : V0.t -> V0.t -> St -> St) tb selK selG ks st :
  k0shortLoop f tb selK selG ks st = None
  <-> (exists k, In k ks /\ maskBit tb selK k = None) \/
      ((exists k, In k ks /\ maskBit tb selK k = Some true) /\
       exists g, In g (V0Table.rows tb) /\ maskBit tb selG g = None).
Proof.
  revert st. induction ks as [|k ks IH]; intros st; simpl.
  - split; [discriminate|]. intros [[k [[] _]]|[[k [[] _]] _]].
  - fold (maskBit tb selK k).
    destruct (maskBit tb selK k) as [b|] eqn:Hb; simpl.
    + destruct b; simpl.
      * destruct (gammaLoop f tb selG k (V0Table.rows tb) st) as [st'|] eqn:Hg; simpl.
        -- rewrite IH. split.
           ++ intros [[k0 [Hin H0]]|[[k0 [Hin H0]] HG]]; [left|right]; eauto 6.
           ++ intros [[k0 [[<-|Hin] H0]]|[[k0 [Hin H0]] HG]].
              ** congruence.
              ** left; eauto.
              ** destruct Hin as [<-|Hin].
                 --- exfalso.
                     apply (gammaLoop_None f tb selG k (V0Table.rows tb) st) in HG.
                     congruence.
                 --- right; eauto 6.
        -- split; [|reflexivity]. intros _. right. split; [eauto|].
           apply (gammaLoop_None f tb selG k (V0Table.rows tb) st). exact Hg.
      * rewrite IH. split.
        -- intros [[k0 [Hin H0]]|[[k0 [Hin H0]] HG]]; [left|right]; eauto 6.
        -- intros [[k0 [[<-|Hin] H0]]|[[k0 [[<-|Hin] H0]] HG]];
             try congruence; eauto 6.
    + split; [|reflexivity]. intros _. left. eauto.
Qed.

(** X3. [buildV0V0Pairs] reads a mask outside its bounds exactly when the
    local index of some row is outside the K0-short mask, or some row is
    K0-short-selected and the local index of some row is outside the
    photon mask. *)
Theorem X_buildV0V0Pairs_out_of_range :
  forall task pc fw collision fullV0s selK0ShortIndices selGammaIndices
         centrality gapSide histos,
    buildV0V0Pairs task pc fw collision fullV0s selK0ShortIndices selGammaIndices
                   centrality gapSide histos = None
    <-> (exists k0short, In k0short (V0Table.rows fullV0s) /\
                         maskBit fullV0s selK0ShortIndices k0short = None) \/
        ((exists k0short, In k0short (V0Table.rows fullV0s) /\
                          maskBit fullV0s selK0ShortIndices k0short = Some true) /\
         exists gamma, In gamma (V0Table.rows fullV0s) /\
                       maskBit fullV0s selGammaIndices gamma = None).
Proof. intros. apply k0shortLoop_None. Qed.

Lemma maskBit_None tb sel v :
  maskBit tb sel v = None
  <-> V0.globalIndex v - V0Table.offset tb < 0 \/
      Z.of_nat (length sel) <= V0.globalIndex v - V0Table.offset tb.
Proof.
  unfold maskBit, vec_get.
  destruct (Z.ltb_spec (V0.globalIndex v - V0Table.offset tb) 0).
  - split; auto.
  - rewrite lookup_ge_None. lia.
Qed.

(** registry append-only *)
Lemma fillQAplot_app pc fw collision k g afterSel histos :
  fillQAplot pc fw collision k g afterSel histos
  = histos ++ fillQAplot pc fw collision k g afterSel [].
Proof.
  unfold fillQAplot. cbv zeta. destruct (afterSel =? 0); now rewrite !fill_all_app.
Qed.

Lemma reportPair_from_empty task pc fw collision k g centrality gapSide histos :
  reportPair task pc fw collision k g centrality gapSide histos
  = histos ++ reportPair task pc fw collision k g centrality gapSide [].
Proof.
  unfold reportPair, fillQAplot. cbv zeta.
  change (1 =? 0) with false. cbv iota. rewrite !fill_all_app. unfold fill.
  destruct (negb (doPPAnalysis task));
    [destruct (gapSide =? 0); [|destruct (gapSide =? 1); [|destruct (gapSide =? 2)]]|];
    simpl; rewrite <- ?app_assoc; reflexivity.
Qed.

Lemma analyseV0PairCandidate_from_empty task pc fw collision k g centrality gapSide histos :
  analyseV0PairCandidate task pc fw collision k g centrality gapSide histos
  = histos ++ analyseV0PairCandidate task pc fw collision k g centrality gapSide [].
Proof.
  unfold analyseV0PairCandidate. cbv zeta.
  destruct (negb (doMCAssociation task) && _); [now rewrite app_nil_r|].
  destruct (if doMCAssociation task then v0MCCore_as fw else None) as [mc|].
  - destruct (negb (_ =? _)); [now rewrite app_nil_r|].
    destruct (gt _ _); [now rewrite app_nil_r|].
    destruct (_ && _).
    + rewrite reportPair_from_empty.
      rewrite (reportPair_from_empty task pc fw collision k g centrality gapSide (fill _ _ [])).
      unfold fill. simpl. now rewrite <- app_assoc.
    + apply reportPair_from_empty.
  - apply reportPair_from_empty.
Qed.

Lemma replay_analyse_from_empty task pc fw collision centrality gapSide ps histos :
  replay (fun k g => analyseV0PairCandidate task pc fw collision k g centrality gapSide)
         ps histos
  = histos ++ replay (fun k g => analyseV0PairCandidate task pc fw collision k g
                                   centrality gapSide) ps [].
Proof.
  revert histos. induction ps as [|[k g] ps IH]; intros histos; simpl.
  - now rewrite app_nil_r.
  - unfold replay in *. simpl. rewrite IH.
    rewrite (IH (analyseV0PairCandidate task pc fw collision k g centrality gapSide [])).
    rewrite (analyseV0PairCandidate_from_empty task pc fw collision k g centrality gapSide histos).
    now rewrite app_assoc.
Qed.

Lemma buildV0V0Pairs_replay task pc fw collision tb selK selG centrality gapSide histos :
  buildV0V0Pairs task pc fw collision tb selK selG centrality gapSide histos
  = option_map
      (fun ps => replay (fun k g => analyseV0PairCandidate task pc fw collision k g
                                      centrality gapSide) ps histos)
      (emittedPairs tb selK selG).
Proof. apply forEachV0V0Pair_replay. Qed.

(** X4. [buildV0V0Pairs] and [analyseV0PairCandidate] only add to the
    registry: what they return for a registry is that registry followed by
    what they return for the empty one. *)
Theorem X_registry_append_only :
  forall task pc fw collision fullV0s selK0ShortIndices selGammaIndices
         centrality gapSide histos,
    buildV0V0Pairs task pc fw collision fullV0s selK0ShortIndices selGammaIndices
                   centrality gapSide histos
    = option_map (app histos)
        (buildV0V0Pairs task pc fw collision fullV0s selK0ShortIndices
                        selGammaIndices centrality gapSide []) /\
    (forall k0short gamma,
        analyseV0PairCandidate task pc fw collision k0short gamma centrality gapSide histos
        = histos ++ analyseV0PairCandidate task pc fw collision k0short gamma
                      centrality gapSide []).
Proof.
  intros. split.
  - rewrite !buildV0V0Pairs_replay.
    destruct (emittedPairs fullV0s selK0ShortIndices selGammaIndices); simpl; [|reflexivity].
    f_equal. apply replay_analyse_from_empty.
  - intros. apply analyseV0PairCandidate_from_empty.
Qed.

Lemma countEntries_app name h1 h2 :
  countEntries name (h1 ++ h2) = (countEntries name h1 + countEntries name h2)%nat.
Proof. unfold countEntries. now rewrite List.filter_app, length_app. Qed.

Lemma reportPair_fills :
  forall task pc fw collision k0short gamma centrality gapSide,
    countEntries "K0sGamma/h3dMassK0sGamma"
      (reportPair task pc fw collision k0short gamma centrality gapSide []) = 1%nat /\
    (doPPAnalysis task = true ->
     length (reportPair task pc fw collision k0short gamma centrality gapSide []) = 28%nat) /\
    (doPPAnalysis task = false ->
     length (reportPair task pc fw collision k0short gamma centrality gapSide []) = 29%nat /\
     countEntries "K0sGamma/h3dMassK0sGammaSGA"
       (reportPair task pc fw collision k0short gamma centrality gapSide [])
     = (if gapSide =? 0 then 1%nat else 0%nat) /\
     countEntries "K0sGamma/h3dMassK0sGammaSGC"
       (reportPair task pc fw collision k0short gamma centrality gapSide [])
     = (if gapSide =? 1 then 1%nat else 0%nat) /\
     countEntries "K0sGamma/h3dMassK0sGammaDG"
       (reportPair task pc fw collision k0short gamma centrality gapSide [])
     = (if gapSide =? 2 then 1%nat else 0%nat) /\
     countEntries "K0sGamma/h3dMassK0sGammaHadronic"
       (reportPair task pc fw collision k0short gamma centrality gapSide [])
     = (if (gapSide =? 0) || (gapSide =? 1) || (gapSide =? 2) then 0%nat else 1%nat)).
Proof.
  intros. unfold reportPair, fillQAplot. cbv zeta.
  change (1 =? 0) with false. cbv iota. rewrite !fill_all_app. unfold fill, entry.
  destruct (doPPAnalysis task); simpl negb; cbv iota.
  - split; [reflexivity|]. split; [reflexivity|discriminate].
  - destruct (Z.eqb_spec gapSide 0) as [->|H0]; [|destruct (Z.eqb_spec gapSide 1) as [->|H1];
      [|destruct (Z.eqb_spec gapSide 2) as [->|H2]]];
    (split; [reflexivity|]; split; [discriminate|]; intros _;
     repeat split; reflexivity).
Qed.

Lemma reportPair_mass_entries task pc fw collision k g centrality gapSide :
  countEntries massHist (reportPair task pc fw collision k g centrality gapSide []) = 1%nat.
Proof.
  unfold reportPair, fillQAplot. cbv zeta.
  change (1 =? 0) with false. cbv iota. rewrite !fill_all_app. unfold fill, entry.
  destruct (negb (doPPAnalysis task));
    [destruct (gapSide =? 0); [|destruct (gapSide =? 1); [|destruct (gapSide =? 2)]]|];
    reflexivity.
Qed.

Lemma replay_mass_entries task pc fw collision centrality gapSide ps :
  doMCAssociation task = false ->
  countEntries massHist
    (replay (fun k g => analyseV0PairCandidate task pc fw collision k g centrality gapSide)
            ps [])
  = length (List.filter (inRapidityWindow task pc fw) ps).
Proof.
  intros Hmc. induction ps as [|[k g] ps IH]; [reflexivity|].
  unfold replay in *. simpl fold_left.
  fold (replay (fun k g => analyseV0PairCandidate task pc fw collision k g centrality gapSide)
               ps (analyseV0PairCandidate task pc fw collision k g centrality gapSide [])).
  rewrite replay_analyse_from_empty, countEntries_app. unfold replay. rewrite IH.
  simpl List.filter. unfold inRapidityWindow at 2. simpl fst; simpl snd.
  destruct (gt (fabs (pairRapidity pc fw k g)) (rapidityCut task)) eqn:Hy; simpl negb; cbv iota.
  - rewrite (pair_cut task pc fw collision k g centrality gapSide [] Hmc Hy). reflexivity.
  - rewrite (pair_reported task pc fw collision k g centrality gapSide [] Hmc Hy).
    rewrite reportPair_mass_entries. reflexivity.
Qed.

(** X6. Without Monte-Carlo association, [buildV0V0Pairs] adds to the mass
    histogram one entry for each pair it forms whose rapidity is inside
    the window, and no other. *)
Theorem X_mass_histogram_entries :
  forall task pc fw collision fullV0s selK0ShortIndices selGammaIndices
         centrality gapSide histos pairs,
    doMCAssociation task = false ->
    emittedPairs fullV0s selK0ShortIndices selGammaIndices = Some pairs ->
    exists histos',
      buildV0V0Pairs task pc fw collision fullV0s selK0ShortIndices selGammaIndices
                     centrality gapSide histos = Some histos' /\
      countEntries "K0sGamma/h3dMassK0sGamma" histos'
      = (countEntries "K0sGamma/h3dMassK0sGamma" histos
         + length (List.filter (inRapidityWindow task pc fw) pairs))%nat.
Proof.
  intros * Hmc He. rewrite buildV0V0Pairs_replay, He. simpl.
  eexists. split; [reflexivity|].
  rewrite replay_analyse_from_empty, countEntries_app.
  f_equal. apply replay_mass_entries. exact Hmc.
Qed.

Lemma X_mass_histogram_entries_witness :
  exists histos',
    buildV0V0Pairs Sample.task_data Sample.pc (Sample.fw zero) Sample.collision
      Sample.batch_two [true; false] [false; true] zero 255 [] = Some histos' /\
    countEntries "K0sGamma/h3dMassK0sGamma" histos' = 1%nat.
Proof.
  destruct (X_mass_histogram_entries Sample.task_data Sample.pc (Sample.fw zero)
              Sample.collision Sample.batch_two [true; false] [false; true] zero 255 []
              [(Sample.v0 0 1 2, Sample.v0 1 3 4)] eq_refl)
    as [histos' [Hrun Hcount]].
  - vm_compute; reflexivity.
  - exists histos'. split; [exact Hrun|]. rewrite Hcount. vm_compute; reflexivity.
Defined.

(** MC branch *)

Lemma reportPair_true_entries task pc fw collision k g centrality gapSide :
  countEntries trueHist (reportPair task pc fw collision k g centrality gapSide []) = 0%nat.
Proof.
  unfold reportPair, fillQAplot. cbv zeta.
  change (1 =? 0) with false. cbv iota. rewrite !fill_all_app. unfold fill, entry.
  destruct (negb (doPPAnalysis task));
    [destruct (gapSide =? 0); [|destruct (gapSide =? 1); [|destruct (gapSide =? 2)]]|];
    reflexivity.
Qed.

(** X5. What one call of [analyseV0PairCandidate] adds to the registry.
    A pair that is dropped adds nothing.  A pair that is reported fills
    the mass histogram once, and the histogram of true K*(892) at most
    once, and only with Monte-Carlo association on joined Monte-Carlo
    tables.  In pp analyses a reported pair makes 28 fills, and 29 with
    the fill of the true K*(892); otherwise 29, and 30 with that fill, one
    of them in exactly one of the four gap-side mass histograms: single
    gap A for [gapSide] 0, single gap C for 1, double gap for 2, hadronic
    for any other value. *)
Theorem X_reported_pair_fills :
  forall task pc fw collision k0short gamma centrality gapSide,
    let out :=
      analyseV0PairCandidate task pc fw collision k0short gamma centrality gapSide [] in
    let mass := countEntries "K0sGamma/h3dMassK0sGamma" out in
    let truth := countEntries "K0sGamma/h3dInvMassTrueK0Star892" out in
    (out = [] \/ mass = 1%nat) /\
    (truth <= mass)%nat /\
    (doMCAssociation task = false \/ V0MCCores_at fw = None -> truth = 0%nat) /\
    (doPPAnalysis task = true -> length out = (28 * mass + truth)%nat) /\
    (doPPAnalysis task = false ->
     length out = (29 * mass + truth)%nat /\
     countEntries "K0sGamma/h3dMassK0sGammaSGA" out
     = (if gapSide =? 0 then mass else 0%nat) /\
     countEntries "K0sGamma/h3dMassK0sGammaSGC" out
     = (if gapSide =? 1 then mass else 0%nat) /\
     countEntries "K0sGamma/h3dMassK0sGammaDG" out
     = (if gapSide =? 2 then mass else 0%nat) /\
     countEntries "K0sGamma/h3dMassK0sGammaHadronic" out
     = (if (gapSide =? 0) || (gapSide =? 1) || (gapSide =? 2) then 0%nat else mass)).
Proof.
  intros. subst out mass truth.
  destruct (reportPair_fills task pc fw collision k0short gamma centrality gapSide)
    as (Hmass & Hpp & Hpb).
  pose proof (reportPair_true_entries task pc fw collision k0short gamma centrality
                gapSide) as Htrue.
  fold massHist trueHist. fold massHist in Hmass. 
  unfold analyseV0PairCandidate. cbv zeta.
  destruct (negb (doMCAssociation task)
            && gt (fabs (pairRapidity pc fw k0short gamma)) (rapidityCut task)) eqn:Hgate.
  { cbn. split; [auto|]. split; [lia|]. split; [auto|]. split; [auto|].
    intros _. destruct (gapSide =? 0), (gapSide =? 1), (gapSide =? 2); cbn; auto. }
  destruct (doMCAssociation task) eqn:Hmc.
  - unfold v0MCCore_as. destruct (V0MCCores_at fw) as [cores|] eqn:Hat.
    + destruct (negb (_ =? _)).
      { cbn. split; [auto|]. split; [lia|]. split; [auto|]. split; [auto|].
        intros _. destruct (gapSide =? 0), (gapSide =? 1), (gapSide =? 2); cbn; auto. }
      match goal with
      | |- context [if gt ?a ?b then [] else _] => destruct (gt a b)
      end.
      { cbn. split; [auto|]. split; [lia|]. split; [auto|]. split; [auto|].
        intros _. destruct (gapSide =? 0), (gapSide =? 1), (gapSide =? 2); cbn; auto. }
      match goal with
      | |- context [if ?c then fill _ _ _ else _] => destruct c
      end.
      * rewrite reportPair_from_empty.
        rewrite !countEntries_app, !length_app, Hmass, Htrue.
        unfold fill. cbn [app length].
        change (countEntries massHist [(_, _)]) with 0%nat.
        change (countEntries trueHist [(_, _)]) with 1%nat.
        split; [right; reflexivity|]. split; [lia|].
        split; [intros [H|H]; discriminate H|].
        split.
        -- intros Hp. rewrite (Hpp Hp). reflexivity.
        -- intros Hp. destruct (Hpb Hp) as (Hl & Ha & Hc & Hd & Hh).
           rewrite Hl, Ha, Hc, Hd, Hh.
           change (countEntries "K0sGamma/h3dMassK0sGammaSGA" [(_, _)]) with 0%nat.
           change (countEntries "K0sGamma/h3dMassK0sGammaSGC" [(_, _)]) with 0%nat.
           change (countEntries "K0sGamma/h3dMassK0sGammaDG" [(_, _)]) with 0%nat.
           change (countEntries "K0sGamma/h3dMassK0sGammaHadronic" [(_, _)]) with 0%nat.
           destruct (gapSide =? 0), (gapSide =? 1), (gapSide =? 2); cbn; auto.
      * rewrite Hmass, Htrue.
        split; [right; reflexivity|]. split; [lia|]. split; [reflexivity|].
        split.
        -- intros Hp. rewrite (Hpp Hp). reflexivity.
        -- intros Hp. destruct (Hpb Hp) as (Hl & Ha & Hc & Hd & Hh).
           rewrite Hl, Ha, Hc, Hd, Hh.
           destruct (gapSide =? 0), (gapSide =? 1), (gapSide =? 2); cbn; auto.
    + rewrite Hmass, Htrue.
      split; [right; reflexivity|]. split; [lia|]. split; [reflexivity|].
      split.
      * intros Hp. rewrite (Hpp Hp). reflexivity.
      * intros Hp. destruct (Hpb Hp) as (Hl & Ha & Hc & Hd & Hh).
        rewrite Hl, Ha, Hc, Hd, Hh.
        destruct (gapSide =? 0), (gapSide =? 1), (gapSide =? 2); cbn; auto.
  - rewrite Hmass, Htrue.
    split; [right; reflexivity|]. split; [lia|]. split; [reflexivity|].
    split.
    + intros Hp. rewrite (Hpp Hp). reflexivity.
    + intros Hp. destruct (Hpb Hp) as (Hl & Ha & Hc & Hd & Hh).
      rewrite Hl, Ha, Hc, Hd, Hh.
      destruct (gapSide =? 0), (gapSide =? 1), (gapSide =? 2); cbn; auto.
Qed.

Lemma X_reported_pair_fills_witness :
  length (analyseV0PairCandidate Defaults.task Sample.pc SampleRun.fw_mc
            Sample.collision (Sample.v0 0 1 2) (Sample.v0 1 3 4) zero 255 [])
  = 29%nat /\
  length (analyseV0PairCandidate Sample.task_data Sample.pc (Sample.fw zero)
            Sample.collision (Sample.v0 0 1 2) (Sample.v0 1 3 4) zero 255 [])
  = 28%nat.
Proof.
  split.
  - rewrite (proj1 (proj2 (proj2 (proj2
               (X_reported_pair_fills Defaults.task Sample.pc SampleRun.fw_mc
                  Sample.collision (Sample.v0 0 1 2) (Sample.v0 1 3 4) zero 255))))
               eq_refl).
    vm_compute; reflexivity.
  - rewrite (proj1 (proj2 (proj2 (proj2
               (X_reported_pair_fills Sample.task_data Sample.pc (Sample.fw zero)
                  Sample.collision (Sample.v0 0 1 2) (Sample.v0 1 3 4) zero 255))))
               eq_refl).
    vm_compute; reflexivity.
Defined.


(** X7. With Monte-Carlo association on joined Monte-Carlo tables, a pair
    whose two candidates have different mothers is dropped, and so is a
    pair whose generated rapidity is beyond the cut; the reconstructed
    rapidity is not tested.  A pair that passes is reported, with one
    entry in the mass histogram, and one in the histogram of true
    K*(892) exactly when the mother has the PDG code 313. *)
Theorem X_pair_analysis_with_mc_truth :
  forall task pc fw v0MCCores collision k0short gamma centrality gapSide histos,
    doMCAssociation task = true ->
    V0MCCores_at fw = Some v0MCCores ->
    let k0shortMC := v0MCCores (V0.v0MCCoreId k0short) in
    let gammaMC := v0MCCores (V0.v0MCCoreId gamma) in
    let result :=
      analyseV0PairCandidate task pc fw collision k0short gamma centrality gapSide histos in
    (V0MCCore.pdgCodeMother k0shortMC <> V0MCCore.pdgCodeMother gammaMC ->
     result = histos) /\
    (gt (fabs (pairRapidityMC fw k0shortMC gammaMC)) (rapidityCut task) = true ->
     result = histos) /\
    (V0MCCore.pdgCodeMother k0shortMC = V0MCCore.pdgCodeMother gammaMC ->
     gt (fabs (pairRapidityMC fw k0shortMC gammaMC)) (rapidityCut task) = false ->
     countEntries "K0sGamma/h3dMassK0sGamma" result
     = S (countEntries "K0sGamma/h3dMassK0sGamma" histos) /\
     countEntries "K0sGamma/h3dInvMassTrueK0Star892" result
     = Nat.add (countEntries "K0sGamma/h3dInvMassTrueK0Star892" histos)
               (if V0MCCore.pdgCodeMother k0shortMC =? 313 then 1%nat else 0%nat)).
Proof.
  intros * Hmc Hat k0shortMC gammaMC result. subst result.
  unfold analyseV0PairCandidate, v0MCCore_as. cbv zeta. rewrite Hmc, Hat. simpl negb.
  cbv iota. simpl andb. cbv iota.
  fold k0shortMC gammaMC. fold (pairRapidityMC fw k0shortMC gammaMC).
  split; [|split].
  - intros Hne. apply Z.eqb_neq in Hne. rewrite Hne. reflexivity.
  - intros Hy. rewrite Hy. destruct (negb _); reflexivity.
  - intros He Hy. rewrite He, Z.eqb_refl, Hy. simpl negb. cbv iota.
    rewrite andb_true_r.
    destruct (V0MCCore.pdgCodeMother gammaMC =? 313).
    + rewrite reportPair_from_empty. unfold fill. rewrite !countEntries_app.
      fold massHist trueHist.
      rewrite reportPair_mass_entries, reportPair_true_entries. split.
      * change (countEntries massHist [(_, _)]) with 0%nat. lia.
      * change (countEntries trueHist [(_, _)]) with 1%nat. lia.
    + rewrite reportPair_from_empty. rewrite !countEntries_app.
      fold massHist trueHist.
      rewrite reportPair_mass_entries, reportPair_true_entries. split; lia.
Qed.

Lemma X_pair_analysis_with_mc_truth_witness :
  countEntries "K0sGamma/h3dInvMassTrueK0Star892"
    (analyseV0PairCandidate Defaults.task Sample.pc SampleRun.fw_mc Sample.collision
       (Sample.v0 0 1 2) (Sample.v0 1 3 4) zero 255 []) = 1%nat.
Proof.
  destruct (X_pair_analysis_with_mc_truth Defaults.task Sample.pc SampleRun.fw_mc
              SampleRun.cores Sample.collision (Sample.v0 0 1 2) (Sample.v0 1 3 4)
              zero 255 [] eq_refl eq_refl) as (_ & _ & H).
  destruct H as [_ H]; [reflexivity | vm_compute; reflexivity | exact H].
Defined.

(** analyseV0Candidate: frame and error *)
Lemma vec_set_None {A} (v : list A) i a :
  vec_set v i a = None <-> ~ (0 <= i < Z.of_nat (length v)).
Proof.
  unfold vec_set. destruct (Z.leb_spec 0 i), (Z.ltb_spec i (Z.of_nat (length v)));
    simpl; split; intros; try discriminate; try lia; try reflexivity.
Qed.

Lemma vec_get_set_other {A} (v v' : list A) i j a :
  vec_set v i a = Some v' -> j <> i -> vec_get v' j = vec_get v j.
Proof.
  unfold vec_set, vec_get. destruct (Z.leb_spec 0 i); simpl; [|discriminate].
  destruct (Z.ltb_spec i (Z.of_nat (length v))); [|discriminate].
  intros [= <-] Hne. destruct (Z.ltb_spec j 0); [reflexivity|].
  apply list_lookup_insert_ne. lia.
Qed.

(** X8. [analyseV0Candidate] writes outside a mask exactly when the local
    index of the candidate is outside its bounds.  Otherwise it sets the
    bit at the local index of each mask to the decision of the category,
    and leaves the sizes and every other bit as they were. *)
Theorem X_analyseV0Candidate_masks :
  forall task pc fw v0 collision pt selK0ShortIndices selGammaIndices v0TableOffset,
    let i := V0.globalIndex v0 - v0TableOffset in
    (analyseV0Candidate task pc fw v0 collision pt selK0ShortIndices selGammaIndices
                        v0TableOffset = None
     <-> ~ (0 <= i < Z.of_nat (length selK0ShortIndices)) \/
         ~ (0 <= i < Z.of_nat (length selGammaIndices))) /\
    (forall selK' selG',
        analyseV0Candidate task pc fw v0 collision pt selK0ShortIndices selGammaIndices
                           v0TableOffset = Some (selK', selG') ->
        length selK' = length selK0ShortIndices /\
        length selG' = length selGammaIndices /\
        vec_get selK' i = Some (passK0ShortSelections task pc fw v0 collision pt) /\
        vec_get selG' i = Some (passGammaSelections task pc fw v0 collision pt) /\
        forall j, j <> i ->
                  vec_get selK' j = vec_get selK0ShortIndices j /\
                  vec_get selG' j = vec_get selGammaIndices j).
Proof.
  intros. subst i. unfold analyseV0Candidate. split.
  - destruct (vec_set selK0ShortIndices _ _) as [sk|] eqn:HK; simpl.
    + destruct (vec_set selGammaIndices _ _) as [sg|] eqn:HG; simpl.
      * split; [discriminate|]. intros [H|H]; exfalso.
        -- apply (vec_set_None selK0ShortIndices _
                    (passK0ShortSelections task pc fw v0 collision pt)) in H. congruence.
        -- apply (vec_set_None selGammaIndices _
                    (passGammaSelections task pc fw v0 collision pt)) in H. congruence.
      * split; [|reflexivity]. intros _. right. eapply vec_set_None. exact HG.
    + split; [|reflexivity]. intros _. left. eapply vec_set_None. exact HK.
  - intros selK' selG' H.
    destruct (vec_set selK0ShortIndices _ _) as [sk|] eqn:HK; simpl in H; [|discriminate].
    destruct (vec_set selGammaIndices _ _) as [sg|] eqn:HG; simpl in H; [|discriminate].
    injection H as <- <-.
    split; [eapply vec_set_length; exact HK|].
    split; [eapply vec_set_length; exact HG|].
    split; [eapply vec_get_set; exact HK|].
    split; [eapply vec_get_set; exact HG|].
    intros j Hj. split; eapply vec_get_set_other; eauto.
Qed.

(** score mode *)
Lemma isV0Selected_range task pc fw v0 collision isPhoton :
  isV0Selected task pc fw v0 collision isPhoton = uint64_false \/
  isV0Selected task pc fw v0 collision isPhoton = uint64_true.
Proof.
  unfold isV0Selected. cbv zeta.
  destruct isPhoton;
    repeat (match goal with
            | |- context [if ?c then _ else _] => destruct c
            | |- context [match ?c with Some _ => _ | None => _ end] => destruct c
            end; [left; reflexivity|]);
    try (right; reflexivity);
    repeat (match goal with
            | |- context [if ?c then _ else _] => destruct c
            | |- context [match ?c with Some _ => _ | None => _ end] => destruct c
            end); (left; reflexivity) || (right; reflexivity).
Qed.

Lemma bool_of_uint64_selected task pc fw v0 collision isPhoton :
  bool_of_uint64 (isV0Selected task pc fw v0 collision isPhoton) = true
  <-> isV0Selected task pc fw v0 collision isPhoton = uint64_true.
Proof.
  destruct (isV0Selected_range task pc fw v0 collision isPhoton) as [-> | ->];
    vm_compute; split; congruence.
Qed.

(** X9. A category whose score mode is off is decided by its cut list.  A
    category whose score mode is on is decided by score > threshold
    alone, with the output of the model when the scores are calculated
    and the stored score otherwise (the K0-short score for K0-short, the
    anti-Lambda score for photons).  A stored score that is NaN never
    selects a K0-short. *)
Theorem X_selection_modes :
  forall task pc fw v0 collision pt,
    (mlConfigurations.useK0ShortScores (mlConfigurations task) = false ->
     (passK0ShortSelections task pc fw v0 collision pt = true
      <-> isV0Selected task pc fw v0 collision false = uint64_true)) /\
    (mlConfigurations.useGammaScores (mlConfigurations task) = false ->
     (passGammaSelections task pc fw v0 collision pt = true
      <-> isV0Selected task pc fw v0 collision true = uint64_true)) /\
    (mlConfigurations.useK0ShortScores (mlConfigurations task) = true ->
     passK0ShortSelections task pc fw v0 collision pt
     = gt (if mlConfigurations.calculateK0ShortScores (mlConfigurations task)
           then mlCustomModelK0Short_evalModel fw (inputFeatures v0 pt) 1%nat
           else V0.k0ShortBDTScore v0)
          (mlConfigurations.thresholdK0Short (mlConfigurations task))) /\
    (mlConfigurations.useGammaScores (mlConfigurations task) = true ->
     passGammaSelections task pc fw v0 collision pt
     = gt (if mlConfigurations.calculateGammaScores (mlConfigurations task)
           then mlCustomModelGamma_evalModel fw (inputFeatures v0 pt) 1%nat
           else V0.antiLambdaBDTScore v0)
          (mlConfigurations.thresholdGamma (mlConfigurations task))) /\
    (mlConfigurations.useK0ShortScores (mlConfigurations task) = true ->
     mlConfigurations.calculateK0ShortScores (mlConfigurations task) = false ->
     is_nan (V0.k0ShortBDTScore v0) = true ->
     passK0ShortSelections task pc fw v0 collision pt = false).
Proof.
  intros. unfold passK0ShortSelections, passGammaSelections. cbv zeta.
  split; [|split; [|split; [|split]]].
  - intros ->. apply bool_of_uint64_selected.
  - intros ->. apply bool_of_uint64_selected.
  - intros ->. destruct (gt _ _); reflexivity.
  - intros ->. destruct (gt _ _); reflexivity.
  - intros -> -> Hn. apply is_nan_eq in Hn. rewrite Hn, gt_nan_l. reflexivity.
Qed.

(** X10. The photon-like classification reads the photon group of the
    configuration, [doMCAssociation], the TPC flag and the columns of
    [photonInputs] only: two calls that agree on these give the same
    answer, whatever the K0-short group, the collision and the other
    columns of the candidate are. *)
Theorem X_photon_selection_inputs :
  forall task task' pc pc' fw v0 v0' collision collision',
    photonSelections task = photonSelections task' ->
    doMCAssociation task = doMCAssociation task' ->
    track_TPC pc = track_TPC pc' ->
    photonInputs v0 = photonInputs v0' ->
    isV0Selected task pc fw v0 collision true
    = isV0Selected task' pc' fw v0' collision' true.
Proof.
  intros * Hp Hmc Htpc Hin. unfold photonInputs in Hin.
  injection Hin as H1 H2 H3 H4 H5 H6 H7 H8 H9 H10 H11 H12 H13 H14 H15 H16.
  unfold isV0Selected, posTrackExtra_as, negTrackExtra_as, v0MCCore_as. cbv zeta.
  rewrite Hp, Hmc, Htpc, H1, H2, H3, H4, H5, H6, H7, H8, H9, H10, H11, H12, H13,
          H14, H15.
  destruct (V0MCCores_at fw); rewrite ?H16; reflexivity.
Qed.

Lemma X_photon_selection_inputs_witness :
  isV0Selected Defaults.task Sample.pc (Sample.fw zero) (Sample.v0 0 1 2)
               Sample.collision true
  = isV0Selected Sample.task_edge_window Sample.pc (Sample.fw zero) Sample.v0_edge
                 (Collision.mk zero zero zero) true.
Proof.
  apply X_photon_selection_inputs; reflexivity.
Defined.

(** * Properties of the event selection *)

Ltac event_step :=
  match goal with
  | |- context [if ?c then (false, _) else _] => destruct c eqn:?
  end.

Ltac fill_depth h :=
  match h with
  | fill _ _ ?h' => let n := fill_depth h' in constr:(S n)
  | _ => constr:(O)
  end.

Ltac close_flow :=
  match goal with
  | |- exists _, _ /\ snd (_, ?h) = _ /\ _ =>
      let n := fill_depth h in
      exists n; split; [lia|]; split;
      [ cbn [snd]; unfold cutFlow, fill;
        cbn [seq map Z.of_nat Pos.of_succ_nat Pos.succ];
        rewrite <- ?app_assoc; reflexivity
      | cbn [fst]; split; intros; try discriminate; reflexivity ]
  end.

Lemma isEventAccepted_cut_flow task es collision histos :
  exists n : nat,
    (1 <= n <= 19)%nat /\
    snd (isEventAccepted task es collision true histos) = histos ++ cutFlow n /\
    (fst (isEventAccepted task es collision true histos) = true <-> n = 19%nat).
Proof.
  unfold isEventAccepted, countEvent. cbv zeta.
  repeat (event_step; [close_flow|]).
  destruct (doPPAnalysis task).
  all: repeat (event_step; [close_flow|]).
  all: close_flow.
Qed.

Lemma isEventAccepted_decision task es collision fillHists histos :
  fst (isEventAccepted task es collision fillHists histos)
  = negb (existsb (fun b => b) (eventRejections task es collision)).
Proof.
  unfold isEventAccepted, eventRejections. cbv zeta. cbn [existsb].
  repeat (event_step; [reflexivity|]; cbn [orb]).
  destruct (doPPAnalysis task);
    repeat (event_step; [reflexivity|]; cbn [orb]); reflexivity.
Qed.

Lemma isEventAccepted_no_fill task es collision histos :
  snd (isEventAccepted task es collision false histos) = histos.
Proof.
  unfold isEventAccepted, countEvent. cbv zeta.
  repeat (event_step; [reflexivity|]).
  destruct (doPPAnalysis task); repeat (event_step; [reflexivity|]); reflexivity.
Qed.

Lemma switch_weaker (r' r x : bool) :
  (r' = true -> r = true) -> r && x = false -> r' && x = false.
Proof. destruct r', r, x; simpl; intros H1 H2; auto. discriminate (H1 eq_refl). Qed.

Lemma looserThan_rejections task es' es collision :
  looserThan es' es ->
  existsb (fun b => b) (eventRejections task es collision) = false ->
  existsb (fun b => b) (eventRejections task es' collision) = false.
Proof.
  intros (H1 & H2 & H3 & H4 & H5 & H6 & H7 & H8 & H9 & H10 & H11 & H12 & H13 &
          H14 & H15 & H16 & H17 & Hz & Hu & Hmin & Hmax) H.
  unfold eventRejections in *. cbv zeta in *. cbn [existsb] in *.
  rewrite Hz, Hu, Hmin, Hmax.
  repeat (apply orb_false_iff in H as [? H]).
  repeat (apply orb_false_intro);
    try (eapply switch_weaker; eassumption); try assumption; try reflexivity.
  - destruct (doPPAnalysis task); [eapply switch_weaker; eassumption | assumption].
  - destruct (doPPAnalysis task); [eapply switch_weaker; eassumption | assumption].
Qed.

(** X11. The bins of the cut-flow histogram filled by an event are the first
    bins, without a gap; all 19 are filled exactly when the event is
    accepted.  Without [fillHists] the registry is left as it was, and the
    decision is the same. *)
Theorem X_event_cut_flow :
  forall task es collision histos,
    (exists n : nat,
        (1 <= n <= 19)%nat /\
        snd (isEventAccepted task es collision true histos) = histos ++ cutFlow n /\
        (fst (isEventAccepted task es collision true histos) = true <-> n = 19%nat)) /\
    snd (isEventAccepted task es collision false histos) = histos /\
    fst (isEventAccepted task es collision false histos)
    = fst (isEventAccepted task es collision true histos).
Proof.
  intros. split; [apply isEventAccepted_cut_flow|].
  split; [apply isEventAccepted_no_fill|].
  now rewrite !isEventAccepted_decision.
Qed.

(** Which occupancy is read is not a requirement that can be switched
    off: a Pb-Pb event with FT0C occupancy 100 and track occupancy 5000
    is accepted under the bound 1000 with [useFT0CbasedOccupancy] and
    rejected without it. *)
Example occupancy_estimator_is_no_requirement :
  fst (isEventAccepted SampleRun.task_pbpb (SampleRun.eventSel_occupancy true)
                       SampleRun.event_busy true []) = true /\
  fst (isEventAccepted SampleRun.task_pbpb (SampleRun.eventSel_occupancy false)
                       SampleRun.event_busy true []) = false.
Proof. vm_compute. split; reflexivity. Qed.

(** X12. Switching requirements off never loses an event: an event accepted
    with [es] is accepted with every configuration [es'] that is looser,
    that is, in which each of the 17 switches that require or reject is
    on only if it is on in [es], and which has the same
    [maxZVtxPosition], [minOccupancy], [maxOccupancy] and
    [useFT0CbasedOccupancy]. *)
Theorem X_event_selection_monotone :
  forall task es es' collision fillHists histos,
    looserThan es' es ->
    fst (isEventAccepted task es collision fillHists histos) = true ->
    fst (isEventAccepted task es' collision fillHists histos) = true.
Proof.
  intros * Hl. rewrite !isEventAccepted_decision, !negb_true_iff.
  apply looserThan_rejections. exact Hl.
Qed.

Lemma X_event_selection_monotone_witness :
  fst (isEventAccepted Defaults.task SampleRun.eventSel_off (SampleRun.event 5) true [])
  = true.
Proof.
  apply (X_event_selection_monotone Defaults.task SampleRun.eventSel
           SampleRun.eventSel_off (SampleRun.event 5) true []).
  - unfold looserThan. cbn. intuition discriminate.
  - vm_compute; reflexivity.
Defined.

Lemma lt_zero_not_ge x : lt x zero = true -> ge x zero = false.
Proof.
  unfold lt, ge, le, SFltb, SFleb. rewrite (SFcompare_swap x zero).
  destruct (SFcompare x zero) as [[]|]; simpl; congruence.
Qed.

Lemma accepted_no_rejection task es collision fillHists histos :
  fst (isEventAccepted task es collision fillHists histos) = true
  <-> existsb (fun b => b) (eventRejections task es collision) = false.
Proof. now rewrite isEventAccepted_decision, negb_true_iff. Qed.

(** X13. The tests of the event selection that read numbers.  An event whose
    |z| of the vertex is above [maxZVtxPosition] is rejected; one whose z
    is NaN passes this test, as if the bound were infinite.  In pp
    analyses an accepted event has at least one track in |eta| < 1 with
    [requireINEL0] and at least two with [requireINEL1], and the
    occupancy is not looked at; otherwise the track count is not looked
    at, and neither is the occupancy when both of its bounds are
    negative. *)
Theorem X_event_selection_thresholds :
  forall task es collision fillHists histos,
    (gt (fabs (StraCollision.posZ collision)) (eventSelections.maxZVtxPosition es) = true ->
     fst (isEventAccepted task es collision fillHists histos) = false) /\
    (is_nan (StraCollision.posZ collision) = true ->
     fst (isEventAccepted task es collision fillHists histos)
     = fst (isEventAccepted task (eventSelections.with_maxZVtxPosition pinf es)
                            collision fillHists histos)) /\
    (doPPAnalysis task = true ->
     fst (isEventAccepted task es collision fillHists histos) = true ->
     (eventSelections.requireINEL0 es = true ->
      1 <= StraCollision.multNTracksPVeta1 collision) /\
     (eventSelections.requireINEL1 es = true ->
      2 <= StraCollision.multNTracksPVeta1 collision)) /\
    (doPPAnalysis task = true ->
     forall ft0c' track',
       fst (isEventAccepted task es (StraCollision.with_occupancy ft0c' track' collision)
                            fillHists histos)
       = fst (isEventAccepted task es collision fillHists histos)) /\
    (doPPAnalysis task = false ->
     forall mult',
       fst (isEventAccepted task es
              (StraCollision.with_multNTracksPVeta1 mult' collision) fillHists histos)
       = fst (isEventAccepted task es collision fillHists histos)) /\
    (doPPAnalysis task = false ->
     lt (eventSelections.minOccupancy es) zero = true ->
     lt (eventSelections.maxOccupancy es) zero = true ->
     forall ft0c' track',
       fst (isEventAccepted task es (StraCollision.with_occupancy ft0c' track' collision)
                            fillHists histos)
       = fst (isEventAccepted task es collision fillHists histos)).
Proof.
  intros. split; [|split; [|split; [|split; [|split]]]].
  - intros Hz. rewrite isEventAccepted_decision. unfold eventRejections. cbv zeta.
    cbn [existsb]. rewrite Hz. now rewrite !orb_true_r.
  - intros Hn. rewrite !isEventAccepted_decision. unfold eventRejections. cbv zeta.
    cbn [existsb]. apply is_nan_eq in Hn. rewrite Hn.
    change (fabs nan) with nan. rewrite gt_nan_l.
    cbn [eventSelections.with_maxZVtxPosition eventSelections.maxZVtxPosition
         eventSelections.requireSel8 eventSelections.requireTriggerTVX
         eventSelections.rejectITSROFBorder eventSelections.rejectTFBorder
         eventSelections.requireIsVertexITSTPC eventSelections.requireIsGoodZvtxFT0VsPV
         eventSelections.requireIsVertexTOFmatched eventSelections.requireIsVertexTRDmatched
         eventSelections.rejectSameBunchPileup eventSelections.requireNoCollInTimeRangeStd
         eventSelections.requireNoCollInTimeRangeStrict
         eventSelections.requireNoCollInTimeRangeNarrow
         eventSelections.requireNoCollInTimeRangeVzDep
         eventSelections.requireNoCollInROFStd eventSelections.requireNoCollInROFStrict
         eventSelections.requireINEL0 eventSelections.requireINEL1
         eventSelections.useFT0CbasedOccupancy eventSelections.minOccupancy
         eventSelections.maxOccupancy].
    rewrite gt_pinf. reflexivity.
  - intros Hpp Hacc. apply accepted_no_rejection in Hacc.
    unfold eventRejections in Hacc. cbv zeta in Hacc. cbn [existsb] in Hacc.
    rewrite Hpp in Hacc.
    repeat (apply orb_false_iff in Hacc as [? Hacc]).
    split; intros Hr;
      match goal with
      | H : eventSelections.requireINEL0 es && _ = false |- 1 <= _ =>
          rewrite Hr in H; simpl in H; apply Z.ltb_ge in H; exact H
      | H : eventSelections.requireINEL1 es && _ = false |- 2 <= _ =>
          rewrite Hr in H; simpl in H; apply Z.ltb_ge in H; exact H
      end.
  - intros Hpp ft0c' track'. rewrite !isEventAccepted_decision.
    unfold eventRejections. cbv zeta. rewrite Hpp. reflexivity.
  - intros Hpp mult'. rewrite !isEventAccepted_decision.
    unfold eventRejections. cbv zeta. rewrite Hpp. reflexivity.
  - intros Hpp Hmin Hmax ft0c' track'. rewrite !isEventAccepted_decision.
    unfold eventRejections. cbv zeta.
    rewrite Hpp, (lt_zero_not_ge _ Hmin), (lt_zero_not_ge _ Hmax). reflexivity.
Qed.

(** * Properties of the event loop *)

Section LoopFacts.

Variable task : KstarToK0Gamma.
Variable opts : taskOptions.t.
Variable pc : Constants.
Variable fw : Framework.
Variable host : Host.
Variable collision : Collision.t.
Variable off : Z.

Lemma vec_set_Some {A} (v : list A) (n : nat) a :
  (n < length v)%nat -> vec_set v (Z.of_nat n) a = Some (<[n := a]> v).
Proof.
  intros H. unfold vec_set.
  destruct (Z.leb_spec 0 (Z.of_nat n)); [|lia].
  destruct (Z.ltb_spec (Z.of_nat n) (Z.of_nat (length v))); [|lia].
  simpl. now rewrite Nat2Z.id.
Qed.

Lemma v0LoopRealData_spec vs : forall n selK selG h,
  (forall j v, vs !! j = Some v -> V0.globalIndex v = off + Z.of_nat (n + j)) ->
  (n + length vs <= length selK)%nat ->
  (n + length vs <= length selG)%nat ->
  exists selK' selG',
    v0LoopRealData task pc fw host collision off vs selK selG h
    = Some (selK', selG', h ++ beforeSelectionFills pc fw collision vs) /\
    length selK' = length selK /\ length selG' = length selG /\
    (forall i, (i < n \/ n + length vs <= i)%nat ->
               selK' !! i = selK !! i /\ selG' !! i = selG !! i) /\
    (forall j v, vs !! j = Some v ->
                 selK' !! (n + j)%nat
                 = Some (k0ShortDecisionRealData task pc fw host collision v) /\
                 selG' !! (n + j)%nat
                 = Some (gammaDecisionRealData task pc fw host collision v)).
Proof.
  induction vs as [|v vs IH]; intros n selK selG h Hidx HK HG.
  - exists selK, selG. simpl. rewrite app_nil_r.
    split; [reflexivity|]. split; [reflexivity|]. split; [reflexivity|].
    split; [auto|]. intros j v Hj. discriminate Hj.
  - simpl in HK, HG. simpl v0LoopRealData.
    pose proof (Hidx 0%nat v eq_refl) as Hv. rewrite Nat.add_0_r in Hv.
    unfold analyseV0Candidate.
    replace (V0.globalIndex v - off) with (Z.of_nat n) by lia.
    rewrite (vec_set_Some selK n) by lia. simpl.
    rewrite (vec_set_Some selG n) by lia. simpl.
    destruct (IH (S n)
                (<[n := passK0ShortSelections task pc fw v collision
                          (V0_pt host (V0.px v) (V0.py v))]> selK)
                (<[n := passGammaSelections task pc fw v collision
                          (V0_pt host (V0.px v) (V0.py v))]> selG)
                (fillQAplot pc fw collision v v 0 h))
      as (selK' & selG' & Hrun & HlK & HlG & Hout & Hin).
    + intros j v' Hj. rewrite (Hidx (S j) v' Hj). f_equal. lia.
    + rewrite length_insert. lia.
    + rewrite length_insert. lia.
    + exists selK', selG'. rewrite Hrun. split.
      { f_equal. f_equal. rewrite fillQAplot_app. unfold beforeSelectionFills.
        simpl. now rewrite <- app_assoc. }
      rewrite length_insert in HlK, HlG.
      split; [exact HlK|]. split; [exact HlG|]. split.
      * intros i Hi. simpl in Hi. destruct (Hout i) as [E1 E2]; [lia|].
        rewrite E1, E2. rewrite !list_lookup_insert_ne by lia. auto.
      * intros [|j] v' Hj.
        -- injection Hj as <-. rewrite Nat.add_0_r.
           destruct (Hout n) as [E1 E2]; [lia|]. rewrite E1, E2.
           rewrite !list_lookup_insert_eq by lia. auto.
        -- replace (n + S j)%nat with (S n + j)%nat by lia. apply Hin. exact Hj.
Qed.

Lemma v0LoopMonteCarlo_spec vs : forall n selK selG h,
  (forall j v, vs !! j = Some v -> V0.globalIndex v = off + Z.of_nat (n + j)) ->
  (n + length vs <= length selK)%nat ->
  (n + length vs <= length selG)%nat ->
  exists selK' selG' h',
    v0LoopMonteCarlo task pc fw host collision off vs selK selG h
    = Some (selK', selG', h') /\
    length selK' = length selK /\ length selG' = length selG /\
    (forall i, (i < n \/ n + length vs <= i)%nat ->
               selK' !! i = selK !! i /\ selG' !! i = selG !! i) /\
    (forall j v, vs !! j = Some v ->
                 selK' !! (n + j)%nat
                 = (if has_v0MCCore host v
                    then Some (passK0ShortSelections task pc fw v collision
                                 (v0MC_ptmc host (V0.v0MCCoreId v)))
                    else selK !! (n + j)%nat) /\
                 selG' !! (n + j)%nat
                 = (if has_v0MCCore host v
                    then Some (passGammaSelections task pc fw v collision
                                 (v0MC_ptmc host (V0.v0MCCoreId v)))
                    else selG !! (n + j)%nat)).
Proof.
  induction vs as [|v vs IH]; intros n selK selG h Hidx HK HG.
  - exists selK, selG, h. simpl.
    split; [reflexivity|]. split; [reflexivity|]. split; [reflexivity|].
    split; [auto|]. intros j v Hj. discriminate Hj.
  - simpl in HK, HG. simpl v0LoopMonteCarlo.
    pose proof (Hidx 0%nat v eq_refl) as Hv. rewrite Nat.add_0_r in Hv.
    destruct (has_v0MCCore host v) eqn:Hhas; simpl negb; cbv iota.
    + unfold analyseV0Candidate.
      replace (V0.globalIndex v - off) with (Z.of_nat n) by lia.
      rewrite (vec_set_Some selK n) by lia. simpl.
      rewrite (vec_set_Some selG n) by lia. simpl.
      destruct (IH (S n)
                  (<[n := passK0ShortSelections task pc fw v collision
                            (v0MC_ptmc host (V0.v0MCCoreId v))]> selK)
                  (<[n := passGammaSelections task pc fw v collision
                            (v0MC_ptmc host (V0.v0MCCoreId v))]> selG)
                  (fillQAplot pc fw collision v v 0 h))
        as (selK' & selG' & h' & Hrun & HlK & HlG & Hout & Hin).
      * intros j v' Hj. rewrite (Hidx (S j) v' Hj). f_equal. lia.
      * rewrite length_insert. lia.
      * rewrite length_insert. lia.
      * exists selK', selG', h'. rewrite Hrun. split; [reflexivity|].
        rewrite length_insert in HlK, HlG.
        split; [exact HlK|]. split; [exact HlG|]. split.
        -- intros i Hi. simpl in Hi. destruct (Hout i) as [E1 E2]; [lia|].
           rewrite E1, E2. rewrite !list_lookup_insert_ne by lia. auto.
        -- intros [|j] v' Hj.
           ++ injection Hj as <-. rewrite Nat.add_0_r, Hhas.
              destruct (Hout n) as [E1 E2]; [lia|]. rewrite E1, E2.
              rewrite !list_lookup_insert_eq by lia. auto.
           ++ replace (n + S j)%nat with (S n + j)%nat by lia.
              destruct (Hin j v' Hj) as [E1 E2]. rewrite E1, E2.
              destruct (has_v0MCCore host v'); [auto|].
              rewrite !list_lookup_insert_ne by lia. auto.
    + destruct (IH (S n) selK selG h)
        as (selK' & selG' & h' & Hrun & HlK & HlG & Hout & Hin).
      * intros j v' Hj. rewrite (Hidx (S j) v' Hj). f_equal. lia.
      * lia.
      * lia.
      * exists selK', selG', h'. rewrite Hrun. split; [reflexivity|].
        split; [exact HlK|]. split; [exact HlG|]. split.
        -- intros i Hi. simpl in Hi. apply Hout. lia.
        -- intros [|j] v' Hj.
           ++ injection Hj as <-. rewrite Nat.add_0_r, Hhas. apply Hout. lia.
           ++ replace (n + S j)%nat with (S n + j)%nat by lia. apply Hin. exact Hj.
Qed.

End LoopFacts.

Lemma consecutive_from_zero tb :
  consecutiveIndices tb ->
  forall j v, V0Table.rows tb !! j = Some v ->
              V0.globalIndex v = V0Table.offset tb + Z.of_nat (0 + j).
Proof. intros H j v Hj. apply H. exact Hj. Qed.

Lemma masks_are_decisions {A} (d : A -> bool) (rows : list A) (sel : list bool) :
  length sel = length rows ->
  (forall j v, rows !! j = Some v -> sel !! (0 + j)%nat = Some (d v)) ->
  sel = map d rows.
Proof.
  intros Hlen H. apply list_eq. intros i.
  change (map d rows) with (d <$> rows). rewrite list_lookup_fmap.
  destruct (rows !! i) as [v|] eqn:Hv; simpl.
  - apply (H i v Hv).
  - apply lookup_ge_None. apply lookup_ge_None in Hv. lia.
Qed.

Lemma v0LoopRealData_masks task pc fw host collision tb h :
  consecutiveIndices tb ->
  v0LoopRealData task pc fw host collision (V0Table.offset tb) (V0Table.rows tb)
    (replicate (V0Table.size tb) false) (replicate (V0Table.size tb) false) h
  = Some (map (k0ShortDecisionRealData task pc fw host collision) (V0Table.rows tb),
          map (gammaDecisionRealData task pc fw host collision) (V0Table.rows tb),
          h ++ beforeSelectionFills pc fw collision (V0Table.rows tb)).
Proof.
  intros Hidx.
  destruct (v0LoopRealData_spec task pc fw host collision (V0Table.offset tb)
              (V0Table.rows tb) 0%nat
              (replicate (V0Table.size tb) false) (replicate (V0Table.size tb) false) h)
    as (selK' & selG' & Hrun & HlK & HlG & _ & Hin).
  - apply consecutive_from_zero. exact Hidx.
  - rewrite length_replicate. unfold V0Table.size. lia.
  - rewrite length_replicate. unfold V0Table.size. lia.
  - rewrite Hrun. rewrite length_replicate in HlK, HlG. unfold V0Table.size in *.
    f_equal. f_equal. f_equal.
    + apply masks_are_decisions; [exact HlK|]. intros j v Hj. apply (Hin j v Hj).
    + apply masks_are_decisions; [exact HlG|]. intros j v Hj. apply (Hin j v Hj).
Qed.

Lemma v0LoopMonteCarlo_masks task pc fw host collision tb h :
  consecutiveIndices tb ->
  exists h',
    v0LoopMonteCarlo task pc fw host collision (V0Table.offset tb) (V0Table.rows tb)
      (replicate (V0Table.size tb) false) (replicate (V0Table.size tb) false) h
    = Some (map (k0ShortDecisionMonteCarlo task pc fw host collision) (V0Table.rows tb),
            map (gammaDecisionMonteCarlo task pc fw host collision) (V0Table.rows tb),
            h').
Proof.
  intros Hidx.
  destruct (v0LoopMonteCarlo_spec task pc fw host collision (V0Table.offset tb)
              (V0Table.rows tb) 0%nat
              (replicate (V0Table.size tb) false) (replicate (V0Table.size tb) false) h)
    as (selK' & selG' & h' & Hrun & HlK & HlG & _ & Hin).
  - apply consecutive_from_zero. exact Hidx.
  - rewrite length_replicate. unfold V0Table.size. lia.
  - rewrite length_replicate. unfold V0Table.size. lia.
  - exists h'. rewrite Hrun. rewrite length_replicate in HlK, HlG.
    unfold V0Table.size in *.
    assert (Hrep : forall j v, V0Table.rows tb !! j = Some v ->
                   replicate (length (V0Table.rows tb)) false !! (0 + j)%nat = Some false).
    { intros j v Hj. apply lookup_replicate_2. apply lookup_lt_Some in Hj. lia. }
    f_equal. f_equal. f_equal.
    + apply masks_are_decisions; [exact HlK|]. intros j v Hj.
      destruct (Hin j v Hj) as [E _]. rewrite E.
      unfold k0ShortDecisionMonteCarlo.
      destruct (has_v0MCCore host v); [reflexivity|]. simpl. apply (Hrep j v Hj).
    + apply masks_are_decisions; [exact HlG|]. intros j v Hj.
      destruct (Hin j v Hj) as [_ E]. rewrite E.
      unfold gammaDecisionMonteCarlo.
      destruct (has_v0MCCore host v); [reflexivity|]. simpl. apply (Hrep j v Hj).
Qed.

Lemma fillQAplot_before_length pc fw collision k g :
  length (fillQAplot pc fw collision k g 0 []) = 18%nat.
Proof. unfold fillQAplot. cbv zeta. rewrite fill_all_app. reflexivity. Qed.

Lemma decision_of_mask (tb : V0Table.t) (d : V0.t -> bool) v :
  consecutiveIndices tb -> In v (V0Table.rows tb) ->
  maskBit tb (map d (V0Table.rows tb)) v = Some (d v).
Proof.
  intros Hidx Hin. destruct (In_lookup _ _ Hin) as [i Hi].
  rewrite (maskBit_lookup tb Hidx _ i v Hi).
  change (map ?f ?l) with (f <$> l). now rewrite list_lookup_fmap, Hi.
Qed.

(** X14. The loop over the V0s of [processRealData] on a grouped table never
    leaves the masks: it returns the masks of the decisions, row by row,
    and adds the 18 QA fills of every row. *)
Theorem X_v0_loop_real_data :
  forall task pc fw host collision fullV0s registry,
    consecutiveIndices fullV0s ->
    v0LoopRealData task pc fw host collision (V0Table.offset fullV0s)
      (V0Table.rows fullV0s)
      (replicate (V0Table.size fullV0s) false)
      (replicate (V0Table.size fullV0s) false) registry
    = Some (map (k0ShortDecisionRealData task pc fw host collision)
                (V0Table.rows fullV0s),
            map (gammaDecisionRealData task pc fw host collision)
                (V0Table.rows fullV0s),
            registry ++ beforeSelectionFills pc fw collision (V0Table.rows fullV0s)) /\
    length (beforeSelectionFills pc fw collision (V0Table.rows fullV0s))
    = (18 * V0Table.size fullV0s)%nat /\
    forall v0, In v0 (V0Table.rows fullV0s) ->
      maskBit fullV0s (map (k0ShortDecisionRealData task pc fw host collision)
                           (V0Table.rows fullV0s)) v0
      = Some (k0ShortDecisionRealData task pc fw host collision v0) /\
      maskBit fullV0s (map (gammaDecisionRealData task pc fw host collision)
                           (V0Table.rows fullV0s)) v0
      = Some (gammaDecisionRealData task pc fw host collision v0).
Proof.
  intros * Hidx. split; [apply v0LoopRealData_masks; exact Hidx|]. split.
  - unfold beforeSelectionFills, V0Table.size.
    induction (V0Table.rows fullV0s) as [|v vs IH]; [reflexivity|].
    cbn [flat_map]. rewrite length_app, IH, fillQAplot_before_length.
    cbn [length]. lia.
  - intros v0 Hin. split; apply decision_of_mask; assumption.
Qed.

Lemma X_v0_loop_real_data_witness :
  v0LoopRealData Defaults.task Sample.pc (Sample.fw zero) SampleRun.host
    Sample.collision 0 (V0Table.rows Sample.batch_two)
    [false; false] [false; false] []
  = Some ([true; true], [true; true],
          beforeSelectionFills Sample.pc (Sample.fw zero) Sample.collision
            (V0Table.rows Sample.batch_two)).
Proof.
  destruct (X_v0_loop_real_data Defaults.task Sample.pc (Sample.fw zero) SampleRun.host
              Sample.collision Sample.batch_two []) as [H _].
  - grouped_rows.
  - etransitivity; [exact H|]. vm_compute; reflexivity.
Defined.

Lemma v0LoopMonteCarlo_fills task pc fw host collision off vs :
  forall selK selG h r,
    v0LoopMonteCarlo task pc fw host collision off vs selK selG h = Some r ->
    snd r = h ++ beforeSelectionFillsMonteCarlo pc fw host collision vs.
Proof.
  induction vs as [|v vs IH]; intros selK selG h r Hrun; simpl in Hrun.
  - injection Hrun as <-. simpl. now rewrite app_nil_r.
  - unfold beforeSelectionFillsMonteCarlo. cbn [flat_map].
    fold (beforeSelectionFillsMonteCarlo pc fw host collision vs).
    destruct (has_v0MCCore host v); simpl in Hrun.
    + destruct (analyseV0Candidate _ _ _ _ _ _ _ _ _) as [sel|]; simpl in Hrun;
        [|discriminate].
      rewrite (IH _ _ _ _ Hrun), fillQAplot_app, <- app_assoc. reflexivity.
    + apply (IH _ _ _ _ Hrun).
Qed.

(** X15. In [processMonteCarlo] a V0 without Monte-Carlo core is never
    selected: the masks hold the decisions taken with the transverse
    momentum of the core for the rows that have one, and false for the
    others, so such a V0 is in no pair that the matcher forms; the QA
    fills before selection are made for the rows with a core only. *)
Theorem X_v0_loop_monte_carlo :
  forall task pc fw host collision fullV0s registry,
    consecutiveIndices fullV0s ->
    exists selK0ShortIndices selGammaIndices histos',
      v0LoopMonteCarlo task pc fw host collision (V0Table.offset fullV0s)
        (V0Table.rows fullV0s)
        (replicate (V0Table.size fullV0s) false)
        (replicate (V0Table.size fullV0s) false) registry
      = Some (selK0ShortIndices, selGammaIndices, histos') /\
      selK0ShortIndices
      = map (k0ShortDecisionMonteCarlo task pc fw host collision)
            (V0Table.rows fullV0s) /\
      selGammaIndices
      = map (gammaDecisionMonteCarlo task pc fw host collision)
            (V0Table.rows fullV0s) /\
      histos'
      = registry ++ beforeSelectionFillsMonteCarlo pc fw host collision
                      (V0Table.rows fullV0s) /\
      forall pairs k0short gamma,
        emittedPairs fullV0s selK0ShortIndices selGammaIndices = Some pairs ->
        In (k0short, gamma) pairs ->
        has_v0MCCore host k0short = true /\ has_v0MCCore host gamma = true.
Proof.
  intros * Hidx.
  destruct (v0LoopMonteCarlo_masks task pc fw host collision fullV0s registry Hidx)
    as [h' Hrun].
  eexists _, _, h'. split; [exact Hrun|]. split; [reflexivity|]. split; [reflexivity|].
  split; [apply v0LoopMonteCarlo_fills in Hrun; exact Hrun|].
  intros pairs k g He Hin.
  rewrite emittedPairs_closed_form in He.
  - injection He as <-. apply In_pairsOf in Hin as (Hk & Hg & HK & HG & _).
    rewrite (decision_of_mask fullV0s _ k Hidx Hk) in HK.
    rewrite (decision_of_mask fullV0s _ g Hidx Hg) in HG.
    injection HK as HK. injection HG as HG.
    unfold k0ShortDecisionMonteCarlo in HK. unfold gammaDecisionMonteCarlo in HG.
    apply andb_true_iff in HK as [HK _]. apply andb_true_iff in HG as [HG _]. auto.
  - intros v Hv. rewrite (decision_of_mask fullV0s _ v Hidx Hv). eauto.
  - intros v Hv. rewrite (decision_of_mask fullV0s _ v Hidx Hv). eauto.
Qed.

Lemma X_v0_loop_monte_carlo_witness :
  exists histos',
    v0LoopMonteCarlo Defaults.task Sample.pc SampleRun.fw_mc_mixed SampleRun.host
      Sample.collision 0 (V0Table.rows SampleRun.batch_mc)
      [false; false; false] [false; false; false] []
    = Some ([true; false; false], [false; true; false], histos') /\
    length histos' = 36%nat /\
    emittedPairs SampleRun.batch_mc [true; false; false] [false; true; false]
    = Some [(SampleRun.v0_mc 0 1 2 0, SampleRun.v0_mc 1 3 4 1)] /\
    has_v0MCCore SampleRun.host (SampleRun.v0_mc 0 1 2 0) = true /\
    has_v0MCCore SampleRun.host (SampleRun.v0_mc 1 3 4 1) = true.
Proof.
  destruct (X_v0_loop_monte_carlo Defaults.task Sample.pc SampleRun.fw_mc_mixed
              SampleRun.host Sample.collision SampleRun.batch_mc [])
    as (selK & selG & histos' & Hrun & HK & HG & Hfills & Hcores).
  - grouped_rows.
  - assert (EK : selK = [true; false; false]) by (rewrite HK; vm_compute; reflexivity).
    assert (EG : selG = [false; true; false]) by (rewrite HG; vm_compute; reflexivity).
    assert (Hpairs : emittedPairs SampleRun.batch_mc selK selG
                     = Some [(SampleRun.v0_mc 0 1 2 0, SampleRun.v0_mc 1 3 4 1)])
      by (rewrite EK, EG; vm_compute; reflexivity).
    exists histos'. split; [rewrite <- EK, <- EG; exact Hrun|].
    split; [rewrite Hfills; vm_compute; reflexivity|].
    split; [rewrite <- EK, <- EG; exact Hpairs|].
    apply (Hcores _ _ _ Hpairs). left. reflexivity.
Defined.

Lemma maskBit_true_count tb sel v :
  maskBit tb sel v = Some true -> (1 <= count_true sel)%nat.
Proof.
  unfold maskBit, vec_get. destruct (_ <? 0); [discriminate|]. intros H.
  apply list_elem_of_lookup_2, list_elem_of_In in H.
  unfold count_true.
  assert (In true (List.filter (fun b => b) sel)) as Hin by (apply filter_In; auto).
  destruct (List.filter (fun b => b) sel); [contradiction|]. simpl. lia.
Qed.

Lemma no_selection_no_pairs tb selK selG :
  (forall v, In v (V0Table.rows tb) -> is_Some (maskBit tb selK v)) ->
  (forall v, In v (V0Table.rows tb) -> is_Some (maskBit tb selG v)) ->
  count_true selK = 0%nat \/ count_true selG = 0%nat ->
  emittedPairs tb selK selG = Some [].
Proof.
  intros HK HG H0. rewrite emittedPairs_closed_form by assumption. f_equal.
  destruct (flat_map (pairsOf tb selK selG) (V0Table.rows tb)) as [|[k g] ps] eqn:E;
    [reflexivity|].
  assert (In (k, g) (flat_map (pairsOf tb selK selG) (V0Table.rows tb))) as Hin
    by (rewrite E; left; reflexivity).
  apply In_pairsOf in Hin as (_ & _ & Hk & Hg & _).
  apply maskBit_true_count in Hk, Hg. lia.
Qed.

Lemma countAndPair_guard :
  forall task pc fw collision fullV0s selK0ShortIndices selGammaIndices
         centrality selGapSide registry,
    consecutiveIndices fullV0s ->
    length selK0ShortIndices = V0Table.size fullV0s ->
    length selGammaIndices = V0Table.size fullV0s ->
    countAndPair task pc fw collision fullV0s selK0ShortIndices selGammaIndices
                 centrality selGapSide registry
    = buildV0V0Pairs task pc fw collision fullV0s selK0ShortIndices selGammaIndices
        centrality (to_uint8 selGapSide)
        (registry
         ++ [("K0sGamma/h2dNbrOfK0ShortVsCentrality"%string,
              [to_double centrality;
               int_to_double (Z.of_nat (count_true selK0ShortIndices))]);
             ("K0sGamma/h2dNbrOfGammaVsCentrality"%string,
              [to_double centrality;
               int_to_double (Z.of_nat (count_true selGammaIndices))])]).
Proof.
  intros * Hidx HK HG. unfold countAndPair. cbv zeta. unfold fill.
  rewrite <- app_assoc. simpl app.
  destruct ((Z.of_nat (count_true selK0ShortIndices) >=? 1)
            && (Z.of_nat (count_true selGammaIndices) >=? 1)) eqn:Hguard;
    [reflexivity|].
  rewrite buildV0V0Pairs_replay.
  rewrite no_selection_no_pairs; [reflexivity| | |].
  - intros v Hv. apply (maskBit_is_Some fullV0s Hidx); assumption.
  - intros v Hv. apply (maskBit_is_Some fullV0s Hidx); assumption.
  - apply andb_false_iff in Hguard as [H|H]; rewrite Z.geb_leb in H;
      apply Z.leb_gt in H; lia.
Qed.

(** X16. The test [nK0Shorts >= 1 && nGammas >= 1] before the call of
    [buildV0V0Pairs] changes nothing: with masks of the size of a grouped
    table, the matcher forms no pair when one of the masks has no bit set,
    so the registry is what the unconditional call gives. *)
Theorem X_pairing_guard_redundant :
  forall task pc fw collision fullV0s selK0ShortIndices selGammaIndices
         centrality selGapSide registry,
    consecutiveIndices fullV0s ->
    length selK0ShortIndices = V0Table.size fullV0s ->
    length selGammaIndices = V0Table.size fullV0s ->
    countAndPair task pc fw collision fullV0s selK0ShortIndices selGammaIndices
                 centrality selGapSide registry
    = buildV0V0Pairs task pc fw collision fullV0s selK0ShortIndices selGammaIndices
        centrality (to_uint8 selGapSide)
        (registry
         ++ [("K0sGamma/h2dNbrOfK0ShortVsCentrality"%string,
              [to_double centrality;
               int_to_double (Z.of_nat (count_true selK0ShortIndices))]);
             ("K0sGamma/h2dNbrOfGammaVsCentrality"%string,
              [to_double centrality;
               int_to_double (Z.of_nat (count_true selGammaIndices))])]).
Proof. intros; apply countAndPair_guard; assumption. Qed.

Lemma X_pairing_guard_redundant_witness :
  countAndPair Sample.task_data Sample.pc (Sample.fw zero) Sample.collision
    Sample.batch_two [false; false] [false; true] zero (-1) []
  = buildV0V0Pairs Sample.task_data Sample.pc (Sample.fw zero) Sample.collision
      Sample.batch_two [false; false] [false; true] zero 255
      (countFills zero [false; false] [false; true]).
Proof.
  apply (X_pairing_guard_redundant Sample.task_data Sample.pc (Sample.fw zero)
           Sample.collision Sample.batch_two [false; false] [false; true] zero (-1) []).
  - grouped_rows.
  - reflexivity.
  - reflexivity.
Defined.



Lemma rejected_cut_flow task es collision h :
  fst (isEventAccepted task es collision true h) = false ->
  exists n, (1 <= n <= 18)%nat /\
            snd (isEventAccepted task es collision true h) = h ++ cutFlow n.
Proof.
  intros Hrej. destruct (isEventAccepted_cut_flow task es collision h)
    as (n & Hn & Hsnd & Hiff).
  exists n. split; [|exact Hsnd].
  assert (n <> 19%nat) by (intros E; apply Hiff in E; congruence). lia.
Qed.

(** X17. A rejected event only counts in the cut flow: both process functions
    return after [isEventAccepted], with the bins of the passed stages
    filled and nothing else changed. *)
Theorem X_rejected_event_only_counts :
  forall task opts pc fw host collision fullV0s st st1,
    ccdbStep task opts host collision st = Returned st1 ->
    fst (isEventAccepted task (taskOptions.eventSelections opts) collision true
                         (histos st1)) = false ->
    exists n,
      (1 <= n <= 18)%nat /\
      processRealData task opts pc fw host collision fullV0s st
      = Returned (withHistos (histos st1 ++ cutFlow n) st1) /\
      processMonteCarlo task opts pc fw host collision fullV0s st
      = Returned (withHistos (histos st1 ++ cutFlow n) st1).
Proof.
  intros * Hinit Hrej.
  destruct (rejected_cut_flow _ _ _ _ Hrej) as (n & Hn & Hsnd).
  exists n. split; [exact Hn|].
  unfold processRealData, processMonteCarlo, processCollision.
  unfold ccdbStep in Hinit. rewrite Hinit. cbn [andThen]. cbv zeta.
  rewrite Hrej, Hsnd. cbn [negb]. auto.
Qed.

Lemma X_rejected_event_only_counts_witness :
  exists n,
    (1 <= n <= 18)%nat /\
    processRealData Defaults.task (SampleRun.options false) Sample.pc (Sample.fw zero)
      SampleRun.host (SampleRun.event 0) Sample.batch_two SampleRun.state
    = Returned (withHistos (cutFlow n) SampleRun.state) /\
    processMonteCarlo Defaults.task (SampleRun.options false) Sample.pc (Sample.fw zero)
      SampleRun.host (SampleRun.event 0) Sample.batch_two SampleRun.state
    = Returned (withHistos (cutFlow n) SampleRun.state).
Proof.
  apply (X_rejected_event_only_counts Defaults.task (SampleRun.options false) Sample.pc
           (Sample.fw zero) SampleRun.host (SampleRun.event 0) Sample.batch_two
           SampleRun.state SampleRun.state).
  - reflexivity.
  - vm_compute; reflexivity.
Defined.








(** * Properties of the CCDB and model initialisation *)

Lemma loadMachines_ccdb_closed :
  forall task opts host timeStampML st,
    taskOptions.loadCustomModelsFromCCDB opts = true ->
    loadMachines task opts host timeStampML st
    = match List.find (fun model => negb (fetched task opts host timeStampML model))
                      loadOrder with
      | Some model => Fatal (fatalMessage model)
      | None =>
          Returned
            (addCalls (ccdbApi_init (taskOptions.ccdburl opts)
                       :: flat_map (fetchCalls opts timeStampML)
                                   (requestedModels task opts)) st)
      end.
Proof.
  intros * Hccdb. unfold loadMachines. rewrite Hccdb.
  unfold fetchModel, requestedModels, fetched, loadOrder. cbv zeta.
  cbn [List.find List.filter calculateScores localModelPath].
  destruct st as [h r c].
  destruct (taskOptions.calculateLambdaScores opts);
    [destruct (retrieveBlob host _ _ (taskOptions.localModelPathLambda opts));
     [|reflexivity]|];
  (destruct (taskOptions.calculateAntiLambdaScores opts);
    [destruct (retrieveBlob host _ _ (taskOptions.localModelPathAntiLambda opts)) eqn:?;
     [|cbn; rewrite ?Heqb; reflexivity]|]);
  (destruct (mlConfigurations.calculateK0ShortScores (mlConfigurations task));
    [destruct (retrieveBlob host _ _ (taskOptions.localModelPathK0Short opts)) eqn:?;
     [|cbn; repeat match goal with H : _ = _ |- _ => rewrite H end; reflexivity]|]);
  (destruct (mlConfigurations.calculateGammaScores (mlConfigurations task));
    [destruct (retrieveBlob host _ _ (taskOptions.localModelPathGamma opts)) eqn:?
    |]);
  cbn; repeat match goal with H : retrieveBlob _ _ _ _ = _ |- _ => rewrite H end;
  cbn; unfold addCalls, call; cbn; rewrite <- ?app_assoc; reflexivity.
Qed.

(** X21. [loadMachines] with the models on CCDB: it stops at the first model,
    in the order Lambda, AntiLambda, K0Short, Gamma, whose scores are
    asked for and whose blob is not retrieved, with the message of that
    model; when there is none it returns, having initialised the API and
    then retrieved and initialised each requested model in that order. *)
Theorem X_loadMachines_from_ccdb :
  forall task opts host timeStampML st,
    taskOptions.loadCustomModelsFromCCDB opts = true ->
    loadMachines task opts host timeStampML st
    = match List.find (fun model => negb (fetched task opts host timeStampML model))
                      loadOrder with
      | Some model => Fatal (fatalMessage model)
      | None =>
          Returned
            (addCalls (ccdbApi_init (taskOptions.ccdburl opts)
                       :: flat_map (fetchCalls opts timeStampML)
                                   (requestedModels task opts)) st)
      end.
Proof. intros; apply loadMachines_ccdb_closed; assumption. Qed.

Lemma X_loadMachines_from_ccdb_witness :
  loadMachines SampleRun.task_k0short_model (SampleRun.options true) SampleRun.host
    1000 SampleRun.state
  = Fatal (fatalMessage ModelK0Short).
Proof.
  exact (X_loadMachines_from_ccdb SampleRun.task_k0short_model (SampleRun.options true)
           SampleRun.host 1000 SampleRun.state eq_refl).
Defined.

Lemma loadMachines_local_closed task opts host timeStampML st :
  taskOptions.loadCustomModelsFromCCDB opts = false ->
  loadMachines task opts host timeStampML st
  = Returned (addCalls (map (initCall opts) (requestedModels task opts)) st).
Proof.
  intros Hlocal. unfold loadMachines. rewrite Hlocal.
  unfold initLocalModel, requestedModels, loadOrder, initCall.
  cbn [List.filter calculateScores localModelPath].
  destruct st as [h r c].
  destruct (taskOptions.calculateLambdaScores opts),
           (taskOptions.calculateAntiLambdaScores opts),
           (mlConfigurations.calculateK0ShortScores (mlConfigurations task)),
           (mlConfigurations.calculateGammaScores (mlConfigurations task));
    cbn; unfold addCalls, call; cbn; rewrite <- ?app_assoc, ?app_nil_r; reflexivity.
Qed.

(** X22. [loadMachines] with local model files never stops and never talks to
    CCDB: it initialises exactly the models whose scores are asked for,
    in the order Lambda, AntiLambda, K0Short, Gamma, whatever the time
    stamp and the state of CCDB. *)
Theorem X_loadMachines_local :
  forall task opts host timeStampML st,
    taskOptions.loadCustomModelsFromCCDB opts = false ->
    loadMachines task opts host timeStampML st
    = Returned (addCalls (map (initCall opts) (requestedModels task opts)) st).
Proof. intros; apply loadMachines_local_closed; assumption. Qed.

Lemma X_loadMachines_local_witness :
  loadMachines SampleRun.task_k0short_model (SampleRun.options false) SampleRun.host
    1000 SampleRun.state
  = Returned (mkState [] 0 [onnx_initModel ModelK0Short "KZeroShort_BDTModel.onnx" false]).
Proof.
  exact (X_loadMachines_local SampleRun.task_k0short_model (SampleRun.options false)
           SampleRun.host 1000 SampleRun.state eq_refl).
Defined.

Lemma loadMachines_Returned task opts host timeStampML st st1 :
  loadMachines task opts host timeStampML st = Returned st1 ->
  exists cs,
    st1 = addCalls cs st /\
    forall model, calculateScores task opts model = true ->
                  In (initCall opts model) cs.
Proof.
  intros Hrun.
  assert (Hreq : forall model, calculateScores task opts model = true ->
                               In model (requestedModels task opts)).
  { intros model Hm. unfold requestedModels. apply filter_In. split; [|exact Hm].
    unfold loadOrder. destruct model; simpl; auto. }
  destruct (taskOptions.loadCustomModelsFromCCDB opts) eqn:Hccdb.
  - rewrite (loadMachines_ccdb_closed _ _ _ _ _ Hccdb) in Hrun.
    destruct (List.find _ _); [discriminate|]. injection Hrun as <-.
    eexists. split; [reflexivity|]. intros model Hm. right.
    apply in_flat_map. exists model. split; [apply Hreq; exact Hm|].
    unfold fetchCalls, initCall. simpl. auto.
  - rewrite (loadMachines_local_closed _ _ _ _ _ Hccdb) in Hrun.
    injection Hrun as <-. eexists. split; [reflexivity|].
    intros model Hm. apply in_map. apply Hreq. exact Hm.
Qed.

Lemma loadMachines_Fatal task opts host timeStampML st message :
  loadMachines task opts host timeStampML st = Fatal message ->
  taskOptions.loadCustomModelsFromCCDB opts = true /\
  exists model,
    message = fatalMessage model /\
    calculateScores task opts model = true /\
    retrieveBlob host (taskOptions.customModelPathCCDB opts) timeStampML
                 (localModelPath opts model) = false.
Proof.
  intros Hrun.
  destruct (taskOptions.loadCustomModelsFromCCDB opts) eqn:Hccdb.
  - split; [reflexivity|].
    rewrite (loadMachines_ccdb_closed _ _ _ _ _ Hccdb) in Hrun.
    destruct (List.find _ _) as [model|] eqn:Hfind; [|discriminate].
    injection Hrun as <-. exists model. split; [reflexivity|].
    apply find_some in Hfind as [_ Hf]. unfold fetched in Hf.
    apply negb_true_iff, orb_false_iff in Hf as [Hc Hr].
    apply negb_false_iff in Hc. auto.
  - rewrite (loadMachines_local_closed _ _ _ _ _ Hccdb) in Hrun. discriminate.
Qed.

Lemma loadMachines_in_range task opts host timeStampML st :
  loadMachines task opts host timeStampML st <> OutOfRange.
Proof.
  destruct (taskOptions.loadCustomModelsFromCCDB opts) eqn:Hccdb.
  - rewrite (loadMachines_ccdb_closed _ _ _ _ _ Hccdb).
    destruct (List.find _ _); discriminate.
  - rewrite (loadMachines_local_closed _ _ _ _ _ Hccdb). discriminate.
Qed.

Lemma to_int64_spec :
  (forall z, - 2 ^ 63 <= z < 2 ^ 63 -> to_int64 z = z) /\
  (forall z, 2 ^ 63 <= z < 2 ^ 64 -> to_int64 z = z - 2 ^ 64) /\
  to_int64 (2 ^ 63) = - 2 ^ 63.
Proof.
  unfold to_int64. split; [|split].
  - intros z Hz. rewrite Z.mod_small; lia.
  - intros z Hz.
    replace (z + 2 ^ 63) with (z - 2 ^ 63 + 1 * 2 ^ 64) by lia.
    rewrite Z.mod_add by lia. rewrite Z.mod_small; lia.
  - reflexivity.
Qed.

Lemma initCCDB_same_run task opts host collision st :
  mRunNumber st = StraCollision.runNumber collision ->
  initCCDB task opts host collision st = Returned st.
Proof. intros H. unfold initCCDB. rewrite H, Z.eqb_refl. reflexivity. Qed.

Lemma initCCDB_Returned task opts host collision st st1 :
  initCCDB task opts host collision st = Returned st1 ->
  histos st1
  = (if (mRunNumber st =? StraCollision.runNumber collision)
        || negb (taskOptions.cfgSkimmedProcessing opts)
     then histos st
     else populateHistRegistry host (histos st) (StraCollision.runNumber collision)) /\
  mRunNumber st1 = StraCollision.runNumber collision /\
  (exists cs, calls st1 = calls st ++ cs) /\
  (mRunNumber st <> StraCollision.runNumber collision ->
   forall model, calculateScores task opts model = true ->
                 In (initCall opts model) (calls st1)).
Proof.
  unfold initCCDB.
  destruct (Z.eqb_spec (mRunNumber st) (StraCollision.runNumber collision)) as [E|NE].
  - intros [= <-]. split; [reflexivity|]. split; [exact E|].
    split; [exists []; now rewrite app_nil_r|]. intros H. contradiction.
  - cbv zeta. cbn [orb].
    destruct (mlConfigurations.calculateK0ShortScores (mlConfigurations task)
              || taskOptions.calculateLambdaScores opts
              || taskOptions.calculateAntiLambdaScores opts
              || mlConfigurations.calculateGammaScores (mlConfigurations task)) eqn:Hml.
    + intros Hrun. apply loadMachines_Returned in Hrun as (cs & -> & Hin).
      destruct st as [h r c].
      destruct (taskOptions.cfgSkimmedProcessing opts); unfold addCalls, call, withHistos;
        cbn [histos mRunNumber calls negb].
      * split; [reflexivity|]. split; [reflexivity|]. split.
        -- eexists. rewrite <- !app_assoc. reflexivity.
        -- intros _ model Hm. apply in_or_app. right. apply Hin. exact Hm.
      * split; [reflexivity|]. split; [reflexivity|]. split.
        -- eexists. reflexivity.
        -- intros _ model Hm. apply in_or_app. right. apply Hin. exact Hm.
    + intros [= <-]. destruct st as [h r c].
      assert (Hnone : forall model, calculateScores task opts model = true -> False).
      { intros model Hm. destruct model; simpl in Hm; rewrite Hm in Hml;
          rewrite ?orb_true_r in Hml; discriminate. }
      destruct (taskOptions.cfgSkimmedProcessing opts); unfold call, withHistos;
        cbn [histos mRunNumber calls negb].
      * split; [reflexivity|]. split; [reflexivity|]. split.
        -- eexists. rewrite <- !app_assoc. reflexivity.
        -- intros _ model Hm. destruct (Hnone model Hm).
      * split; [reflexivity|]. split; [reflexivity|]. split.
        -- exists []. now rewrite app_nil_r.
        -- intros _ model Hm. destruct (Hnone model Hm).
Qed.

Lemma initCCDB_Fatal task opts host collision st message :
  initCCDB task opts host collision st = Fatal message ->
  mRunNumber st <> StraCollision.runNumber collision /\
  taskOptions.loadCustomModelsFromCCDB opts = true /\
  exists model,
    message = fatalMessage model /\
    calculateScores task opts model = true /\
    retrieveBlob host (taskOptions.customModelPathCCDB opts)
                 (timeStampML_of opts collision)
                 (localModelPath opts model) = false.
Proof.
  unfold initCCDB.
  destruct (Z.eqb_spec (mRunNumber st) (StraCollision.runNumber collision)) as [E|NE];
    [discriminate|].
  cbv zeta. destruct (_ || _ || _ || _); [|discriminate].
  intros Hrun. split; [exact NE|].
  apply loadMachines_Fatal in Hrun as (Hccdb & model & Hmsg & Hm & Hr).
  split; [exact Hccdb|]. exists model. split; [exact Hmsg|]. split; [exact Hm|].
  unfold timeStampML_of. cbv zeta in Hr.
  destruct (taskOptions.timestampCCDB opts =? -1); exact Hr.
Qed.

Lemma initCCDB_in_range task opts host collision st :
  initCCDB task opts host collision st <> OutOfRange.
Proof.
  unfold initCCDB. destruct (_ =? _); [discriminate|]. cbv zeta.
  destruct (_ || _ || _ || _); [apply loadMachines_in_range|discriminate].
Qed.

(** X23. [initCCDB] works once per run: a call that returns sets
    [mRunNumber] to the run of the collision and only adds to the calls
    made; after it, a call for any collision of the same run does
    nothing.  The task itself fills no histogram in it: the registry is
    left as it was when the run equals [mRunNumber] or
    [cfgSkimmedProcessing] is off, and is otherwise what
    [zorro.populateHistRegistry] makes of it.  When the run differs from
    [mRunNumber], every model whose scores are asked for has been
    initialised on return. *)
Theorem X_initCCDB_once_per_run :
  forall task opts host collision st st1,
    initCCDB task opts host collision st = Returned st1 ->
    histos st1
    = (if (mRunNumber st =? StraCollision.runNumber collision)
          || negb (taskOptions.cfgSkimmedProcessing opts)
       then histos st
       else populateHistRegistry host (histos st)
              (StraCollision.runNumber collision)) /\
    mRunNumber st1 = StraCollision.runNumber collision /\
    (exists cs, calls st1 = calls st ++ cs) /\
    (forall collision',
        StraCollision.runNumber collision' = StraCollision.runNumber collision ->
        initCCDB task opts host collision' st1 = Returned st1) /\
    (mRunNumber st <> StraCollision.runNumber collision ->
     forall model, calculateScores task opts model = true ->
                   In (initCall opts model) (calls st1)).
Proof.
  intros * Hrun. apply initCCDB_Returned in Hrun as (Hh & Hr & Hc & Hm).
  split; [exact Hh|]. split; [exact Hr|]. split; [exact Hc|]. split; [|exact Hm].
  intros collision' Hsame. apply initCCDB_same_run. congruence.
Qed.

Lemma X_initCCDB_once_per_run_witness :
  initCCDB SampleRun.task_k0short_model SampleRun.options_skimmed SampleRun.host_zorro
    (SampleRun.event 5) SampleRun.state = Returned SampleRun.state_skimmed /\
  histos SampleRun.state_skimmed
  = populateHistRegistry SampleRun.host_zorro (histos SampleRun.state) 544122 /\
  initCCDB SampleRun.task_k0short_model SampleRun.options_skimmed SampleRun.host_zorro
    (SampleRun.event 0) SampleRun.state_skimmed = Returned SampleRun.state_skimmed.
Proof.
  split; [reflexivity|].
  destruct (X_initCCDB_once_per_run SampleRun.task_k0short_model
              SampleRun.options_skimmed SampleRun.host_zorro (SampleRun.event 5)
              SampleRun.state SampleRun.state_skimmed eq_refl)
    as (Hhistos & _ & _ & Hagain & _).
  split; [exact Hhistos|]. apply Hagain. reflexivity.
Defined.

Lemma processCollision_Fatal task opts pc fw host v0Loop collision fullV0s st message :
  processCollision task opts pc fw host v0Loop collision fullV0s st = Fatal message
  <-> ccdbStep task opts host collision st = Fatal message.
Proof.
  unfold processCollision, ccdbStep.
  destruct (if needsCCDB task opts then initCCDB task opts host collision st
            else Returned st) as [st1|m|]; cbn [andThen]; [|reflexivity|reflexivity].
  cbv zeta. destruct (negb _); [split; discriminate|].
  destruct (inRange (v0Loop _ _ _ _ _ _)) as [sel|m|] eqn:Hsel; cbn [andThen].
  - destruct (inRange (countAndPair _ _ _ _ _ _ _ _ _ _)) as [r|m|] eqn:Hr;
      cbn [andThen]; try (split; discriminate).
    unfold inRange in Hr. destruct (countAndPair _ _ _ _ _ _ _ _ _ _); discriminate.
  - unfold inRange in Hsel. destruct (v0Loop _ _ _ _ _ _); discriminate.
  - split; discriminate.
Qed.

(** X24. The only fatal condition of the two process functions is a model
    that cannot be fetched: a call stops at a [LOG(fatal)] only when the
    configuration asks for CCDB, the models are loaded from CCDB, the run
    differs from [mRunNumber] and the blob of a model whose scores are
    asked for is not retrieved at the time stamp of the configuration,
    or, when that is -1, at the time stamp of the collision converted to
    [int64_t]; the message is the one of that model. *)
Theorem X_fatal_only_from_model_loading :
  forall task opts pc fw host collision fullV0s st message,
    processRealData task opts pc fw host collision fullV0s st = Fatal message \/
    processMonteCarlo task opts pc fw host collision fullV0s st = Fatal message ->
    needsCCDB task opts = true /\
    taskOptions.loadCustomModelsFromCCDB opts = true /\
    mRunNumber st <> StraCollision.runNumber collision /\
    exists model,
      message = fatalMessage model /\
      calculateScores task opts model = true /\
      retrieveBlob host (taskOptions.customModelPathCCDB opts)
                   (timeStampML_of opts collision)
                   (localModelPath opts model) = false.
Proof.
  intros * Hrun.
  assert (Hstep : ccdbStep task opts host collision st = Fatal message).
  { destruct Hrun as [Hrun|Hrun]; apply processCollision_Fatal in Hrun; exact Hrun. }
  unfold ccdbStep in Hstep.
  destruct (needsCCDB task opts); [|discriminate].
  split; [reflexivity|].
  apply initCCDB_Fatal in Hstep as (NE & Hccdb & Hmodel). auto.
Qed.

Lemma X_fatal_only_from_model_loading_witness :
  processRealData SampleRun.task_k0short_model (SampleRun.options true) Sample.pc
    (Sample.fw zero) SampleRun.host (SampleRun.event 5) Sample.batch_two SampleRun.state
  = Fatal (fatalMessage ModelK0Short) /\
  needsCCDB SampleRun.task_k0short_model (SampleRun.options true) = true /\
  mRunNumber SampleRun.state <> StraCollision.runNumber (SampleRun.event 5).
Proof.
  split; [reflexivity|].
  destruct (X_fatal_only_from_model_loading SampleRun.task_k0short_model
              (SampleRun.options true) Sample.pc (Sample.fw zero) SampleRun.host
              (SampleRun.event 5) Sample.batch_two SampleRun.state
              (fatalMessage ModelK0Short) (or_introl eq_refl))
    as (Hneeds & _ & Hrun & _).
  split; [exact Hneeds | exact Hrun].
Defined.

(** X25. A model is initialised before its scores are evaluated: when a score
    mode with calculated scores is on for K0-short or photon candidates
    and the run of the collision differs from [mRunNumber], the CCDB step
    that returns has initialised that model, and set [mRunNumber]; when
    the run equals [mRunNumber], the step does nothing at all. *)
Theorem X_models_initialised_before_use :
  forall task opts host collision st st1 model,
    ccdbStep task opts host collision st = Returned st1 ->
    (model = ModelK0Short /\
     mlConfigurations.useK0ShortScores (mlConfigurations task) = true /\
     mlConfigurations.calculateK0ShortScores (mlConfigurations task) = true) \/
    (model = ModelGamma /\
     mlConfigurations.useGammaScores (mlConfigurations task) = true /\
     mlConfigurations.calculateGammaScores (mlConfigurations task) = true) ->
    (mRunNumber st <> StraCollision.runNumber collision ->
     In (initCall opts model) (calls st1) /\
     mRunNumber st1 = StraCollision.runNumber collision) /\
    (mRunNumber st = StraCollision.runNumber collision -> st1 = st).
Proof.
  intros * Hstep Hmode.
  assert (Hneeds : needsCCDB task opts = true /\ calculateScores task opts model = true).
  { unfold needsCCDB.
    destruct Hmode as [(-> & Hu & Hc)|(-> & Hu & Hc)]; simpl; rewrite Hu, Hc;
      rewrite ?orb_true_r; auto. }
  destruct Hneeds as [Hneeds Hcalc].
  unfold ccdbStep in Hstep. rewrite Hneeds in Hstep. split.
  - intros NE. apply initCCDB_Returned in Hstep as (_ & Hr & _ & Hm). auto.
  - intros E. rewrite (initCCDB_same_run _ _ _ _ _ E) in Hstep. congruence.
Qed.

Lemma X_models_initialised_before_use_witness :
  In (initCall (SampleRun.options false) ModelK0Short) (calls SampleRun.state_loaded) /\
  mRunNumber SampleRun.state_loaded = 544122.
Proof.
  destruct (X_models_initialised_before_use SampleRun.task_k0short_model
              (SampleRun.options false) SampleRun.host (SampleRun.event 5)
              SampleRun.state SampleRun.state_loaded ModelK0Short eq_refl)
    as [Hfresh _].
  - left. split; [reflexivity|]. split; reflexivity.
  - apply Hfresh. discriminate.
Defined.

(** * Properties of the task [readv0s] *)

Lemma readv0s_processOriginal_fills (Tr : Type) (at_ : Z -> Tr) (hasITS : Tr -> bool)
    v0tables : forall histos,
  readv0s.processOriginal Tr at_ hasITS v0tables histos
  = histos ++ flat_map (fun v0 =>
                          readv0s.fillsOf (readv0s.V0s.v0Type v0)
                            (hasITS (at_ (readv0s.V0s.posTrackId v0)))
                            (hasITS (at_ (readv0s.V0s.negTrackId v0)))) v0tables.
Proof.
  induction v0tables as [|v0 rest IH]; intros histos; simpl.
  - now rewrite app_nil_r.
  - unfold readv0s.fillsOf, fill.
    destruct (readv0s.V0s.v0Type v0 =? 1); simpl negb; cbv iota.
    + destruct (hasITS (at_ (readv0s.V0s.posTrackId v0))),
               (hasITS (at_ (readv0s.V0s.negTrackId v0)));
        simpl; rewrite IH, <- !app_assoc; reflexivity.
    + rewrite IH, <- !app_assoc. reflexivity.
Qed.

Lemma readv0s_processDerived_fills (hasITS : DauTrack.t -> bool) fw fullV0s :
  forall histos,
  readv0s.processDerived hasITS fw fullV0s histos
  = histos ++ flat_map (fun v0 =>
                          readv0s.fillsOf (V0.v0Type v0)
                            (hasITS (posTrackExtra_as fw v0))
                            (hasITS (negTrackExtra_as fw v0))) fullV0s.
Proof.
  induction fullV0s as [|v0 rest IH]; intros histos; simpl.
  - now rewrite app_nil_r.
  - unfold readv0s.fillsOf, fill.
    destruct (V0.v0Type v0 =? 1); simpl negb; cbv iota.
    + destruct (hasITS (posTrackExtra_as fw v0)), (hasITS (negTrackExtra_as fw v0));
        simpl; rewrite IH, <- !app_assoc; reflexivity.
    + rewrite IH, <- !app_assoc. reflexivity.
Qed.

Lemma readv0s_entriesAt_app x h1 h2 :
  readv0s.entriesAt x (h1 ++ h2)
  = (readv0s.entriesAt x h1 + readv0s.entriesAt x h2)%nat.
Proof. unfold readv0s.entriesAt. now rewrite List.filter_app, length_app. Qed.

Lemma readv0s_bins {A} (ty : A -> Z) (pos neg : A -> bool) (rows : list A) :
  let fills := flat_map (fun r => readv0s.fillsOf (ty r) (pos r) (neg r)) rows in
  readv0s.entriesAt (d64 1 (-1)) fills = length rows /\
  readv0s.entriesAt (d64 3 (-1)) fills
  = length (List.filter (fun r => ty r =? 1) rows) /\
  readv0s.entriesAt (d64 5 (-1)) fills
  = length (List.filter (fun r => (ty r =? 1) && (pos r && neg r)) rows) /\
  readv0s.entriesAt (d64 7 (-1)) fills
  = length (List.filter (fun r => (ty r =? 1) && negb (pos r && neg r)) rows).
Proof.
  cbv zeta. induction rows as [|r rows (I1 & I3 & I5 & I7)]; [repeat split|].
  cbn [flat_map List.filter]. rewrite !readv0s_entriesAt_app, I1, I3, I5, I7.
  unfold readv0s.fillsOf.
  destruct (ty r =? 1); [destruct (pos r), (neg r)|];
    (split; [reflexivity|split; [reflexivity|split; reflexivity]]).
Qed.

Lemma filter_partition_length {A} (s g : A -> bool) (rows : list A) :
  (length (List.filter (fun r => s r && g r) rows)
   + length (List.filter (fun r => s r && negb (g r)) rows))%nat
  = length (List.filter s rows).
Proof.
  induction rows as [|r rows IH]; [reflexivity|].
  cbn [List.filter]. destruct (s r), (g r); cbn [andb negb length]; lia.
Qed.

Lemma readv0s_fills_length {A} (ty : A -> Z) (pos neg : A -> bool) (rows : list A) :
  length (flat_map (fun r => readv0s.fillsOf (ty r) (pos r) (neg r)) rows)
  = (length rows + 2 * length (List.filter (fun r => (ty r =? 1)%Z) rows))%nat.
Proof.
  induction rows as [|r rows IH]; [reflexivity|].
  cbn [flat_map List.filter]. rewrite length_app, IH. unfold readv0s.fillsOf.
  destruct (ty r =? 1); cbn [length]; lia.
Qed.

(** X26. [processOriginal] counts every V0 in the first bin of [hV0s] and
    every V0 of type 1 in the second; each V0 of type 1 goes to exactly
    one of the other two bins, the third when both daughter tracks have
    ITS and the fourth otherwise, so the entries added to the third and
    fourth bins add up to those added to the second.  Nothing else is
    filled and earlier entries stay. *)
Theorem X_readv0s_processOriginal_bins :
  forall (TracksCompleteIU : Type) (TracksCompleteIU_at : Z -> TracksCompleteIU)
         (hasITS : TracksCompleteIU -> bool) v0tables histos,
    let out := readv0s.processOriginal TracksCompleteIU TracksCompleteIU_at hasITS
                 v0tables histos in
    let standard := fun v0 => readv0s.V0s.v0Type v0 =? 1 in
    let global := fun v0 =>
      hasITS (TracksCompleteIU_at (readv0s.V0s.posTrackId v0))
      && hasITS (TracksCompleteIU_at (readv0s.V0s.negTrackId v0)) in
    let added := fun x => (readv0s.entriesAt x out - readv0s.entriesAt x histos)%nat in
    firstn (length histos) out = histos /\
    length out
    = (length histos + length v0tables + 2 * length (List.filter standard v0tables))%nat /\
    added (d64 1 (-1)) = length v0tables /\
    added (d64 3 (-1)) = length (List.filter standard v0tables) /\
    added (d64 5 (-1))
    = length (List.filter (fun v0 => standard v0 && global v0) v0tables) /\
    added (d64 7 (-1))
    = length (List.filter (fun v0 => standard v0 && negb (global v0)) v0tables) /\
    (added (d64 5 (-1)) + added (d64 7 (-1)))%nat = added (d64 3 (-1)).
Proof.
  intros. subst out added standard global. cbv beta.
  rewrite readv0s_processOriginal_fills.
  destruct (readv0s_bins readv0s.V0s.v0Type
              (fun v0 => hasITS (TracksCompleteIU_at (readv0s.V0s.posTrackId v0)))
              (fun v0 => hasITS (TracksCompleteIU_at (readv0s.V0s.negTrackId v0)))
              v0tables) as (B1 & B3 & B5 & B7).
  cbv beta in B1, B3, B5, B7.
  rewrite !readv0s_entriesAt_app, B1, B3, B5, B7.
  pose proof (filter_partition_length
                (fun v0 => readv0s.V0s.v0Type v0 =? 1)
                (fun v0 => hasITS (TracksCompleteIU_at (readv0s.V0s.posTrackId v0))
                           && hasITS (TracksCompleteIU_at (readv0s.V0s.negTrackId v0)))
                v0tables) as Hpart.
  cbv beta in Hpart.
  split; [apply take_app_length|]. split.
  - rewrite length_app, readv0s_fills_length. lia.
  - repeat (split; [lia|]). lia.
Qed.

(** X27. [processDerived] fills [hV0s] for the rows of the derived table as
    [processOriginal] does for the rows of [aod::V0s]: every V0 in the
    first bin, every V0 of type 1 in the second and in exactly one of the
    third (both daughters with ITS) and the fourth. *)
Theorem X_readv0s_processDerived_bins :
  forall (hasITS : DauTrack.t -> bool) fw fullV0s histos,
    let out := readv0s.processDerived hasITS fw fullV0s histos in
    let standard := fun v0 => V0.v0Type v0 =? 1 in
    let global := fun v0 =>
      hasITS (posTrackExtra_as fw v0) && hasITS (negTrackExtra_as fw v0) in
    let added := fun x => (readv0s.entriesAt x out - readv0s.entriesAt x histos)%nat in
    firstn (length histos) out = histos /\
    length out
    = (length histos + length fullV0s + 2 * length (List.filter standard fullV0s))%nat /\
    added (d64 1 (-1)) = length fullV0s /\
    added (d64 3 (-1)) = length (List.filter standard fullV0s) /\
    added (d64 5 (-1))
    = length (List.filter (fun v0 => standard v0 && global v0) fullV0s) /\
    added (d64 7 (-1))
    = length (List.filter (fun v0 => standard v0 && negb (global v0)) fullV0s) /\
    (added (d64 5 (-1)) + added (d64 7 (-1)))%nat = added (d64 3 (-1)).
Proof.
  intros. subst out added standard global. cbv beta.
  rewrite readv0s_processDerived_fills.
  destruct (readv0s_bins V0.v0Type
              (fun v0 => hasITS (posTrackExtra_as fw v0))
              (fun v0 => hasITS (negTrackExtra_as fw v0))
              fullV0s) as (B1 & B3 & B5 & B7).
  cbv beta in B1, B3, B5, B7.
  rewrite !readv0s_entriesAt_app, B1, B3, B5, B7.
  pose proof (filter_partition_length
                (fun v0 => V0.v0Type v0 =? 1)
                (fun v0 => hasITS (posTrackExtra_as fw v0)
                           && hasITS (negTrackExtra_as fw v0))
                fullV0s) as Hpart.
  cbv beta in Hpart.
  split; [apply take_app_length|]. split.
  - rewrite length_app, readv0s_fills_length. lia.
  - repeat (split; [lia|]). lia.
Qed.
